(** * Student finance tracker ([bot.py]): shallow embedding and checked properties

    The program is a console bot that keeps a budget and a list of expenses
    in one JSON file.  This development embeds its functions in Rocq and
    proves (or refutes, at concrete inputs) the properties stated about them.

    Conventions of the embedding:
    - a Python [str] is a Rocq [string] holding its UTF-8 encoding;
    - a Python [float] is a primitive binary64 float ([PrimFloat.float]),
      with the IEEE-754 operations of the kernel;
    - a Python exception is a value of [exn], and code that can raise
      returns a [result];
    - the console and the data file are an explicit [world] threaded through
      the handlers (monad [M]); the in-memory [state] dict, which the source
      mutates in place, lives in that world too;
    - [print] and [input] append structured [output] events; the rendering
      of [{x:.2f}] and of the column padding is not modelled;
    - [main], a [while True] loop, is a recursion on a number of turns;
      an input of [n] lines needs at most [n + 1] of them;
    - the handlers work on a ledger of the types the program stores
      ([ledger], [expense]); [main] is defined for the data files whose
      document holds such a ledger, and for those that do not load. *)

From Stdlib Require Import ZArith NArith List String Ascii Bool Lia Floats Permutation Sorted.
From stdpp Require Import base option list gmap strings.
Import ListNotations.

Set Warnings "-register-all,-inexact-float".
Local Open Scope Z_scope.
Local Open Scope string_scope.
Local Open Scope list_scope.

(** ** Exceptions and results *)

Inductive exn : Type :=
| TypeError | ValueError | KeyError | EOFError | OSError | UnicodeDecodeError.

Inductive result (A : Type) : Type :=
| Ok (a : A)
| Raise (e : exn).
Arguments Ok {A} a.
Arguments Raise {A} e.

Definition rbind {A B} (r : result A) (k : A -> result B) : result B :=
  match r with
  | Ok a => k a
  | Raise e => Raise e
  end.

(** ** Python strings (UTF-8 bytes)

    [str.strip], [str.lower] and [str.replace] are library code; they are
    modelled on the byte sequence.  UTF-8 is self-synchronising, so a code
    point is recognised by its bytes at either end of a string. *)

Module Str.

Definition codes (s : string) : list N := List.map N_of_ascii (list_ascii_of_string s).
Definition of_codes (l : list N) : string := string_of_list_ascii (List.map ascii_of_N l).

Definition between (lo hi a : N) : bool := ((lo <=? a) && (a <=? hi))%N.

(** [str.isspace] code points, by encoded length:
    U+0009..000D, U+001C..0020 | U+0085, U+00A0 |
    U+1680, U+2000..200A, U+2028, U+2029, U+202F, U+205F, U+3000. *)
Definition space1 (a : N) : bool := between 9 13 a || between 28 32 a.
Definition space2 (a b : N) : bool := ((a =? 194) && ((b =? 133) || (b =? 160)))%N.
Definition space3 (a b c : N) : bool :=
  ((a =? 225) && (b =? 154) && (c =? 128)
   || (a =? 226) && (b =? 128) && (between 128 138 c || (c =? 168) || (c =? 169) || (c =? 175))
   || (a =? 226) && (b =? 129) && (c =? 159)
   || (a =? 227) && (b =? 128) && (c =? 128))%N.

(** Drops the white space at the head of [l]; with [back] the list is a
    reversed string, and the bytes of a code point come last byte first. *)
Fixpoint drop_space (back : bool) (l : list N) : list N :=
  match l with
  | [] => []
  | a :: r1 =>
      if space1 a then drop_space back r1 else
      match r1 with
      | [] => l
      | b :: r2 =>
          if (if back then space2 b a else space2 a b) then drop_space back r2 else
          match r2 with
          | [] => l
          | c :: r3 =>
              if (if back then space3 c b a else space3 a b c) then drop_space back r3 else l
          end
      end
  end.

(** [s.strip()] *)
Definition strip (s : string) : string :=
  of_codes (List.rev (drop_space true (List.rev (drop_space false (codes s))))).

(** [s.lower()], exact on Basic Latin and on the Cyrillic capitals
    U+0400..U+042F and U+0490 (all the capitals of the Ukrainian
    alphabet); other code points are left as they are. *)
Fixpoint lower_codes (l : list N) : list N :=
  match l with
  | [] => []
  | a :: r =>
      if between 65 90 a then (a + 32)%N :: lower_codes r else
      match r with
      | [] => [a]
      | b :: r' =>
          if ((a =? 208) && between 144 159 b)%N then 208%N :: (b + 32)%N :: lower_codes r'
          else if ((a =? 208) && between 160 175 b)%N then 209%N :: (b - 32)%N :: lower_codes r'
          else if ((a =? 208) && between 128 143 b)%N then 209%N :: (b + 16)%N :: lower_codes r'
          else if ((a =? 210) && (b =? 144))%N then 210%N :: 145%N :: lower_codes r'
          else a :: lower_codes r
      end
  end.

Definition lower (s : string) : string := of_codes (lower_codes (codes s)).

(** [s.replace(",", ".")] *)
Definition comma_to_dot (a : N) : N := if (a =? 44)%N then 46%N else a.

Definition replace_comma (s : string) : string :=
  of_codes (List.map comma_to_dot (codes s)).

(** [needle in s] for two strings: [needle] occurs in [s]. *)
Definition contains (needle s : string) : bool :=
  match String.index 0 needle s with
  | Some _ => true
  | None => false
  end.

Definition is_ascii (s : string) : Prop := Forall (fun a => (a < 128)%N) (codes s).

End Str.

(** ** Python floats

    [float(s)] for a string and the built-in [sum] are library code.
    [PyFloat.of_string] follows the grammar of the language reference
    (sign, [inf]/[infinity]/[nan] in any letter case, digits with single
    underscores between them, optional fraction and exponent) over ASCII
    digits, and rounds the decimal value to the nearest binary64 float,
    ties to even. *)

Module PyFloat.

Definition is_digit (a : N) : bool := Str.between 48 57 a.
Definition dval (a : N) : Z := Z.of_N a - 48.

(** The rest of a digit part: digits, each optionally preceded by one
    underscore.  [v] is the value read so far, [n] the number of digits. *)
Fixpoint digits_run (l : list N) (v n : Z) : Z * Z * list N :=
  match l with
  | [] => (v, n, [])
  | a :: r =>
      if is_digit a then digits_run r (10 * v + dval a) (n + 1)
      else if (a =? 95)%N then
        match r with
        | b :: r' => if is_digit b then digits_run r' (10 * v + dval b) (n + 1) else (v, n, l)
        | [] => (v, n, l)
        end
      else (v, n, l)
  end.

Definition digitpart (l : list N) (v : Z) : option (Z * Z * list N) :=
  match l with
  | a :: r => if is_digit a then Some (digits_run r (10 * v + dval a) 1) else None
  | [] => None
  end.

(** [number]: digits [m], count of fraction digits, count of all digits, rest. *)
Definition number (l : list N) : option (Z * Z * Z * list N) :=
  match digitpart l 0 with
  | Some (iv, ni, r) =>
      match r with
      | a :: r' =>
          if (a =? 46)%N then
            match digitpart r' iv with
            | Some (v, nf, r'') => Some (v, nf, ni + nf, r'')
            | None => Some (iv, 0, ni, r')
            end
          else Some (iv, 0, ni, r)
      | [] => Some (iv, 0, ni, [])
      end
  | None =>
      match l with
      | a :: r' =>
          if (a =? 46)%N then
            match digitpart r' 0 with
            | Some (v, nf, r'') => Some (v, nf, nf, r'')
            | None => None
            end
          else None
      | [] => None
      end
  end.

Definition sign (l : list N) : bool * list N :=
  match l with
  | a :: r => if (a =? 45)%N then (true, r) else if (a =? 43)%N then (false, r) else (false, l)
  | [] => (false, [])
  end.

(** The exponent, which must end the string. *)
Definition exponent (l : list N) : option Z :=
  match l with
  | [] => Some 0
  | a :: r =>
      if ((a =? 101) || (a =? 69))%N then
        let '(neg, r1) := sign r in
        match digitpart r1 0 with
        | Some (v, _, []) => Some (if neg then - v else v)
        | _ => None
        end
      else None
  end.

(** The binary64 float nearest to [m * 10^e10], for [0 <= m < 10^nd]. *)
Definition nearest (m e10 nd : Z) : spec_float :=
  if (m =? 0)%Z then S754_zero false
  else if (400 <? e10)%Z then S754_infinity false
  else if (nd + e10 <? -400)%Z then S754_zero false
  else if (0 <=? e10)%Z then binary_normalize prec emax (m * 10 ^ e10) 0 false
  else
    let '(q, e, loc) := SFdiv_core_binary prec emax m 0 (10 ^ (- e10)) 0 in
    binary_round_aux prec emax false q e loc.

Definition of_decimal (neg : bool) (m e10 nd : Z) : float :=
  let x := nearest m e10 nd in
  SF2Prim (if neg then SFopp x else x).

Definition word (l : list N) : string := Str.lower (Str.of_codes l).

(** [float(s)]; [None] stands for [ValueError]. *)
Definition of_string (s : string) : option float :=
  let '(neg, body) := sign (Str.codes (Str.strip s)) in
  if String.eqb (word body) "inf" || String.eqb (word body) "infinity" then
    Some (if neg then neg_infinity else infinity)
  else if String.eqb (word body) "nan" then Some nan
  else
    match number body with
    | Some (m, nf, nd, r) =>
        match exponent r with
        | Some e => Some (of_decimal neg m (e - nf) nd)
        | None => None
        end
    | None => None
    end.

(** [float(k)] for an integer that converts without overflow. *)
Definition of_Z (k : Z) : float := SF2Prim (binary_normalize prec emax k 0 false).

(** [sum(xs)] over floats as CPython up to 3.11 computes it: left to
    right, from the integer [0], one rounded addition per item. *)
Definition sum (xs : list float) : float := fold_left PrimFloat.add xs 0%float.

(** The same sum as CPython 3.12 and later compute it, with Neumaier's
    compensation: [c] collects the rounding errors of the running sum
    [f] and is added at the end unless it is zero or not finite. *)
Definition is_finite (x : float) : bool := (abs x <? infinity)%float.

Fixpoint neumaier (xs : list float) (f c : float) : float :=
  match xs with
  | [] => if negb (c =? 0)%float && is_finite c then (f + c)%float else f
  | x :: r =>
      let t := (f + x)%float in
      let c' := if (abs x <=? abs f)%float then (c + ((f - t) + x))%float
                else (c + ((x - t) + f))%float in
      neumaier r t c'
  end.

Definition sum_compensated (xs : list float) : float :=
  match xs with
  | [] => 0%float
  | x :: r => neumaier r (0 + x)%float 0%float
  end.

End PyFloat.

(** ** Calendar dates

    [datetime.strptime(s, "%Y-%m-%d").date()] is library code.  Its regular
    expression is [\d\d\d\d-(1[0-2]|0[1-9]|[1-9])-(3[01]|[12]\d|0[1-9]|[1-9]| [1-9])]
    (alternatives tried in that order, [\d] read as an ASCII digit), the
    whole string must be consumed, and the fields must form a date of the
    proleptic Gregorian calendar with a year in 1..9999. *)

Module PyDate.

Record date : Type := { year : Z; month : Z; day : Z }.

Definition is_leap (y : Z) : bool :=
  (y mod 4 =? 0)%Z && (negb (y mod 100 =? 0)%Z || (y mod 400 =? 0)%Z).

Definition days_in_month (y m : Z) : Z :=
  if (m =? 2)%Z then (if is_leap y then 29 else 28)
  else if ((m =? 4) || (m =? 6) || (m =? 9) || (m =? 11))%Z then 30
  else 31.

Definition valid (d : date) : bool :=
  ((1 <=? year d) && (year d <=? 9999) && (1 <=? month d) && (month d <=? 12)
   && (1 <=? day d) && (day d <=? days_in_month (year d) (month d)))%Z.

(** [a < b] and [a <= b] on dates: the order of [(year, month, day)]. *)
Definition ltb (a b : date) : bool :=
  ((year a <? year b)
   || (year a =? year b) && ((month a <? month b)
                             || (month a =? month b) && (day a <? day b)))%Z.

Definition leb (a b : date) : bool := negb (ltb b a).

Definition is_digit (a : N) : bool := Str.between 48 57 a.
Definition dval (a : N) : Z := Z.of_N a - 48.

(** The month group and what follows it. *)
Definition month_group (l : list N) : option (Z * list N) :=
  match l with
  | a :: b :: r =>
      if ((a =? 49) && Str.between 48 50 b)%N then Some (10 + dval b, r)
      else if ((a =? 48) && Str.between 49 57 b)%N then Some (dval b, r)
      else if Str.between 49 57 a then Some (dval a, b :: r)
      else None
  | [a] => if Str.between 49 57 a then Some (dval a, []) else None
  | [] => None
  end.

(** The day group and what follows it. *)
Definition day_group (l : list N) : option (Z * list N) :=
  match l with
  | a :: b :: r =>
      if ((a =? 51) && Str.between 48 49 b)%N then Some (30 + dval b, r)
      else if (Str.between 49 50 a && is_digit b)%N then Some (10 * dval a + dval b, r)
      else if ((a =? 48) && Str.between 49 57 b)%N then Some (dval b, r)
      else if Str.between 49 57 a then Some (dval a, b :: r)
      else if ((a =? 32) && Str.between 49 57 b)%N then Some (dval b, r)
      else None
  | [a] => if Str.between 49 57 a then Some (dval a, []) else None
  | [] => None
  end.

(** [datetime.strptime(s, "%Y-%m-%d").date()]; [None] stands for [ValueError]. *)
Definition strptime (s : string) : option date :=
  match Str.codes s with
  | y1 :: y2 :: y3 :: y4 :: dash1 :: r =>
      if is_digit y1 && is_digit y2 && is_digit y3 && is_digit y4 && (dash1 =? 45)%N then
        match month_group r with
        | Some (m, dash2 :: r') =>
            if (dash2 =? 45)%N then
              match day_group r' with
              | Some (d, []) =>
                  let dt := {| year := 1000 * dval y1 + 100 * dval y2 + 10 * dval y3 + dval y4;
                               month := m; day := d |} in
                  if valid dt then Some dt else None
              | _ => None
              end
            else None
        | _ => None
        end
      else None
  | _ => None
  end.

Definition digit (k : Z) : N := Z.to_N (48 + k mod 10).

(** [d.isoformat()]: [YYYY-MM-DD], zero padded. *)
Definition isoformat (d : date) : string :=
  Str.of_codes [digit (year d / 1000); digit (year d / 100); digit (year d / 10); digit (year d);
                45%N;
                digit (month d / 10); digit (month d);
                45%N;
                digit (day d / 10); digit (day d)].

(** A string written [YYYY-MM-DD], two digits for month and day, that
    names a date of the calendar. *)
Definition iso_string (s : string) : Prop :=
  exists d, valid d = true /\ s = isoformat d.

End PyDate.

(** ** The data file

    A JSON document as [json.load] returns it.  [json.load] and [json.dump]
    are library code; a file is described by what opening and loading it
    yields, and a file written by [json.dump v] loads as [v]. *)

Inductive json : Type :=
| JNull
| JBool (b : bool)
| JInt (z : Z)
| JFloat (f : float)
| JStr (s : string)
| JList (l : list json)
| JDict (d : gmap string json).

Inductive disk_file : Type :=
| NoFile                  (* [os.path.exists] is false *)
| Unreadable              (* [open] raises [OSError] *)
| NotUtf8                 (* reading raises [UnicodeDecodeError] *)
| NotJson                 (* [json.load] raises [JSONDecodeError] *)
| Document (v : json).    (* [json.load] returns [v] *)

(** [needle not in container], for a string [needle]. *)
Definition py_not_in (needle : string) (container : json) : result bool :=
  match container with
  | JDict d => Ok (negb (bool_decide (is_Some (d !! needle))))
  | JList l =>
      Ok (negb (existsb (fun x => match x with JStr s => String.eqb s needle | _ => false end) l))
  | JStr s => Ok (negb (Str.contains needle s))
  | JNull | JBool _ | JInt _ | JFloat _ => Raise TypeError
  end.

(** [container[key]], for a string [key]. *)
Definition py_getitem (container : json) (key : string) : result json :=
  match container with
  | JDict d => match d !! key with Some v => Ok v | None => Raise KeyError end
  | _ => Raise TypeError
  end.

(** [isinstance(v, list)] *)
Definition is_list (v : json) : bool :=
  match v with JList _ => true | _ => false end.

Definition default_state : json :=
  JDict (<["budget" := JFloat 0]> (<["expenses" := JList []]> ∅)).

Definition load_state (f : disk_file) : result json :=
  match f with
  | NoFile => Ok default_state
  | Unreadable => Ok default_state
  | NotJson => Ok default_state
  | NotUtf8 => Raise UnicodeDecodeError
  | Document state =>
      rbind (py_not_in "budget" state) (fun no_budget =>
      if no_budget then Ok default_state else
      rbind (py_not_in "expenses" state) (fun no_expenses =>
      if no_expenses then Ok default_state else
      rbind (py_getitem state "expenses") (fun expenses =>
      if negb (is_list expenses) then Ok default_state else Ok state)))
  end.

(** [save_state(state)]: [open(filename, "w")] raises [OSError] when the
    file cannot be written, and the exception is not caught. *)
Definition save_state (state : json) (writable : bool) (f : disk_file) : result disk_file :=
  if writable then Ok (Document state) else Raise OSError.

(** A well-formed ledger: a dict with a numeric [budget] and a list under
    [expenses]. *)
Definition is_number (v : json) : Prop :=
  match v with JInt _ | JFloat _ => True | _ => False end.

Definition well_formed (l : json) : Prop :=
  exists d b es, l = JDict d /\ d !! "budget" = Some b /\ is_number b
                 /\ d !! "expenses" = Some (JList es).

(** ** Expenses and the ledger in memory

    An expense is a dict with the keys [amount], [category], [date] and
    [comment], of the types the program stores (a float and three
    strings); each key may be missing.  [state] has the keys [budget] and
    [expenses]; [budget] may be missing. *)

Record expense : Type := {
  amount : option float;
  category : option string;
  date : option string;
  comment : option string
}.

Record ledger : Type := {
  budget : option float;
  expenses : list expense
}.

Definition put {A} (k : string) (f : A -> json) (v : option A) (d : gmap string json) :
    gmap string json :=
  match v with
  | Some x => <[k := f x]> d
  | None => d
  end.

Definition json_of_expense (e : expense) : json :=
  JDict (put "amount" JFloat (amount e)
        (put "category" JStr (category e)
        (put "date" JStr (date e)
        (put "comment" JStr (comment e) ∅)))).

Definition json_of_ledger (s : ledger) : json :=
  JDict (put "budget" JFloat (budget s)
        (<["expenses" := JList (List.map json_of_expense (expenses s))]> ∅)).

(** [d.get(key, default)] on a field *)
Definition get {A} (field : option A) (default : A) : A :=
  match field with
  | Some v => v
  | None => default
  end.

(** [str(e.get(key))]: a missing key gives [None], printed ["None"]. *)
Definition str_get (field : option string) : string := get field "None".

Definition sentinel : string := "Без категорії".

(** ** Helper functions *)

Definition normalize_category (cat : string) : string :=
  let cat := Str.strip cat in
  if String.eqb cat "" then sentinel else cat.

Definition total_expenses (exps : list expense) : float :=
  PyFloat.sum (List.map (fun e => get (amount e) 0%float) exps).

Definition calculate_balance (budget : float) (exps : list expense) : float :=
  (budget - total_expenses exps)%float.

Definition filter_by_date (exps : list expense) (target_date : string) : list expense :=
  List.filter (fun e => String.eqb (str_get (date e)) target_date) exps.

Definition filter_by_period (exps : list expense) (start end_ : string) : result (list expense) :=
  match PyDate.strptime start with
  | None => Raise ValueError
  | Some start_d =>
      match PyDate.strptime end_ with
      | None => Raise ValueError
      | Some end_d =>
          let '(start_d, end_d) :=
            if PyDate.ltb end_d start_d then (end_d, start_d) else (start_d, end_d) in
          Ok (List.filter
                (fun e =>
                   match PyDate.strptime (str_get (date e)) with
                   | Some d => PyDate.leb start_d d && PyDate.leb d end_d
                   | None => false
                   end) exps)
      end
  end.

Definition filter_by_category (exps : list expense) (cat : string) : list expense :=
  let category_norm := Str.lower (Str.strip cat) in
  List.filter
    (fun e => String.eqb (Str.lower (Str.strip (get (category e) ""))) category_norm) exps.

(** The report is a Python dict from labels to sums; it keeps the order in
    which the labels were first seen. *)
Fixpoint dict_get (d : list (string * float)) (k : string) (default : float) : float :=
  match d with
  | [] => default
  | (k', v) :: r => if String.eqb k' k then v else dict_get r k default
  end.

Fixpoint dict_set (d : list (string * float)) (k : string) (v : float) : list (string * float) :=
  match d with
  | [] => [(k, v)]
  | (k', v') :: r => if String.eqb k' k then (k', v) :: r else (k', v') :: dict_set r k v
  end.

Definition report_step (report : list (string * float)) (e : expense) : list (string * float) :=
  let cat := Str.strip (get (category e) sentinel) in
  let amount := get (amount e) 0%float in
  dict_set report cat (dict_get report cat 0%float + amount)%float.

Definition report_by_categories (exps : list expense) : list (string * float) :=
  fold_left report_step exps [].

(** ** Console, file and state: the world of the handlers *)

Inductive output : Type :=
| Prompt (s : string)                                    (* the prompt of [input(s)] *)
| Line (s : string)                                      (* [print(s)] *)
| LineF (pre : string) (x : float) (post : string)       (* [print(f"pre{x:.2f}post")] *)
| ExpenseRow (i : Z) (d c : string) (a : float) (com : string)
                                                         (* a row of [print_expenses] *)
| ReportRow (cat : string) (a : float).                  (* a row of the report *)

Record world : Type := {
  state : ledger;            (* the dict [state], mutated in place *)
  stdin : list string;       (* the lines still to be read *)
  stdout : list output;      (* what was printed, oldest first *)
  file : disk_file;          (* the data file *)
  writable : bool            (* whether the data file can be opened for writing *)
}.

Definition set_state (s : ledger) (w : world) : world :=
  {| state := s; stdin := stdin w; stdout := stdout w; file := file w; writable := writable w |}.
Definition set_console (ins : list string) (out : list output) (w : world) : world :=
  {| state := state w; stdin := ins; stdout := out; file := file w; writable := writable w |}.
Definition set_file (f : disk_file) (w : world) : world :=
  {| state := state w; stdin := stdin w; stdout := stdout w; file := f; writable := writable w |}.

Definition M (A : Type) : Type := world -> result A * world.

Definition ret {A} (a : A) : M A := fun w => (Ok a, w).

Definition bind {A B} (m : M A) (k : A -> M B) : M B :=
  fun w => match m w with
           | (Ok a, w') => k a w'
           | (Raise e, w') => (Raise e, w')
           end.

Notation "x <- m ;; k" := (bind m (fun x => k))
  (at level 100, m at next level, right associativity).
Notation "m ;;; k" := (bind m (fun _ => k))
  (at level 100, right associativity).

Definition print (o : output) : M unit :=
  fun w => (Ok tt, set_console (stdin w) (stdout w ++ [o]) w).

(** [input(prompt)]: at the end of the input it raises [EOFError]. *)
Definition input (prompt : string) : M string :=
  fun w => match stdin w with
           | [] => (Raise EOFError, set_console [] (stdout w ++ [Prompt prompt]) w)
           | line :: rest => (Ok line, set_console rest (stdout w ++ [Prompt prompt]) w)
           end.

Definition get_state : M ledger := fun w => (Ok (state w), w).
Definition put_state (s : ledger) : M unit := fun w => (Ok tt, set_state s w).

(** [save_state(state)] on the dict in memory *)
Definition save : M unit :=
  fun w => match save_state (json_of_ledger (state w)) (writable w) (file w) with
           | Ok f => (Ok tt, set_file f w)
           | Raise e => (Raise e, w)
           end.

(** ** Input parsers

    The [while True] loops read until a line is accepted; they are
    recursions on the lines that remain, and end with [EOFError] when the
    input does. *)

Definition msg_negative : string := "❌ Сума не може бути від'ємною. Спробуй ще раз.".
Definition msg_not_number : string := "❌ Некоректне число. Приклад: 120 або 120.50".
Definition msg_bad_date : string :=
  "❌ Некоректна дата. Формат має бути YYYY-MM-DD, наприклад 2026-02-27".

Fixpoint parse_float_loop (prompt : string) (lines : list string) (out : list output) :
    result float * list string * list output :=
  match lines with
  | [] => (Raise EOFError, [], out ++ [Prompt prompt])
  | line :: rest =>
      let raw := Str.replace_comma (Str.strip line) in
      match PyFloat.of_string raw with
      | Some value =>
          if (value <? 0)%float
          then parse_float_loop prompt rest (out ++ [Prompt prompt; Line msg_negative])
          else (Ok value, rest, out ++ [Prompt prompt])
      | None => parse_float_loop prompt rest (out ++ [Prompt prompt; Line msg_not_number])
      end
  end.

Definition parse_float (prompt : string) : M float :=
  fun w => let '(r, ins, out) := parse_float_loop prompt (stdin w) (stdout w) in
           (r, set_console ins out w).

Fixpoint parse_date_loop (prompt : string) (lines : list string) (out : list output) :
    result string * list string * list output :=
  match lines with
  | [] => (Raise EOFError, [], out ++ [Prompt prompt])
  | line :: rest =>
      let raw := Str.strip line in
      match PyDate.strptime raw with
      | Some dt => (Ok (PyDate.isoformat dt), rest, out ++ [Prompt prompt])
      | None => parse_date_loop prompt rest (out ++ [Prompt prompt; Line msg_bad_date])
      end
  end.

Definition parse_date (prompt : string) : M string :=
  fun w => let '(r, ins, out) := parse_date_loop prompt (stdin w) (stdout w) in
           (r, set_console ins out w).

(** ** Printing *)

Definition rule (n : nat) : string := string_of_list_ascii (List.repeat "-"%char n).

Definition table_head : string :=
  "#   Дата         Категорія                Сума  Коментар".

Fixpoint print_rows (i : Z) (exps : list expense) : M unit :=
  match exps with
  | [] => ret tt
  | e :: r =>
      let d := get (date e) "----" in
      let c := get (category e) "" in
      let a := get (amount e) 0%float in
      let com := Str.strip (get (comment e) "") in
      print (ExpenseRow i d c a com) ;;;
      print_rows (i + 1) r
  end.

Definition newline : string := String (ascii_of_N 10) "".

Definition print_expenses (exps : list expense) : M unit :=
  match exps with
  | [] => print (Line "ℹ️ Витрат поки немає.")
  | _ =>
      print (Line (String.append newline "📌 Список витрат:")) ;;;
      print (Line (rule 72)) ;;;
      print (Line table_head) ;;;
      print (Line (rule 72)) ;;;
      print_rows 1 exps ;;;
      print (Line (rule 72)) ;;;
      print (LineF "Разом витрат: " (total_expenses exps) newline)
  end.

(** ** Commands of the bot *)

Definition help_text : string :=
"🧾 Доступні команди:
- допомога                 : показати список команд
- встановити бюджет        : задати суму бюджету
- додати витрату           : додати нову витрату (сума, категорія, дата, коментар)
- показати витрати         : показати всі витрати
- витрати за дату          : фільтр витрат за конкретну дату
- витрати за період        : фільтр витрат між двома датами
- витрати за категорією    : фільтр витрат за категорією
- залишок                  : показати залишок бюджету
- звіт за категоріями      : підсумок витрат по категоріях
- вийти                    : завершити роботу".

Definition cmd_help : M unit := print (Line help_text).

Definition cmd_set_budget : M unit :=
  budget <- parse_float "Введи суму бюджету: " ;;
  s <- get_state ;;
  put_state {| budget := Some budget; expenses := expenses s |} ;;;
  save ;;;
  print (LineF "✅ Бюджет встановлено: " budget "").

Definition cmd_add_expense : M unit :=
  amount <- parse_float "Сума витрати: " ;;
  line <- input "Категорія: " ;;
  let category := normalize_category line in
  exp_date <- parse_date "Дата (YYYY-MM-DD): " ;;
  line <- input "Коментар (необов'язково): " ;;
  let comment := Str.strip line in
  let expense := {| amount := Some amount; category := Some category;
                    date := Some exp_date; comment := Some comment |} in
  s <- get_state ;;
  put_state {| budget := budget s; expenses := expenses s ++ [expense] |} ;;;
  save ;;;
  print (Line "✅ Витрату додано.") ;;;
  s <- get_state ;;
  let budget := get (budget s) 0%float in
  let balance := calculate_balance budget (expenses s) in
  if (0 <? budget)%float && (balance <? 0)%float then
    print (LineF "⚠️ УВАГА: Бюджет перевищено на " (abs balance) "!")
  else if (0 <? budget)%float then
    print (LineF "💰 Залишок бюджету: " balance "")
  else ret tt.

Definition cmd_show_expenses : M unit :=
  s <- get_state ;;
  print_expenses (expenses s).

Definition cmd_expenses_by_date : M unit :=
  d <- parse_date "Введи дату (YYYY-MM-DD): " ;;
  s <- get_state ;;
  print_expenses (filter_by_date (expenses s) d).

Definition cmd_expenses_by_period : M unit :=
  start <- parse_date "Початкова дата (YYYY-MM-DD): " ;;
  end_ <- parse_date "Кінцева дата (YYYY-MM-DD): " ;;
  s <- get_state ;;
  fun w => match filter_by_period (expenses s) start end_ with
           | Ok filtered => print_expenses filtered w
           | Raise e => (Raise e, w)
           end.

Definition cmd_expenses_by_category : M unit :=
  line <- input "Введи категорію: " ;;
  let cat := Str.strip line in
  if String.eqb cat "" then print (Line "❌ Категорія не може бути порожньою.")
  else
    s <- get_state ;;
    print_expenses (filter_by_category (expenses s) cat).

Definition cmd_balance : M unit :=
  s <- get_state ;;
  let budget := get (budget s) 0%float in
  let spent := total_expenses (expenses s) in
  let balance := (budget - spent)%float in
  print (LineF "Бюджет: " budget "") ;;;
  print (LineF "Витрати: " spent "") ;;;
  print (LineF "Залишок: " balance "") ;;;
  if (0 <? budget)%float && (balance <? 0)%float then
    print (LineF "⚠️ Бюджет перевищено на " (abs balance) "!")
  else ret tt.

(** [sorted(rep.items(), key=lambda x: x[0].lower())]: a stable sort. *)
Fixpoint insert_sorted (x : string * float) (l : list (string * float)) : list (string * float) :=
  match l with
  | [] => [x]
  | y :: r =>
      if String.ltb (Str.lower (fst x)) (Str.lower (fst y)) then x :: l
      else y :: insert_sorted x r
  end.

Definition sorted_items (rep : list (string * float)) : list (string * float) :=
  fold_left (fun acc x => insert_sorted x acc) rep [].

Fixpoint print_report_rows (rows : list (string * float)) (total : float) : M float :=
  match rows with
  | [] => ret total
  | (cat, amount) :: r =>
      print (ReportRow cat amount) ;;;
      print_report_rows r (total + amount)%float
  end.

Definition cmd_report_categories : M unit :=
  s <- get_state ;;
  let rep := report_by_categories (expenses s) in
  match rep with
  | [] => print (Line "ℹ️ Немає витрат для звіту.")
  | _ =>
      print (Line (String.append newline "📊 Звіт за категоріями:")) ;;;
      print (Line (rule 40)) ;;;
      total <- print_report_rows (sorted_items rep) 0%float ;;
      print (Line (rule 40)) ;;;
      print (LineF "Разом                  " total newline)
  end.

(** ** The dispatcher *)

Definition msg_bye : string := "👋 До зустрічі! Бережи бюджет 🙂".
Definition msg_unknown : string := "❌ Не розпізнав команду. Напиши 'допомога'.".

Definition handle_command (command : string) : M bool :=
  let cmd := Str.lower (Str.strip command) in
  if String.eqb cmd "допомога" || String.eqb cmd "help" || String.eqb cmd "?" then
    cmd_help ;;; ret true
  else if String.eqb cmd "встановити бюджет" then cmd_set_budget ;;; ret true
  else if String.eqb cmd "додати витрату" then cmd_add_expense ;;; ret true
  else if String.eqb cmd "показати витрати" then cmd_show_expenses ;;; ret true
  else if String.eqb cmd "витрати за дату" then cmd_expenses_by_date ;;; ret true
  else if String.eqb cmd "витрати за період" then cmd_expenses_by_period ;;; ret true
  else if String.eqb cmd "витрати за категорією" then cmd_expenses_by_category ;;; ret true
  else if String.eqb cmd "залишок" then cmd_balance ;;; ret true
  else if String.eqb cmd "звіт за категоріями" then cmd_report_categories ;;; ret true
  else if String.eqb cmd "вийти" || String.eqb cmd "exit" || String.eqb cmd "quit" then
    print (Line msg_bye) ;;; ret false
  else
    print (Line msg_unknown) ;;; ret true.

(** ** The main loop *)

Definition greet : M unit :=
  print (Line "👋 Привіт! Я бот «Фінансовий трекер студента».") ;;;
  print (Line (String.append "Напиши 'допомога', щоб побачити команди." newline)).

(** The handlers work on a [ledger]; [main] gets its ledger from the
    document that [load_state] returns.  [ledger_of_json] reads the
    ledger that a document holds, when its values have the types the
    program stores: a float under [budget], and under [expenses] a list
    of dicts with a float under [amount] and strings under [category],
    [date] and [comment], each key optional and no other key present. *)
Definition only_keys (ks : list string) (d : gmap string json) : bool :=
  forallb (fun k => existsb (String.eqb k) ks) (List.map fst (map_to_list d)).

Definition float_field (v : option json) : option (option float) :=
  match v with
  | None => Some None
  | Some (JFloat x) => Some (Some x)
  | Some _ => None
  end.

Definition str_field (v : option json) : option (option string) :=
  match v with
  | None => Some None
  | Some (JStr s) => Some (Some s)
  | Some _ => None
  end.

Definition expense_of_json (j : json) : option expense :=
  match j with
  | JDict d =>
      if only_keys ["amount"; "category"; "date"; "comment"] d then
        match float_field (d !! "amount"), str_field (d !! "category"),
              str_field (d !! "date"), str_field (d !! "comment") with
        | Some a, Some c, Some dt, Some com =>
            Some {| amount := a; category := c; date := dt; comment := com |}
        | _, _, _, _ => None
        end
      else None
  | _ => None
  end.

Fixpoint expenses_of_json (l : list json) : option (list expense) :=
  match l with
  | [] => Some []
  | j :: r =>
      match expense_of_json j, expenses_of_json r with
      | Some e, Some es => Some (e :: es)
      | _, _ => None
      end
  end.

Definition ledger_of_json (j : json) : option ledger :=
  match j with
  | JDict d =>
      if only_keys ["budget"; "expenses"] d then
        match float_field (d !! "budget"), d !! "expenses" with
        | Some b, Some (JList l) =>
            match expenses_of_json l with
            | Some es => Some {| budget := b; expenses := es |}
            | None => None
            end
        | _, _ => None
        end
      else None
  | _ => None
  end.

Definition prompt_command : string := "👉 Команда: ".

(** The [while True] loop of [main].  Every turn reads at least one line,
    so [fuel] turns are enough for an input of fewer than [fuel] lines;
    [None] is a loop that was cut short. *)
Fixpoint main_loop (fuel : nat) (w : world) : option (result unit * world) :=
  match fuel with
  | O => None
  | S fuel' =>
      match input prompt_command w with
      | (Raise e, w1) => Some (Raise e, w1)
      | (Ok user_input, w1) =>
          match handle_command user_input w1 with
          | (Raise e, w2) => Some (Raise e, w2)
          | (Ok true, w2) => main_loop fuel' w2
          | (Ok false, w2) => Some (Ok tt, w2)
          end
      end
  end.

(** [main()].  An exception of [load_state] ends it before the greeting.
    The result is [None] for a data file that loads but whose document
    is outside the stored types: the handlers are not modelled on such a
    state. *)
Definition main (w : world) : option (result unit * world) :=
  match load_state (file w) with
  | Raise e => Some (Raise e, w)
  | Ok doc =>
      match ledger_of_json doc with
      | None => None
      | Some s =>
          match greet (set_state s w) with
          | (Raise e, w1) => Some (Raise e, w1)
          | (Ok _, w1) => main_loop (S (length (stdin w1))) w1
          end
      end
  end.

(** ** Vocabulary of the statements *)

(** An expense with the given label and amount, the other keys missing. *)
Definition spent (cat : string) (a : float) : expense :=
  {| amount := Some a; category := Some cat; date := None; comment := None |}.

(** The label under which the report files an expense, and the expenses
    of a list that are filed under a label. *)
Definition label_of (e : expense) : string := Str.strip (get (category e) sentinel).

Definition group (l : string) (exps : list expense) : list expense :=
  List.filter (fun e => String.eqb (label_of e) l) exps.

(** The value a report holds for a label, if any. *)
Fixpoint dict_find (d : list (string * float)) (k : string) : option float :=
  match d with
  | [] => None
  | (k', v) :: r => if String.eqb k' k then Some v else dict_find r k
  end.

(** The amounts of a list are the whole numbers [ks]. *)
Definition whole_amounts (exps : list expense) (ks : list Z) : Prop :=
  List.map (fun e => get (amount e) 0%float) exps = List.map PyFloat.of_Z ks.

Definition sum_abs (ks : list Z) : Z := fold_right (fun k s => Z.abs k + s) 0 ks.
Definition sum_Z (ks : list Z) : Z := fold_right Z.add 0 ks.

(** The earlier and the later of two dates. *)
Definition earlier (a b : PyDate.date) : PyDate.date := if PyDate.ltb b a then b else a.
Definition later (a b : PyDate.date) : PyDate.date := if PyDate.ltb b a then a else b.

(** An expense is kept by the period filter when its date parses and lies
    between the bounds, both included. *)
Definition within (lo hi : PyDate.date) (e : expense) : bool :=
  match PyDate.strptime (str_get (date e)) with
  | Some d => PyDate.leb lo d && PyDate.leb d hi
  | None => false
  end.

(** The commands of the bot, and the command a typed phrase selects. *)
Inductive command : Type :=
| Help | SetBudget | AddExpense | ShowExpenses | ExpensesByDate | ExpensesByPeriod
| ExpensesByCategory | Balance | ReportByCategory | Exit.

Definition run (c : option command) : M bool :=
  match c with
  | Some Help => cmd_help ;;; ret true
  | Some SetBudget => cmd_set_budget ;;; ret true
  | Some AddExpense => cmd_add_expense ;;; ret true
  | Some ShowExpenses => cmd_show_expenses ;;; ret true
  | Some ExpensesByDate => cmd_expenses_by_date ;;; ret true
  | Some ExpensesByPeriod => cmd_expenses_by_period ;;; ret true
  | Some ExpensesByCategory => cmd_expenses_by_category ;;; ret true
  | Some Balance => cmd_balance ;;; ret true
  | Some ReportByCategory => cmd_report_categories ;;; ret true
  | Some Exit => print (Line msg_bye) ;;; ret false
  | None => print (Line msg_unknown) ;;; ret true
  end.

Definition phrases : list (string * command) :=
  [("допомога", Help); ("help", Help); ("?", Help);
   ("встановити бюджет", SetBudget);
   ("додати витрату", AddExpense);
   ("показати витрати", ShowExpenses);
   ("витрати за дату", ExpensesByDate);
   ("витрати за період", ExpensesByPeriod);
   ("витрати за категорією", ExpensesByCategory);
   ("залишок", Balance);
   ("звіт за категоріями", ReportByCategory);
   ("вийти", Exit); ("exit", Exit); ("quit", Exit)].

Fixpoint lookup_phrase (cmd : string) (l : list (string * command)) : option command :=
  match l with
  | [] => None
  | (p, c) :: r => if String.eqb cmd p then Some c else lookup_phrase cmd r
  end.

Definition selects (typed : string) : option command :=
  lookup_phrase (Str.lower (Str.strip typed)) phrases.

(** Every byte of the string is below 128. *)
Definition ascii_only (s : string) : bool := forallb (fun a => (a <? 128)%N) (Str.codes s).

(** What the add-expense handler prints after "expense added", for a
    budget [b] and a new running total [t]. *)
Definition budget_report (b t : float) : list output :=
  if (0 <? b)%float && (b <? t)%float then
    [LineF "⚠️ УВАГА: Бюджет перевищено на " (t - b)%float "!"]
  else if (0 <? b)%float then
    [LineF "💰 Залишок бюджету: " (b - t)%float ""]
  else [].

(** A step that only reads input and prints: state and file stay, the
    output grows. *)
Definition console_only (w w' : world) : Prop :=
  state w' = state w /\ file w' = file w /\ writable w' = writable w
  /\ exists printed, stdout w' = stdout w ++ printed.

(** Specification floats: a float with the sign [s], or NaN; a mantissa
    brought to a lower exponent; the float nearest to an integer. *)
Definition signed (s : bool) (x : spec_float) : Prop :=
  match x with
  | S754_zero s' | S754_infinity s' | S754_finite s' _ _ => s' = s
  | S754_nan => True
  end.

Definition aligned (m : positive) (e ez : Z) : Z := Zpos (fst (shl_align m e ez)).

Definition nearest_whole (k : Z) : spec_float := binary_normalize prec emax k 0 false.

(** Case analysis on an integer known to lie between two literals. *)
Ltac each_value x lo hi :=
  let rec go n :=
    tryif (let b := eval compute in (Z.ltb hi n) in constr_eq b true) then (exfalso; lia)
    else (let H := fresh in
          destruct (Z.eq_dec x n) as [H|H];
          [ subst x | let m := eval compute in (n + 1) in go m ])
  in go lo.

(** Case analysis on a character code known to lie between two literals. *)
Ltac each_code a lo hi :=
  let rec go n :=
    tryif (let b := eval compute in (N.ltb hi n) in constr_eq b true) then (exfalso; lia)
    else (let H := fresh in
          destruct (N.eq_dec a n) as [H|H];
          [ subst a | let m := eval compute in (n + 1)%N in go m ])
  in go lo.

(** The bounds that the tests of the date parser give on a code. *)
Ltac code_bounds :=
  repeat match goal with
  | H : (_ && _)%bool = true |- _ => apply andb_prop in H; destruct H
  | H : Str.between _ _ _ = true |- _ => unfold Str.between in H
  | H : PyDate.is_digit _ = true |- _ => unfold PyDate.is_digit in H
  | H : (_ =? _)%N = true |- _ => apply N.eqb_eq in H
  | H : (_ <=? _)%N = true |- _ => apply N.leb_le in H
  end.

(** The ways [strptime] lets a date be written, as lists of codes: the
    year with four digits; the month with two digits or, below 10, with
    one; the day with two digits or, below 10, with one digit or with a
    space and one digit; [-] between them. *)
Definition year_text (y : Z) : list N :=
  [PyDate.digit (y / 1000); PyDate.digit (y / 100); PyDate.digit (y / 10); PyDate.digit y].

Definition month_texts (m : Z) : list (list N) :=
  [PyDate.digit (m / 10); PyDate.digit m]
  :: (if (m <? 10)%Z then [[PyDate.digit m]] else []).

Definition day_texts (d : Z) : list (list N) :=
  [PyDate.digit (d / 10); PyDate.digit d]
  :: (if (d <? 10)%Z then [[PyDate.digit d]; [32%N; PyDate.digit d]] else []).

Definition date_texts (d : PyDate.date) : list (list N) :=
  flat_map (fun mt =>
    List.map (fun dt => year_text (PyDate.year d) ++ 45%N :: mt ++ 45%N :: dt)
             (day_texts (PyDate.day d)))
    (month_texts (PyDate.month d)).

(** The string is one of the ways to write a date of the calendar. *)
Definition names_date (s : string) : Prop :=
  exists d, PyDate.valid d = true /\ In (Str.codes s) (date_texts d).

(** [a == b] on two documents that share no object, as the document in
    memory and the one loaded from the file it was written to.  Numbers
    compare by value across [bool], [int] and [float] ([True == 1],
    [1 == 1.0]), a float and an integer exactly; a NaN equals nothing,
    itself included; lists compare item by item, dicts key by key. *)
Definition float_eq_Z (f : float) (z : Z) : bool :=
  match Prim2SF f with
  | S754_zero _ => (z =? 0)%Z
  | S754_finite s m e =>
      if (0 <=? e)%Z then (z =? cond_Zopp s (Zpos m * 2 ^ e))%Z
      else ((Zpos m mod 2 ^ (- e) =? 0) && (z =? cond_Zopp s (Zpos m / 2 ^ (- e))))%Z
  | _ => false
  end.

Definition num (v : json) : option (Z + float) :=
  match v with
  | JBool b => Some (inl (if b then 1 else 0))
  | JInt z => Some (inl z)
  | JFloat f => Some (inr f)
  | _ => None
  end.

Definition num_eqb (a b : Z + float) : bool :=
  match a, b with
  | inl x, inl y => (x =? y)%Z
  | inr f, inr g => (f =? g)%float
  | inl z, inr f | inr f, inl z => float_eq_Z f z
  end.

Fixpoint py_eq (a b : json) {struct a} : bool :=
  match a, b with
  | JNull, JNull => true
  | JStr s, JStr t => String.eqb s t
  | JList l, JList m =>
      (fix items (l m : list json) : bool :=
         match l, m with
         | [], [] => true
         | x :: l', y :: m' => py_eq x y && items l' m'
         | _, _ => false
         end) l m
  | JDict d, JDict e =>
      (size d =? size e)%nat
      && map_fold (fun k v acc =>
                     acc && match e !! k with Some v' => py_eq v v' | None => false end)
                  true d
  | _, _ => match num a, num b with Some x, Some y => num_eqb x y | _, _ => false end
  end.

(** A document whose numbers the file gives back equal: no float is a
    NaN, and no integer is beyond the 4300 decimal digits up to which
    CPython converts between [int] and [str] (beyond them [json.dump]
    raises [ValueError]). *)
Inductive faithful : json -> Prop :=
| faithful_null : faithful JNull
| faithful_bool b : faithful (JBool b)
| faithful_int z : Z.abs z < 10 ^ 4300 -> faithful (JInt z)
| faithful_float f : (f =? f)%float = true -> faithful (JFloat f)
| faithful_str s : faithful (JStr s)
| faithful_list l : (forall x, In x l -> faithful x) -> faithful (JList l)
| faithful_dict d : (forall k v, d !! k = Some v -> faithful v) -> faithful (JDict d).

(** The float, if there is one, is not a NaN. *)
Definition not_nan (x : option float) : Prop :=
  match x with
  | Some f => (f =? f)%float = true
  | None => True
  end.

(** Relations between the world before and the world after a step. *)

(** [m] keeps the relation [R] between the world it starts in and the
    world it ends in, whether it returns or raises. *)
Definition keeps {A} (R : world -> world -> Prop) (m : M A) : Prop :=
  forall w r w', m w = (r, w') -> R w w'.

(** A step that reads lines, prints, and leaves the ledger and the file. *)
Definition read_only (w w' : world) : Prop :=
  console_only w w' /\ stdin w' `suffix_of` stdin w.

(** What every command keeps: input is read forward, output is added to,
    no expense is removed or changed, a [budget] key that is there stays,
    and (with a writable file) either the ledger and the file are both as
    before or the file holds the ledger that is in memory. *)
Definition session (w w' : world) : Prop :=
  stdin w' `suffix_of` stdin w
  /\ stdout w `prefix_of` stdout w'
  /\ writable w' = writable w
  /\ expenses (state w) `prefix_of` expenses (state w')
  /\ (is_Some (budget (state w)) -> is_Some (budget (state w')))
  /\ (writable w = true ->
      (state w' = state w /\ file w' = file w)
      \/ file w' = Document (json_of_ledger (state w'))).

(** How a run may end: by returning, with [EOFError] once the input is
    used up, or with [OSError] when the file cannot be written. *)
Definition clean_end {A} (r : result A) (w' : world) : Prop :=
  match r with
  | Ok _ => True
  | Raise EOFError => stdin w' = []
  | Raise OSError => writable w' = false
  | Raise _ => False
  end.

Definition ends_cleanly {A} (m : M A) : Prop :=
  forall w r w', m w = (r, w') -> clean_end r w'.

(** What is printed. *)

Definition greeting_lines : list output :=
  [Line "👋 Привіт! Я бот «Фінансовий трекер студента».";
   Line (String.append "Напиши 'допомога', щоб побачити команди." newline)].

(** What the date parser prints for the lines it turns down. *)
Definition asked_again (prompt : string) (bad : list string) : list output :=
  flat_map (fun _ => [Prompt prompt; Line msg_bad_date]) bad.

(** The row that [print_expenses] prints for the expense [e] under the
    number [i]: a missing date shows as [----], a missing category or
    comment as the empty text, a missing amount as [0]. *)
Definition expense_row (i : Z) (e : expense) : output :=
  ExpenseRow i (get (date e) "----") (get (category e) "") (get (amount e) 0%float)
    (Str.strip (get (comment e) "")).

(** What [print_expenses] prints for a list. *)
Definition expense_table (exps : list expense) : list output :=
  match exps with
  | [] => [Line "ℹ️ Витрат поки немає."]
  | _ =>
      [Line (String.append newline "📌 Список витрат:"); Line (rule 72);
       Line table_head; Line (rule 72)]
      ++ imap (fun k e => expense_row (1 + Z.of_nat k) e) exps
      ++ [Line (rule 72); LineF "Разом витрат: " (total_expenses exps) newline]
  end.

(** What the balance handler prints for a budget [b] and a total [t]. *)
Definition balance_lines (b t : float) : list output :=
  [LineF "Бюджет: " b ""; LineF "Витрати: " t ""; LineF "Залишок: " (b - t)%float ""]
  ++ (if (0 <? b)%float && (b <? t)%float
      then [LineF "⚠️ Бюджет перевищено на " (t - b)%float "!"]
      else []).

(** The order of the rows of the report: by label in lower case. *)
Definition label_le (x y : string * float) : Prop :=
  String.ltb (Str.lower (fst y)) (Str.lower (fst x)) = false.

Definition report_row (x : string * float) : output := ReportRow (fst x) (snd x).

(** Why [parse_float] turns a line down, if it does: the message it
    prints. *)
Definition refusal (line : string) : option string :=
  match PyFloat.of_string (Str.replace_comma (Str.strip line)) with
  | Some v => if (v <? 0)%float then Some msg_negative else None
  | None => Some msg_not_number
  end.

Definition refused (prompt : string) (bad : list string) : list output :=
  flat_map (fun l => [Prompt prompt; Line (get (refusal l) "")]) bad.

(** [lower] on one ASCII character. *)
Definition ascii_lower (a : N) : N := if Str.between 65 90 a then (a + 32)%N else a.

(** * Properties *)

(** ** Binary64 arithmetic

    Facts about the IEEE-754 operations on the floats of the program, from
    the specification of the primitive floats ([SpecFloat], [FloatAxioms]):
    the sign of a difference, and the magnitude of a negative one. *)

Module Binary64.

Lemma fexp_eq (e : Z) : fexp prec emax e = Z.max (e - 53) (-1074).
Proof. reflexivity. Qed.

Lemma digits_lower (m : positive) : 2 ^ (Zpos (digits2_pos m) - 1) <= Zpos m.
Proof.
  induction m as [m IH|m IH|]; simpl digits2_pos.
  - rewrite Pos2Z.inj_succ.
    replace (Z.succ (Zpos (digits2_pos m)) - 1) with (Z.succ (Zpos (digits2_pos m) - 1)) by lia.
    rewrite Z.pow_succ_r by lia. lia.
  - rewrite Pos2Z.inj_succ.
    replace (Z.succ (Zpos (digits2_pos m)) - 1) with (Z.succ (Zpos (digits2_pos m) - 1)) by lia.
    rewrite Z.pow_succ_r by lia. lia.
  - simpl. lia.
Qed.

Lemma digits_upper (m : positive) : Zpos m < 2 ^ Zpos (digits2_pos m).
Proof.
  induction m as [m IH|m IH|]; simpl digits2_pos.
  - rewrite Pos2Z.inj_succ, Z.pow_succ_r by lia. lia.
  - rewrite Pos2Z.inj_succ, Z.pow_succ_r by lia. lia.
  - simpl. lia.
Qed.

(** Shifting a mantissa to the left. *)
Lemma iter_xO_value (m n : positive) : Zpos (Pos.iter xO m n) = Zpos m * 2 ^ Zpos n.
Proof.
  induction n as [|n IH] using Pos.peano_ind.
  - simpl. lia.
  - rewrite Pos.iter_succ, Pos2Z.inj_succ, Z.pow_succ_r by lia.
    rewrite Pos2Z.inj_xO, IH. lia.
Qed.

Lemma iter_xO_digits (m n : positive) :
  Zpos (digits2_pos (Pos.iter xO m n)) = Zpos (digits2_pos m) + Zpos n.
Proof.
  induction n as [|n IH] using Pos.peano_ind.
  - simpl. lia.
  - rewrite Pos.iter_succ. simpl digits2_pos. rewrite Pos2Z.inj_succ, IH. lia.
Qed.

Lemma shl_align_value (m : positive) (e e' : Z) :
  e' <= e ->
  Zpos (fst (shl_align m e e')) = Zpos m * 2 ^ (e - e') /\ snd (shl_align m e e') = e'.
Proof.
  intros H. unfold shl_align.
  destruct (e' - e) as [|d|d] eqn:Hd.
  - assert (e = e') by lia. subst. rewrite Z.sub_diag. simpl. split; lia.
  - lia.
  - simpl. rewrite iter_xO_value. replace (e - e') with (Zpos d) by lia. split; reflexivity.
Qed.

Lemma shl_align_keep (m : positive) (e e' : Z) : e <= e' -> shl_align m e e' = (m, e).
Proof.
  intros H. unfold shl_align. destruct (e' - e) as [|d|d] eqn:Hd; try reflexivity. lia.
Qed.

(** Shifting a mantissa to the right. *)
Lemma iter_pos_iter {A} (f : A -> A) (p : positive) (x : A) :
  SpecFloat.iter_pos f p x = Pos.iter f x p.
Proof.
  revert x. induction p as [p IH|p IH|]; intros x; simpl.
  - rewrite !IH. rewrite <- Pos.iter_swap. rewrite <- Pos.iter_swap. reflexivity.
  - rewrite !IH. reflexivity.
  - reflexivity.
Qed.

Lemma shr_1_half (mrs : shr_record) : 0 <= shr_m mrs -> shr_m (shr_1 mrs) = shr_m mrs / 2.
Proof.
  destruct mrs as [m r s]. simpl. intros H.
  destruct m as [|[p|p|]|p]; simpl; try reflexivity; try lia.
  - rewrite Pos2Z.inj_xI. apply Z.div_unique with (r := 1); lia.
  - rewrite Pos2Z.inj_xO. apply Z.div_unique with (r := 0); lia.
Qed.

Lemma shr_iter_value (p : positive) (mrs : shr_record) :
  0 <= shr_m mrs -> shr_m (Pos.iter shr_1 mrs p) = shr_m mrs / 2 ^ Zpos p.
Proof.
  revert mrs. induction p as [|p IH] using Pos.peano_ind; intros mrs H.
  - simpl. rewrite shr_1_half by exact H. reflexivity.
  - rewrite Pos.iter_succ_r, IH, shr_1_half by (rewrite ?shr_1_half by exact H; try apply Z.div_pos; lia).
    rewrite Pos2Z.inj_succ, Z.pow_succ_r by lia.
    rewrite Z.div_div by lia. reflexivity.
Qed.

Lemma shr_iter_exact (p m : positive) :
  Pos.iter shr_1 {| shr_m := Zpos (Pos.iter xO m p); shr_r := false; shr_s := false |} p
  = {| shr_m := Zpos m; shr_r := false; shr_s := false |}.
Proof.
  induction p as [|p IH] using Pos.peano_ind.
  - reflexivity.
  - rewrite Pos.iter_succ_r, Pos.iter_succ. simpl shr_1. exact IH.
Qed.

(** Rounding to the format keeps a positive mantissa positive, above the
    least exponent. *)
Lemma shr_fexp_positive (m : positive) (e : Z) (l : location) :
  emin <= e ->
  0 < shr_m (fst (shr_fexp prec emax (Zpos m) e l))
  /\ emin <= snd (shr_fexp prec emax (Zpos m) e l).
Proof.
  intros He. unfold shr_fexp, shr. simpl Zdigits2.
  assert (Hm : shr_m (shr_record_of_loc (Zpos m) l) = Zpos m) by (destruct l as [|[]]; reflexivity).
  destruct (fexp prec emax (Zpos (digits2_pos m) + e) - e) as [|p|p] eqn:Hn; simpl fst; simpl snd.
  - rewrite Hm. lia.
  - rewrite iter_pos_iter, shr_iter_value by (rewrite Hm; lia). rewrite Hm.
    rewrite fexp_eq in Hn. change emin with (-1074) in *.
    assert (Hp : Zpos p = Zpos (digits2_pos m) - 53) by lia.
    split; [|lia].
    pose proof (digits_lower m) as Hl.
    apply Z.div_str_pos. split; [apply Z.pow_pos_nonneg; lia|].
    apply Z.le_trans with (2 ^ (Zpos (digits2_pos m) - 1)); [|exact Hl].
    apply Z.pow_le_mono_r; lia.
  - rewrite Hm. lia.
Qed.

Lemma shl_align_exponent (m : positive) (e e' : Z) :
  emin <= e -> emin <= e' -> emin <= snd (shl_align m e e').
Proof.
  intros He He'. destruct (Z.le_gt_cases e e') as [H|H].
  - rewrite shl_align_keep by exact H. exact He.
  - destruct (shl_align_value m e e') as [_ ->]; [lia|exact He'].
Qed.

Lemma round_nearest_even_positive (m : Z) (l : location) :
  0 < m -> 0 < round_nearest_even m l.
Proof. intros H. destruct l as [|[]]; simpl; try destruct (Z.even m); lia. Qed.

Lemma binary_round_signed (s : bool) (m : positive) (e : Z) :
  signed s (binary_round prec emax s m e).
Proof.
  unfold binary_round, binary_round_aux.
  destruct (shl_align _ _ _) as [mz ez].
  destruct (shr_fexp _ _ _ _ _) as [mrs1 e1].
  destruct (shr_fexp _ _ _ _ _) as [mrs2 e2].
  destruct (shr_m mrs2); simpl; try reflexivity.
  destruct (Z.leb _ _); reflexivity.
Qed.

Lemma binary_round_abs (m : positive) (e : Z) :
  SFabs (binary_round prec emax true m e) = binary_round prec emax false m e.
Proof.
  unfold binary_round, binary_round_aux.
  destruct (shl_align _ _ _) as [mz ez].
  destruct (shr_fexp _ _ _ _ _) as [mrs1 e1].
  destruct (shr_fexp _ _ _ _ _) as [mrs2 e2].
  destruct (shr_m mrs2); simpl; try reflexivity.
  destruct (Z.leb _ _); reflexivity.
Qed.

(** Above the least exponent a non-zero value does not round to zero. *)
Lemma binary_round_nonzero (s : bool) (m : positive) (e : Z) :
  emin <= e ->
  (exists m' e', binary_round prec emax s m e = S754_finite s m' e')
  \/ binary_round prec emax s m e = S754_infinity s.
Proof.
  intros He. unfold binary_round.
  pose proof (shl_align_exponent m e (fexp prec emax (Zpos (digits2_pos m) + e)) He) as Hz.
  destruct (shl_align _ _ _) as [mz ez]. simpl in Hz.
  assert (Hez : emin <= ez) by (apply Hz; rewrite fexp_eq; change emin with (-1074); lia).
  unfold binary_round_aux.
  pose proof (shr_fexp_positive mz ez loc_Exact Hez) as [H1 H1'].
  destruct (shr_fexp prec emax (Zpos mz) ez loc_Exact) as [mrs1 e1]. simpl in H1, H1'.
  pose proof (round_nearest_even_positive (shr_m mrs1) (loc_of_shr_record mrs1) H1) as H2.
  destruct (round_nearest_even (shr_m mrs1) (loc_of_shr_record mrs1)) as [|m2|m2]; try lia.
  pose proof (shr_fexp_positive m2 e1 loc_Exact H1') as [H3 _].
  destruct (shr_fexp prec emax (Zpos m2) e1 loc_Exact) as [mrs2 e2]. simpl in H3.
  destruct (shr_m mrs2) as [|m3|m3]; try lia.
  destruct (Z.leb e2 (emax - prec)); [left; eauto|right; reflexivity].
Qed.

(** A valid finite float has at most 53 digits, exactly 53 above the
    least exponent. *)
Lemma bounded_facts (m : positive) (e : Z) :
  bounded prec emax m e = true ->
  -1074 <= e <= 971 /\ Zpos (digits2_pos m) <= 53
  /\ (e = -1074 \/ Zpos (digits2_pos m) = 53).
Proof.
  unfold bounded, canonical_mantissa. rewrite Bool.andb_true_iff, Z.eqb_eq, Z.leb_le, fexp_eq.
  change (emax - prec) with 971. lia.
Qed.

Lemma bounded_mantissa (m : positive) (e : Z) :
  bounded prec emax m e = true -> Zpos m < 2 ^ 53 /\ (-1074 < e -> 2 ^ 52 <= Zpos m).
Proof.
  intros H. apply bounded_facts in H. destruct H as (He & Hd & Hn).
  pose proof (digits_upper m) as Hu. pose proof (digits_lower m) as Hl.
  split.
  - apply Z.lt_le_trans with (1 := Hu). apply Z.pow_le_mono_r; lia.
  - intros H. destruct Hn as [Hn|Hn]; [lia|]. rewrite Hn in Hl. exact Hl.
Qed.

Lemma aligned_value (m : positive) (e ez : Z) :
  ez <= e -> aligned m e ez = Zpos m * 2 ^ (e - ez).
Proof. intros H. unfold aligned. apply shl_align_value, H. Qed.

(** Of two valid finite floats, the one with the lower exponent has the
    lower magnitude. *)
Lemma lower_exponent_lower_value (mx my : positive) (ex ey : Z) :
  bounded prec emax mx ex = true -> bounded prec emax my ey = true -> ex < ey ->
  aligned mx ex ex < aligned my ey ex.
Proof.
  intros Hx Hy Hlt.
  rewrite !aligned_value by lia. rewrite Z.sub_diag, Z.mul_1_r.
  destruct (bounded_mantissa mx ex Hx) as [Hux _].
  destruct (bounded_mantissa my ey Hy) as [_ Hly].
  pose proof (proj1 (bounded_facts mx ex Hx)) as Hex.
  specialize (Hly ltac:(lia)).
  assert (H2 : 2 ^ 1 <= 2 ^ (ey - ex)) by (apply Z.pow_le_mono_r; lia).
  change (2 ^ 1) with 2 in H2. change (2 ^ 53) with (2 ^ 52 * 2) in Hux.
  nia.
Qed.

(** The order of two valid finite floats is the order of their signed
    mantissas at the lower exponent. *)
Lemma SFcompare_finite (sx sy : bool) (mx my : positive) (ex ey : Z) :
  bounded prec emax mx ex = true -> bounded prec emax my ey = true ->
  SFcompare (S754_finite sx mx ex) (S754_finite sy my ey)
  = Some (Z.compare (cond_Zopp sx (aligned mx ex (Z.min ex ey)))
                    (cond_Zopp sy (aligned my ey (Z.min ex ey)))).
Proof.
  intros Hx Hy.
  assert (HX : 0 < aligned mx ex (Z.min ex ey)) by (unfold aligned; lia).
  assert (HY : 0 < aligned my ey (Z.min ex ey)) by (unfold aligned; lia).
  assert (Hord : Z.compare (aligned mx ex (Z.min ex ey)) (aligned my ey (Z.min ex ey))
                 = match Z.compare ex ey with
                   | Lt => Lt
                   | Gt => Gt
                   | Eq => Pos.compare_cont Eq mx my
                   end).
  { destruct (Z.compare_spec ex ey) as [Heq|Hlt|Hgt].
    - subst ey. rewrite Z.min_id, !aligned_value by lia.
      rewrite Z.sub_diag, !Z.mul_1_r. reflexivity.
    - rewrite Z.min_l by lia. apply Z.compare_lt_iff.
      apply lower_exponent_lower_value; assumption.
    - rewrite Z.min_r by lia. apply Z.compare_gt_iff.
      apply lower_exponent_lower_value; assumption. }
  unfold SFcompare. f_equal.
  destruct sx, sy; unfold cond_Zopp.
  - rewrite Z.compare_opp.
    rewrite (Z.compare_antisym (aligned mx ex (Z.min ex ey)) (aligned my ey (Z.min ex ey))).
    rewrite Hord. destruct (Z.compare ex ey); reflexivity.
  - symmetry. apply Z.compare_lt_iff. lia.
  - symmetry. apply Z.compare_gt_iff. lia.
  - rewrite Hord. reflexivity.
Qed.

Lemma signed_false_not_below_zero (x : spec_float) :
  signed false x -> SFltb x (S754_zero false) = false.
Proof. destruct x as [s|s| |s m e]; simpl; try intros ->; reflexivity. Qed.

Lemma min_exponent_bound (mx my : positive) (ex ey : Z) :
  bounded prec emax mx ex = true -> bounded prec emax my ey = true -> emin <= Z.min ex ey.
Proof.
  intros Hx Hy. apply bounded_facts in Hx, Hy. change emin with (-1074). lia.
Qed.

(** The sign of a difference, on valid floats: [x - y < 0] exactly when
    [x < y]. *)
Lemma SFsub_below_zero (x y : spec_float) :
  valid_binary x = true -> valid_binary y = true ->
  SFltb (SF64sub x y) (S754_zero false) = SFltb x y.
Proof.
  destruct x as [sx|sx| |sx mx ex], y as [sy|sy| |sy my ey]; simpl valid_binary;
    intros Hx Hy;
    try solve [repeat match goal with s : bool |- _ => destruct s end; reflexivity].
  unfold SFltb at 2. rewrite (SFcompare_finite sx sy mx my ex ey Hx Hy).
  unfold SF64sub, SFsub. fold (aligned mx ex (Z.min ex ey)). fold (aligned my ey (Z.min ex ey)).
  rewrite (Z.compare_sub (cond_Zopp sx (aligned mx ex (Z.min ex ey)))).
  destruct (cond_Zopp sx (aligned mx ex (Z.min ex ey))
            - cond_Zopp sy (aligned my ey (Z.min ex ey))) as [|p|p]; simpl binary_normalize.
  - reflexivity.
  - simpl Z.compare. apply signed_false_not_below_zero, binary_round_signed.
  - simpl Z.compare.
    destruct (binary_round_nonzero true p (Z.min ex ey) (min_exponent_bound mx my ex ey Hx Hy))
      as [(m' & e' & ->)| ->]; reflexivity.
Qed.

(** The magnitude of a negative difference is the opposite difference. *)
Lemma SFsub_abs (x y : spec_float) :
  SFltb (SF64sub x y) (S754_zero false) = true ->
  SFabs (SF64sub x y) = SF64sub y x.
Proof.
  destruct x as [sx|sx| |sx mx ex], y as [sy|sy| |sy my ey];
    try solve [repeat match goal with s : bool |- _ => destruct s end;
               simpl; (discriminate || reflexivity)].
  unfold SF64sub, SFsub. rewrite (Z.min_comm ey ex).
  fold (aligned mx ex (Z.min ex ey)). fold (aligned my ey (Z.min ex ey)).
  replace (cond_Zopp sy (aligned my ey (Z.min ex ey)) - cond_Zopp sx (aligned mx ex (Z.min ex ey)))
    with (- (cond_Zopp sx (aligned mx ex (Z.min ex ey))
             - cond_Zopp sy (aligned my ey (Z.min ex ey)))) by lia.
  destruct (cond_Zopp sx (aligned mx ex (Z.min ex ey))
            - cond_Zopp sy (aligned my ey (Z.min ex ey))) as [|p|p]; simpl binary_normalize.
  - discriminate.
  - intros H. rewrite signed_false_not_below_zero in H by apply binary_round_signed.
    discriminate H.
  - intros _. apply binary_round_abs.
Qed.

Lemma zero_spec : Prim2SF 0%float = S754_zero false.
Proof. reflexivity. Qed.

(** On the floats of the program: the difference [x - y] is below zero
    exactly when [x] is below [y]. *)
Theorem sub_below_zero (x y : float) : (x - y <? 0)%float = (x <? y)%float.
Proof.
  rewrite !ltb_spec, sub_spec, zero_spec.
  apply SFsub_below_zero; apply Prim2SF_valid.
Qed.

(** The magnitude of a negative difference [x - y] is [y - x]. *)
Theorem abs_negative_difference (x y : float) :
  (x - y <? 0)%float = true -> abs (x - y) = (y - x)%float.
Proof.
  rewrite ltb_spec, sub_spec, zero_spec. intros H.
  apply Prim2SF_inj. rewrite abs_spec, !sub_spec. apply SFsub_abs, H.
Qed.

End Binary64.

(** ** Whole numbers in binary64

    Integers up to [2^53] are floats, and adding two of them is exact when
    the sum is such an integer too. *)

Module Whole.

Import Binary64.

Lemma shr_fexp_canonical (q : positive) (e : Z) :
  Zpos (digits2_pos q) = 53 -> -1074 <= e <= 971 ->
  shr_fexp prec emax (Zpos q) e loc_Exact
  = ({| shr_m := Zpos q; shr_r := false; shr_s := false |}, e).
Proof.
  intros Hd He. unfold shr_fexp. simpl Zdigits2.
  replace (fexp prec emax (Zpos (digits2_pos q) + e) - e) with 0 by (rewrite fexp_eq; lia).
  reflexivity.
Qed.

(** When the first shift leaves a mantissa of 53 digits and nothing
    beside it, that mantissa is the result. *)
Lemma binary_round_aux_shifted (s : bool) (m : Z) (E : Z) (l : location) (q : positive) (e : Z) :
  shr_fexp prec emax m E l = ({| shr_m := Zpos q; shr_r := false; shr_s := false |}, e) ->
  Zpos (digits2_pos q) = 53 -> -1074 <= e <= 971 ->
  binary_round_aux prec emax s m E l = S754_finite s q e.
Proof.
  intros Hshr Hd He. unfold binary_round_aux. rewrite Hshr.
  cbv beta iota zeta. cbn [shr_m loc_of_shr_record round_nearest_even].
  rewrite shr_fexp_canonical by assumption. cbn [shr_m].
  replace (e <=? emax - prec)%Z with true by (symmetry; apply Z.leb_le; change (emax - prec) with 971; lia).
  reflexivity.
Qed.

(** A mantissa of 53 digits at an exponent of the format is left as it
    is by rounding. *)
Lemma binary_round_aux_canonical (s : bool) (q : positive) (e : Z) :
  Zpos (digits2_pos q) = 53 -> -1074 <= e <= 971 ->
  binary_round_aux prec emax s (Zpos q) e loc_Exact = S754_finite s q e.
Proof.
  intros Hd He. apply binary_round_aux_shifted; try assumption.
  apply shr_fexp_canonical; assumption.
Qed.

Lemma pos_iter_xO_eq (m q : positive) (p : positive) :
  Zpos m = Zpos q * 2 ^ Zpos p -> m = Pos.iter xO q p.
Proof. intros H. rewrite <- iter_xO_value in H. injection H as ->. reflexivity. Qed.

(** Rounding does not depend on how a value with a 53-digit mantissa is
    written: [M * 2^E = q * 2^e] gives [q] at [e]. *)
Lemma binary_round_exact (s : bool) (M q : positive) (E e K : Z) :
  Zpos (digits2_pos q) = 53 -> -1074 <= e <= 971 ->
  0 <= E + K -> 0 <= e + K ->
  Zpos M * 2 ^ (E + K) = Zpos q * 2 ^ (e + K) ->
  binary_round prec emax s M E = S754_finite s q e.
Proof.
  intros Hd He HEK HeK Heq. unfold binary_round.
  destruct (Z.le_gt_cases E e) as [Hle|Hgt].
  - (* the mantissa has zeros to drop *)
    assert (HM : Zpos M = Zpos q * 2 ^ (e - E)).
    { replace (e + K) with ((e - E) + (E + K)) in Heq by lia.
      rewrite (Z.pow_add_r 2 (e - E) (E + K)) in Heq by lia.
      apply Z.mul_reg_r with (2 ^ (E + K)); [apply Z.pow_nonzero; lia|].
      rewrite Heq. ring. }
    assert (HdM : Zpos (digits2_pos M) = 53 + (e - E)).
    { destruct (Z.eq_dec e E) as [->|Hne].
      - rewrite Z.sub_diag, Z.mul_1_r in HM. injection HM as ->. lia.
      - destruct (e - E) as [|p|p] eqn:Hp; try lia.
        apply pos_iter_xO_eq in HM. subst M. rewrite iter_xO_digits. lia. }
    assert (Hf : fexp prec emax (Zpos (digits2_pos M) + E) = e) by (rewrite fexp_eq; lia).
    rewrite Hf, shl_align_keep by exact Hle.
    apply binary_round_aux_shifted; try assumption.
    unfold shr_fexp. simpl Zdigits2. rewrite Hf.
    destruct (e - E) as [|p|p] eqn:Hp; try lia.
    + assert (e = E) by lia. subst E. rewrite Z.mul_1_r in HM. injection HM as ->.
      reflexivity.
    + apply pos_iter_xO_eq in HM. subst M.
      unfold shr. simpl shr_record_of_loc.
      rewrite iter_pos_iter, shr_iter_exact. f_equal. lia.
  - (* the mantissa is brought down to the exponent [e] *)
    assert (Hq : Zpos q = Zpos M * 2 ^ (E - e)).
    { replace (E + K) with ((E - e) + (e + K)) in Heq by lia.
      rewrite (Z.pow_add_r 2 (E - e) (e + K)) in Heq by lia.
      apply Z.mul_reg_r with (2 ^ (e + K)); [apply Z.pow_nonzero; lia|].
      rewrite <- Heq. ring. }
    destruct (E - e) as [|p|p] eqn:Hp; try lia.
    apply pos_iter_xO_eq in Hq.
    assert (HdM : Zpos (digits2_pos M) + Zpos p = 53).
    { rewrite <- Hd, Hq, iter_xO_digits. reflexivity. }
    assert (Hf : fexp prec emax (Zpos (digits2_pos M) + E) = e) by (rewrite fexp_eq; lia).
    rewrite Hf. unfold shl_align.
    replace (e - E) with (Zneg p) by lia.
    rewrite <- Hq. apply binary_round_aux_canonical; assumption.
Qed.

(** An integer up to [2^53] has a 53-digit mantissa at an exponent
    between -52 and 1. *)
Lemma whole_canonical (k : positive) :
  Zpos k <= 2 ^ 53 ->
  exists (q : positive) (e : Z),
    Zpos (digits2_pos q) = 53 /\ -52 <= e <= 1 /\ Zpos q * 2 ^ (e + 52) = Zpos k * 2 ^ 52.
Proof.
  intros Hk.
  pose proof (digits_lower k) as Hl. pose proof (digits_upper k) as Hu.
  assert (Hd : Zpos (digits2_pos k) <= 54).
  { destruct (Z.le_gt_cases (Zpos (digits2_pos k)) 54) as [H|H]; [exact H|].
    assert (2 ^ 54 <= 2 ^ (Zpos (digits2_pos k) - 1)) by (apply Z.pow_le_mono_r; lia).
    change (2 ^ 54) with (2 * 2 ^ 53) in *. lia. }
  destruct (Z.eq_dec (Zpos (digits2_pos k)) 54) as [H54|H54].
  - exists 4503599627370496%positive, 1.
    rewrite H54 in Hl. change (2 ^ (54 - 1)) with (2 ^ 53) in Hl.
    assert (Zpos k = 2 ^ 53) as -> by lia.
    split; [reflexivity|]. split; [lia|reflexivity].
  - destruct (53 - Zpos (digits2_pos k)) as [|p|p] eqn:Hp; try lia.
    + exists k, 0. split; [lia|]. split; [lia|reflexivity].
    + exists (Pos.iter xO k p), (- Zpos p).
      split; [rewrite iter_xO_digits; lia|]. split; [lia|].
      rewrite iter_xO_value.
      replace 52 with (Zpos p + (- Zpos p + 52)) at 2 by lia.
      rewrite (Z.pow_add_r 2 (Zpos p) (- Zpos p + 52)) by lia. ring.
Qed.

Lemma nearest_whole_nonzero (k : Z) :
  k <> 0 -> Z.abs k <= 2 ^ 53 ->
  exists (q : positive) (e : Z),
    Zpos (digits2_pos q) = 53 /\ -52 <= e <= 1
    /\ Zpos q * 2 ^ (e + 52) = Z.abs k * 2 ^ 52
    /\ nearest_whole k = S754_finite (k <? 0)%Z q e.
Proof.
  intros Hk Hb. unfold nearest_whole.
  destruct k as [|p|p]; [contradiction| |];
    (destruct (whole_canonical p Hb) as (q & e & Hd & He & Heq);
     exists q, e; split; [exact Hd|]; split; [exact He|]; split; [exact Heq|];
     simpl binary_normalize;
     apply binary_round_exact with (K := 52); try assumption; lia).
Qed.

Lemma nearest_whole_valid (k : Z) :
  Z.abs k <= 2 ^ 53 -> valid_binary (nearest_whole k) = true.
Proof.
  intros Hb. destruct (Z.eq_dec k 0) as [->|Hk]; [reflexivity|].
  destruct (nearest_whole_nonzero k Hk Hb) as (q & e & Hd & He & _ & ->).
  simpl. unfold bounded, canonical_mantissa. rewrite fexp_eq, Hd.
  apply Bool.andb_true_iff. split; [apply Z.eqb_eq; lia|apply Z.leb_le; change (emax - prec) with 971; lia].
Qed.

Lemma cond_Zopp_abs (k : Z) : cond_Zopp (k <? 0)%Z (Z.abs k) = k.
Proof. unfold cond_Zopp. destruct (Z.ltb_spec k 0); lia. Qed.

(** Adding two integers whose sum stays within [2^53] is exact. *)
Lemma SFadd_whole (a b : Z) :
  Z.abs a <= 2 ^ 53 -> Z.abs b <= 2 ^ 53 -> Z.abs (a + b) <= 2 ^ 53 ->
  SF64add (nearest_whole a) (nearest_whole b) = nearest_whole (a + b).
Proof.
  intros Ha Hb Hc.
  destruct (Z.eq_dec a 0) as [->|Ha0].
  { destruct (Z.eq_dec b 0) as [->|Hb0]; [reflexivity|].
    destruct (nearest_whole_nonzero b Hb0 Hb) as (q & e & _ & _ & _ & Hq).
    rewrite Z.add_0_l, Hq. reflexivity. }
  destruct (Z.eq_dec b 0) as [->|Hb0].
  { destruct (nearest_whole_nonzero a Ha0 Ha) as (q & e & _ & _ & _ & Hq).
    rewrite Z.add_0_r, Hq. reflexivity. }
  destruct (nearest_whole_nonzero a Ha0 Ha) as (qa & ea & Hda & Hea & Heqa & ->).
  destruct (nearest_whole_nonzero b Hb0 Hb) as (qb & eb & Hdb & Heb & Heqb & ->).
  unfold SF64add, SFadd.
  fold (aligned qa ea (Z.min ea eb)). fold (aligned qb eb (Z.min ea eb)).
  set (ez := Z.min ea eb).
  set (D := cond_Zopp (a <? 0)%Z (aligned qa ea ez) + cond_Zopp (b <? 0)%Z (aligned qb eb ez)).
  assert (HD : D * 2 ^ (ez + 52) = (a + b) * 2 ^ 52).
  { assert (Hxa : aligned qa ea ez * 2 ^ (ez + 52) = Z.abs a * 2 ^ 52).
    { rewrite aligned_value by (unfold ez; lia). rewrite <- Heqa.
      replace (ea + 52) with ((ea - ez) + (ez + 52)) by lia.
      rewrite (Z.pow_add_r 2 (ea - ez) (ez + 52)) by (unfold ez; lia). ring. }
    assert (Hxb : aligned qb eb ez * 2 ^ (ez + 52) = Z.abs b * 2 ^ 52).
    { rewrite aligned_value by (unfold ez; lia). rewrite <- Heqb.
      replace (eb + 52) with ((eb - ez) + (ez + 52)) by lia.
      rewrite (Z.pow_add_r 2 (eb - ez) (ez + 52)) by (unfold ez; lia). ring. }
    unfold D. rewrite <- (cond_Zopp_abs a) at 2. rewrite <- (cond_Zopp_abs b) at 2.
    unfold cond_Zopp. destruct (a <? 0)%Z, (b <? 0)%Z; nia. }
  assert (Hpow : 0 < 2 ^ (ez + 52)) by (apply Z.pow_pos_nonneg; unfold ez; lia).
  destruct (Z.eq_dec (a + b) 0) as [Hc0|Hc0].
  { rewrite Hc0 in *. assert (D = 0) as -> by nia. reflexivity. }
  destruct (nearest_whole_nonzero (a + b) Hc0 Hc) as (qc & ec & Hdc & Hec & Heqc & ->).
  destruct D as [|p|p] eqn:HDp; simpl binary_normalize.
  - nia.
  - replace (a + b <? 0)%Z with false by (symmetry; apply Z.ltb_ge; nia).
    apply binary_round_exact with (K := 52); try assumption; try (unfold ez; lia).
    rewrite Heqc. rewrite Z.abs_eq by nia. exact HD.
  - replace (a + b <? 0)%Z with true by (symmetry; apply Z.ltb_lt; nia).
    apply binary_round_exact with (K := 52); try assumption; try (unfold ez; lia).
    rewrite Heqc. rewrite Z.abs_neq by nia.
    change (Zneg p) with (- Zpos p) in HD. lia.
Qed.

Lemma of_Z_spec (k : Z) : Z.abs k <= 2 ^ 53 -> Prim2SF (PyFloat.of_Z k) = nearest_whole k.
Proof. intros H. unfold PyFloat.of_Z. apply Prim2SF_SF2Prim, nearest_whole_valid, H. Qed.

(** On the floats of the program: adding the floats of two integers gives
    the float of their sum, within [2^53]. *)
Theorem add_whole (a b : Z) :
  Z.abs a <= 2 ^ 53 -> Z.abs b <= 2 ^ 53 -> Z.abs (a + b) <= 2 ^ 53 ->
  (PyFloat.of_Z a + PyFloat.of_Z b)%float = PyFloat.of_Z (a + b).
Proof.
  intros Ha Hb Hc. apply Prim2SF_inj.
  rewrite add_spec, !of_Z_spec by assumption. apply SFadd_whole; assumption.
Qed.

End Whole.

(** ** Strings *)

Lemma codes_of_codes (l : list N) :
  Forall (fun a => (a < 256)%N) l -> Str.codes (Str.of_codes l) = l.
Proof.
  intros H. unfold Str.codes, Str.of_codes.
  rewrite list_ascii_of_string_of_list_ascii, List.map_map.
  induction H as [|a r Ha _ IH]; simpl; [reflexivity|].
  rewrite N_ascii_embedding by exact Ha. f_equal. exact IH.
Qed.

Lemma of_codes_codes (s : string) : Str.of_codes (Str.codes s) = s.
Proof.
  unfold Str.codes, Str.of_codes. rewrite List.map_map.
  rewrite <- (string_of_list_ascii_of_string s) at 2. f_equal.
  induction (list_ascii_of_string s) as [|a r IH]; simpl; [reflexivity|].
  rewrite ascii_N_embedding. f_equal. exact IH.
Qed.

Lemma codes_lt (s : string) : Forall (fun a => (a < 256)%N) (Str.codes s).
Proof.
  unfold Str.codes. induction (list_ascii_of_string s) as [|a r IH]; simpl; constructor.
  - apply N_ascii_bounded.
  - exact IH.
Qed.

Lemma drop_space_suffix (back : bool) (l : list N) : suffix (Str.drop_space back l) l.
Proof.
  remember (length l) as n eqn:Hn. revert l Hn.
  induction n as [n IH] using lt_wf_ind. intros l Hn.
  destruct l as [|a [|b [|c r]]]; simpl.
  - reflexivity.
  - destruct (Str.space1 a); [apply suffix_cons_r|]; reflexivity.
  - destruct (Str.space1 a).
    + apply suffix_cons_r. apply (IH 1%nat); [simpl in Hn; lia|reflexivity].
    + destruct (if back then Str.space2 b a else Str.space2 a b); [|reflexivity].
      do 2 apply suffix_cons_r. reflexivity.
  - destruct (Str.space1 a).
    + apply suffix_cons_r. eapply IH; [|reflexivity]. simpl in Hn. simpl. lia.
    + destruct (if back then Str.space2 b a else Str.space2 a b).
      * do 2 apply suffix_cons_r. eapply IH; [|reflexivity]. simpl in Hn. simpl. lia.
      * destruct (if back then Str.space3 c b a else Str.space3 a b c); [|reflexivity].
        do 3 apply suffix_cons_r. eapply IH; [|reflexivity]. simpl in Hn. lia.
Qed.

Lemma Forall_suffix {A} (P : A -> Prop) (k l : list A) : suffix k l -> Forall P l -> Forall P k.
Proof. intros [pre ->] H. apply Forall_app in H. tauto. Qed.

Lemma strip_kept (P : N -> Prop) (l : list N) :
  Forall P l ->
  Forall P (List.rev (Str.drop_space true (List.rev (Str.drop_space false l)))).
Proof.
  intros H. apply List.Forall_rev.
  apply (Forall_suffix P _ _ (drop_space_suffix true _)).
  apply List.Forall_rev.
  apply (Forall_suffix P _ _ (drop_space_suffix false _)). exact H.
Qed.

Lemma strip_codes (P : N -> Prop) (s : string) :
  Forall P (Str.codes s) -> Forall P (Str.codes (Str.strip s)).
Proof.
  intros H. unfold Str.strip.
  rewrite codes_of_codes by (apply strip_kept, codes_lt).
  apply strip_kept, H.
Qed.

(** ** Storage *)

Lemma load_state_missing : load_state NoFile = Ok default_state.
Proof. reflexivity. Qed.

Lemma load_state_unparsable : load_state NotJson = Ok default_state.
Proof. reflexivity. Qed.

(** On a document that is a dict, [load_state] checks the two keys and the
    type of [expenses], and nothing below. *)
Lemma load_state_dict (d : gmap string json) :
  load_state (Document (JDict d)) =
  Ok (match d !! "budget", d !! "expenses" with
      | Some _, Some (JList _) => JDict d
      | _, _ => default_state
      end).
Proof.
  unfold load_state, py_not_in, py_getitem, rbind.
  destruct (d !! "budget") as [b|]; simpl; [|reflexivity].
  destruct (d !! "expenses") as [e|]; simpl; [|reflexivity].
  destruct e; reflexivity.
Qed.

Lemma load_state_budget_only :
  load_state (Document (JDict (<["budget" := JInt 5]> ∅))) = Ok default_state.
Proof. rewrite load_state_dict. vm_compute. reflexivity. Qed.

(** C1 (the code departs from the claim): a data file that holds the JSON
    document [5] parses, has no [budget] key, and yet [load_state] does
    not return the default ledger: ["budget" not in 5] raises [TypeError],
    which the [except] clause does not catch.  On a missing file, on
    content that does not parse and on every document that is a JSON
    object the function does what the claim says. *)
Theorem load_state_scalar_document_raises :
  load_state (Document (JInt 5)) = Raise TypeError
  /\ load_state NoFile = Ok default_state
  /\ load_state NotJson = Ok default_state
  /\ (forall d : gmap string json,
        load_state (Document (JDict d)) =
        Ok (match d !! "budget", d !! "expenses" with
            | Some _, Some (JList _) => JDict d
            | _, _ => default_state
            end))
  /\ load_state (Document (JDict (<["budget" := JInt 5]> ∅))) = Ok default_state.
Proof.
  split; [reflexivity|]. split; [reflexivity|]. split; [reflexivity|].
  split; [exact load_state_dict|]. exact load_state_budget_only.
Qed.

Lemma load_state_list_document_raises :
  load_state (Document (JList [JStr "budget"; JStr "expenses"])) = Raise TypeError.
Proof. reflexivity. Qed.

Lemma load_state_undecodable_raises : load_state NotUtf8 = Raise UnicodeDecodeError.
Proof. reflexivity. Qed.

(** How [==] goes through a dict and through a ledger. *)
Lemma py_eq_dict_items (e m : gmap string json) :
  (forall k v, m !! k = Some v -> e !! k = Some v /\ py_eq v v = true) ->
  map_fold (fun k v acc =>
              acc && match e !! k with Some v' => py_eq v v' | None => false end)
           true m = true.
Proof.
  apply (map_fold_weak_ind
           (fun r (m : gmap string json) =>
              (forall k v, m !! k = Some v -> e !! k = Some v /\ py_eq v v = true) -> r = true)).
  - intros _. reflexivity.
  - intros i x m' r Hnone IH H.
    rewrite IH.
    + destruct (H i x (lookup_insert_eq m' i x)) as [-> Hx]. exact Hx.
    + intros k v Hk. apply H. rewrite lookup_insert_ne; [exact Hk|].
      intros <-. rewrite Hnone in Hk. discriminate Hk.
Qed.

(** A faithful document equals its copy. *)
Lemma py_eq_copy (v : json) : faithful v -> py_eq v v = true.
Proof.
  revert v. fix IH 2. intros v H. destruct H as [|b|z Hz|f Hf|s|l Hl|d Hd]; simpl.
  - reflexivity.
  - destruct b; reflexivity.
  - apply Z.eqb_refl.
  - exact Hf.
  - apply String.eqb_refl.
  - enough (G : forall m, (forall x, In x m -> In x l) ->
                (fix items (l m : list json) : bool :=
                   match l, m with
                   | [], [] => true
                   | x :: l', y :: m' => py_eq x y && items l' m'
                   | _, _ => false
                   end) m m = true)
      by (apply G; intros x Hx; exact Hx).
    induction m as [|x m IHm]; intros Hm; [reflexivity|].
    rewrite (IH x (Hl x (Hm x (or_introl eq_refl)))).
    apply IHm. intros y Hy. apply Hm. right. exact Hy.
  - rewrite Nat.eqb_refl. simpl. apply py_eq_dict_items.
    intros k v Hk. split; [exact Hk|]. exact (IH v (Hd k v Hk)).
Qed.

Lemma faithful_put {A} (k : string) (f : A -> json) (v : option A) (d : gmap string json) :
  (forall x, v = Some x -> faithful (f x)) -> faithful (JDict d) ->
  faithful (JDict (put k f v d)).
Proof.
  intros Hv Hd. inversion Hd as [| | | | | |d' Hd' E]. subst d'.
  destruct v as [x|]; simpl; [|exact Hd].
  constructor. intros k' v' Hk.
  destruct (decide (k = k')) as [<-|Hne].
  - rewrite lookup_insert_eq in Hk. injection Hk as <-. apply Hv. reflexivity.
  - rewrite lookup_insert_ne in Hk by exact Hne. exact (Hd' k' v' Hk).
Qed.

Lemma faithful_empty : faithful (JDict ∅).
Proof. constructor. intros k v H. rewrite lookup_empty in H. discriminate H. Qed.

(** The document of a ledger is faithful when neither its budget nor an
    amount is a NaN. *)
Lemma json_of_expense_faithful (e : expense) :
  not_nan (amount e) -> faithful (json_of_expense e).
Proof.
  intros H. unfold json_of_expense.
  apply faithful_put; [intros x Hx; constructor; rewrite Hx in H; exact H|].
  repeat (apply faithful_put; [intros x _; constructor|]).
  exact faithful_empty.
Qed.

Lemma json_of_ledger_faithful (s : ledger) :
  not_nan (budget s) -> Forall (fun e => not_nan (amount e)) (expenses s) ->
  faithful (json_of_ledger s).
Proof.
  intros Hb He. unfold json_of_ledger.
  apply faithful_put; [intros x Hx; constructor; rewrite Hx in Hb; exact Hb|].
  apply (faithful_put "expenses" (fun x => x) (Some (JList (List.map json_of_expense (expenses s))))).
  - intros x [= <-]. constructor. intros j Hj.
    apply in_map_iff in Hj. destruct Hj as (e & <- & Hin).
    apply json_of_expense_faithful. rewrite Forall_forall in He. apply He.
    apply list_elem_of_In. exact Hin.
  - exact faithful_empty.
Qed.

Lemma json_of_ledger_well_formed (s : ledger) (b : float) :
  budget s = Some b -> well_formed (json_of_ledger s).
Proof.
  intros Hb. unfold json_of_ledger. rewrite Hb. simpl.
  eexists _, (JFloat b), _. split; [reflexivity|].
  split; [apply lookup_insert_eq|]. split; [exact I|].
  rewrite lookup_insert_ne by discriminate. apply lookup_insert_eq.
Qed.

(** C7, the claim as stated fails: a ledger whose budget is a NaN (typed
    [nan] at the set-budget prompt) is well formed and is written and
    loaded, and the loaded ledger does not equal it, since a NaN does not
    equal a NaN. *)
Lemma load_save_roundtrip_fails_on_nan :
  let w0 := {| state := {| budget := Some 0%float; expenses := [] |};
               stdin := ["nan"]; stdout := []; file := NoFile; writable := true |} in
  let L := json_of_ledger {| budget := Some nan; expenses := [] |} in
  well_formed L
  /\ file (snd (cmd_set_budget w0)) = Document L
  /\ save_state L true NoFile = Ok (Document L)
  /\ exists loaded, load_state (Document L) = Ok loaded /\ py_eq loaded L = false.
Proof.
  intros w0 L. split; [apply (json_of_ledger_well_formed _ nan); reflexivity|].
  split; [vm_compute; reflexivity|]. split; [reflexivity|].
  exists L. split; vm_compute; reflexivity.
Qed.

(** C7, as the code has it: loading the file that [save_state] wrote for
    a well-formed ledger without a NaN gives back a ledger equal to it.
    The text that [json.dump] writes and [json.load] reads is not
    modelled: the file holds a copy of the document (floats are written
    with [repr] and read back bit for bit), and what is proved is that
    the validation of [load_state] accepts every well-formed ledger and
    that the copy compares equal, whatever the ledger holds besides the
    two keys. *)
Theorem load_save_roundtrip (L : json) (wr : bool) (f f' : disk_file) :
  well_formed L -> faithful L -> save_state L wr f = Ok f' ->
  exists loaded, load_state f' = Ok loaded /\ py_eq loaded L = true.
Proof.
  intros (d & b & es & -> & Hb & _ & He) Hf Hsave.
  unfold save_state in Hsave. destruct wr; [|discriminate].
  injection Hsave as <-.
  exists (JDict d). split; [|exact (py_eq_copy _ Hf)].
  rewrite load_state_dict, Hb, He. reflexivity.
Qed.

(** The round trip of a ledger with a budget of 100, an expense of 30 and
    one with an infinite amount. *)
Lemma load_save_roundtrip_witness :
  let L := json_of_ledger {| budget := Some 100%float;
                             expenses := [spent "Food" 30%float;
                                          spent "Rent" infinity] |} in
  well_formed L /\ faithful L
  /\ exists loaded, load_state (Document L) = Ok loaded /\ py_eq loaded L = true.
Proof.
  intros L.
  assert (HL : well_formed L)
    by (apply (json_of_ledger_well_formed _ 100%float); reflexivity).
  assert (HF : faithful L)
    by (apply json_of_ledger_faithful; simpl; [reflexivity|repeat constructor]).
  split; [exact HL|]. split; [exact HF|].
  exact (load_save_roundtrip L true NoFile (Document L) HL HF eq_refl).
Defined.

Lemma save_state_writable (L : json) (f : disk_file) : save_state L true f = Ok (Document L).
Proof. reflexivity. Qed.

Lemma save_state_read_only (L : json) (f : disk_file) : save_state L false f = Raise OSError.
Proof. reflexivity. Qed.

(** ** The report by category *)

Lemma dict_get_find (d : list (string * float)) (k : string) (v0 : float) :
  dict_get d k v0 = get (dict_find d k) v0.
Proof.
  induction d as [|[k' v] r IH]; simpl; [reflexivity|].
  destruct (String.eqb k' k); [reflexivity|exact IH].
Qed.

Lemma dict_find_set (d : list (string * float)) (k l : string) (v : float) :
  dict_find (dict_set d k v) l = if String.eqb k l then Some v else dict_find d l.
Proof.
  induction d as [|[k' v'] r IH]; simpl.
  - reflexivity.
  - destruct (String.eqb_spec k' k) as [->|Hk]; simpl.
    + destruct (String.eqb_spec k l); reflexivity.
    + rewrite IH. destruct (String.eqb_spec k' l) as [->|]; [|reflexivity].
      destruct (String.eqb_spec k l) as [->|]; [contradiction|reflexivity].
Qed.

Lemma dict_find_None (d : list (string * float)) (k : string) :
  dict_find d k = None <-> k ∉ List.map fst d.
Proof.
  induction d as [|[k' v] r IH]; simpl.
  - split; [intros _; apply not_elem_of_nil|reflexivity].
  - rewrite not_elem_of_cons. destruct (String.eqb_spec k' k) as [->|Hk].
    + split; [discriminate|]. intros [H _]. contradiction.
    + rewrite IH. split; [intros H; split; [congruence|exact H]|intros [_ H]; exact H].
Qed.

Lemma dict_set_keys (d : list (string * float)) (k : string) (v : float) :
  List.map fst (dict_set d k v) =
  match dict_find d k with
  | Some _ => List.map fst d
  | None => List.map fst d ++ [k]
  end.
Proof.
  induction d as [|[k' v'] r IH]; simpl; [reflexivity|].
  destruct (String.eqb_spec k' k) as [->|Hk]; simpl; [reflexivity|].
  rewrite IH. destruct (dict_find r k); reflexivity.
Qed.

Lemma dict_set_NoDup (d : list (string * float)) (k : string) (v : float) :
  NoDup (List.map fst d) -> NoDup (List.map fst (dict_set d k v)).
Proof.
  intros H. rewrite dict_set_keys.
  destruct (dict_find d k) eqn:Hf; [exact H|].
  apply dict_find_None in Hf.
  apply NoDup_app. split; [exact H|].
  split; [|apply NoDup_singleton].
  intros x Hx Hx'. apply list_elem_of_singleton in Hx'. subst x. contradiction.
Qed.

Lemma report_fold_NoDup (exps : list expense) (acc : list (string * float)) :
  NoDup (List.map fst acc) ->
  NoDup (List.map fst (fold_left report_step exps acc)).
Proof.
  revert acc. induction exps as [|e r IH]; intros acc H; simpl; [exact H|].
  apply IH. unfold report_step. apply dict_set_NoDup, H.
Qed.

(** What the loop of [report_by_categories] has stored for a label after
    a run over [exps] that started from the dict [acc]. *)
Lemma report_fold_find (exps : list expense) (acc : list (string * float)) (l : string) :
  dict_find (fold_left report_step exps acc) l =
  match group l exps with
  | [] => dict_find acc l
  | g => Some (fold_left PrimFloat.add (List.map (fun e => get (amount e) 0%float) g)
                 (get (dict_find acc l) 0%float))
  end.
Proof.
  revert acc. induction exps as [|e r IH]; intros acc; simpl; [reflexivity|].
  rewrite IH. unfold report_step at 1 2. fold (label_of e).
  rewrite !dict_find_set, dict_get_find.
  unfold group. simpl.
  destruct (String.eqb_spec (label_of e) l) as [->|Hl]; simpl.
  - destruct (List.filter _ r); reflexivity.
  - reflexivity.
Qed.

(** C2, as the code has it: the report has one entry per trimmed label
    (letter case kept), and the entry of a label is the total of the
    expenses filed under it.  So ["Food"] and [" Food "] share one entry
    that holds the sum of both amounts, while ["Food"] and ["food "] get
    an entry each. *)
Theorem report_groups_by_trimmed_label (exps : list expense) (l : string) (a b : float) :
  NoDup (List.map fst (report_by_categories exps))
  /\ dict_find (report_by_categories exps) l =
     match group l exps with
     | [] => None
     | g => Some (total_expenses g)
     end
  /\ report_by_categories [spent "Food" a; spent " Food " b] = [("Food", (0 + a + b)%float)]
  /\ report_by_categories [spent "Food" a; spent "food " b]
     = [("Food", (0 + a)%float); ("food", (0 + b)%float)].
Proof.
  split; [|split; [|split]].
  - apply report_fold_NoDup. constructor.
  - unfold report_by_categories. rewrite report_fold_find. reflexivity.
  - vm_compute. reflexivity.
  - vm_compute. reflexivity.
Qed.

(** C2, the claim as stated fails: two labels that differ only in letter
    case and surrounding white space are reported as two groups. *)
Lemma report_keeps_letter_case :
  Str.lower (Str.strip "Food") = Str.lower (Str.strip "food ")
  /\ report_by_categories [spent "Food" 10%float; spent "food " 5%float]
     = [("Food", 10%float); ("food", 5%float)].
Proof. split; vm_compute; reflexivity. Qed.

(** C3 (the code departs from the claim): an expense whose category is
    present but blank is reported under the empty label, not under the
    sentinel the report uses for a missing category. *)
Theorem report_blank_category_gets_empty_label :
  report_by_categories
    [{| amount := Some 1%float; category := Some "  "; date := None; comment := None |}]
  = [("", 1%float)]
  /\ normalize_category "  " = sentinel.
Proof. split; vm_compute; reflexivity. Qed.

Lemma report_missing_fields (e : expense) :
  category e = None -> amount e = None ->
  report_by_categories [e] = [(sentinel, (0 + 0)%float)].
Proof.
  intros Hc Ha. unfold report_by_categories, report_step. simpl.
  rewrite Hc, Ha. vm_compute. reflexivity.
Qed.

(** ** Totals *)

(** C5, the claim as stated fails: four non-negative amounts whose total
    depends on their order.  The same holds for the compensated sum of
    CPython 3.12 and later. *)
Lemma total_depends_on_order :
  let a := spent "a" 0x1p-53%float in
  let b := spent "b" 0x1p+53%float in
  let c := spent "c" 1%float in
  let d := spent "d" 0x1p-105%float in
  Permutation [a; b; c; d] [a; d; c; b]
  /\ total_expenses [a; b; c; d] = 0x1p+53%float
  /\ total_expenses [a; d; c; b] = 0x1.0000000000001p+53%float
  /\ total_expenses [a; b; c; d] <> total_expenses [a; d; c; b]
  /\ PyFloat.sum_compensated (List.map (fun e => get (amount e) 0%float) [a; b; c; d])
     <> PyFloat.sum_compensated (List.map (fun e => get (amount e) 0%float) [a; d; c; b]).
Proof.
  intros a b c d. split.
  - apply perm_skip. change [d; c; b] with (List.rev [b; c; d]). apply Permutation_rev.
  - split; [vm_compute; reflexivity|]. split; [vm_compute; reflexivity|].
    split; vm_compute; intros H; discriminate H.
Qed.

(** ** Totals of whole amounts *)

Lemma sum_abs_nonneg (ks : list Z) : 0 <= sum_abs ks.
Proof. induction ks as [|k r IH]; simpl; lia. Qed.

Lemma sum_abs_perm (ks ks' : list Z) : Permutation ks ks' -> sum_abs ks = sum_abs ks'.
Proof. induction 1; simpl; lia. Qed.

Lemma sum_Z_perm (ks ks' : list Z) : Permutation ks ks' -> sum_Z ks = sum_Z ks'.
Proof. induction 1; simpl; lia. Qed.

(** Summing whole numbers from a whole number is exact while the
    magnitudes add up to at most [2^53]. *)
Lemma sum_whole (ks : list Z) (acc : Z) :
  Z.abs acc + sum_abs ks <= 2 ^ 53 ->
  fold_left PrimFloat.add (List.map PyFloat.of_Z ks) (PyFloat.of_Z acc)
  = PyFloat.of_Z (acc + sum_Z ks).
Proof.
  revert acc. induction ks as [|k r IH]; intros acc H; simpl.
  - rewrite Z.add_0_r. reflexivity.
  - simpl in H. pose proof (sum_abs_nonneg r).
    rewrite Whole.add_whole by lia.
    rewrite IH by lia. f_equal. lia.
Qed.

Lemma total_whole (exps : list expense) (ks : list Z) :
  whole_amounts exps ks -> sum_abs ks <= 2 ^ 53 ->
  total_expenses exps = PyFloat.of_Z (sum_Z ks).
Proof.
  intros Hw Hb. unfold total_expenses, PyFloat.sum. rewrite Hw.
  change 0%float with (PyFloat.of_Z 0).
  rewrite sum_whole by (simpl; lia). reflexivity.
Qed.

(** C5, as the code has it: the total of no expense is 0, and the total
    does not depend on the order of the expenses when their amounts (a
    missing amount counting as 0) are whole numbers whose magnitudes add
    up to at most [2^53], so that no addition rounds; it is then the
    float of their sum. *)
Theorem total_reorder_whole_amounts :
  total_expenses [] = 0%float
  /\ forall (exps exps' : list expense) (ks : list Z),
       Permutation exps exps' -> whole_amounts exps ks -> sum_abs ks <= 2 ^ 53 ->
       total_expenses exps' = total_expenses exps
       /\ total_expenses exps = PyFloat.of_Z (sum_Z ks).
Proof.
  split; [reflexivity|].
  intros exps exps' ks Hperm Hw Hb.
  rewrite (total_whole exps ks Hw Hb). split; [|reflexivity].
  assert (Hp : Permutation (List.map (fun e => get (amount e) 0%float) exps')
                           (List.map PyFloat.of_Z ks)).
  { rewrite <- Hw. apply Permutation_map. symmetry. exact Hperm. }
  apply Permutation_map_inv in Hp. destruct Hp as (ks' & Hw' & Hks).
  rewrite (total_whole exps' ks' Hw').
  - rewrite (sum_Z_perm ks ks' Hks). reflexivity.
  - rewrite <- (sum_abs_perm ks ks' Hks). exact Hb.
Qed.

(** Three expenses of 30, 12 and no amount, and the same in reverse. *)
Lemma total_reorder_whole_amounts_witness :
  let a := spent "Food" 30%float in
  let b := spent "Bus" 12%float in
  let c := {| amount := None; category := Some "Gift"; date := None; comment := None |} in
  total_expenses [c; b; a] = total_expenses [a; b; c]
  /\ total_expenses [a; b; c] = 42%float.
Proof.
  intros a b c.
  assert (Hperm : Permutation [a; b; c] [c; b; a])
    by (change [c; b; a] with (List.rev [a; b; c]); apply Permutation_rev).
  assert (Hw : whole_amounts [a; b; c] [30; 12; 0]) by (vm_compute; reflexivity).
  assert (Hb : sum_abs [30; 12; 0] <= 2 ^ 53) by (vm_compute; discriminate).
  destruct (proj2 total_reorder_whole_amounts [a; b; c] [c; b; a] [30; 12; 0] Hperm Hw Hb)
    as [Hswap Hval].
  split; [exact Hswap|]. rewrite Hval. vm_compute. reflexivity.
Defined.

(** ** Filtering by period *)

Lemma date_ltb_asym (a b : PyDate.date) : PyDate.ltb a b = true -> PyDate.ltb b a = false.
Proof.
  destruct a as [ya ma da], b as [yb mb db]. unfold PyDate.ltb. simpl.
  intros H. apply Bool.not_true_is_false. intros H'.
  rewrite !Bool.orb_true_iff, !Bool.andb_true_iff, !Bool.orb_true_iff,
    !Bool.andb_true_iff, !Z.ltb_lt, !Z.eqb_eq in H, H'. lia.
Qed.

Lemma date_ltb_total (a b : PyDate.date) :
  PyDate.ltb a b = false -> PyDate.ltb b a = false -> a = b.
Proof.
  destruct a as [ya ma da], b as [yb mb db]. unfold PyDate.ltb. simpl.
  intros H H'.
  apply Bool.not_true_iff_false in H. apply Bool.not_true_iff_false in H'.
  rewrite !Bool.orb_true_iff, !Bool.andb_true_iff, !Bool.orb_true_iff,
    !Bool.andb_true_iff, !Z.ltb_lt, !Z.eqb_eq in H, H'.
  assert (ya = yb) by lia. assert (ma = mb) by lia. assert (da = db) by lia.
  subst. reflexivity.
Qed.

Lemma earlier_comm (a b : PyDate.date) : earlier a b = earlier b a.
Proof.
  unfold earlier. destruct (PyDate.ltb b a) eqn:H.
  - rewrite (date_ltb_asym _ _ H). reflexivity.
  - destruct (PyDate.ltb a b) eqn:H'; [reflexivity|]. apply date_ltb_total; assumption.
Qed.

Lemma later_comm (a b : PyDate.date) : later a b = later b a.
Proof.
  unfold later. destruct (PyDate.ltb b a) eqn:H.
  - rewrite (date_ltb_asym _ _ H). reflexivity.
  - destruct (PyDate.ltb a b) eqn:H'; [reflexivity|]. symmetry. apply date_ltb_total; assumption.
Qed.

(** With bounds that parse, the filter keeps the expenses within the
    earlier and the later bound. *)
Lemma filter_by_period_parsed (exps : list expense) (start end_ : string) (s e : PyDate.date) :
  PyDate.strptime start = Some s -> PyDate.strptime end_ = Some e ->
  filter_by_period exps start end_ = Ok (List.filter (within (earlier s e) (later s e)) exps).
Proof.
  intros Hs He. unfold filter_by_period. rewrite Hs, He.
  unfold earlier, later, within. destruct (PyDate.ltb e s); reflexivity.
Qed.

Lemma filter_by_period_bad_start (exps : list expense) (start end_ : string) :
  PyDate.strptime start = None -> filter_by_period exps start end_ = Raise ValueError.
Proof. intros H. unfold filter_by_period. rewrite H. reflexivity. Qed.

Lemma filter_by_period_bad_end (exps : list expense) (start end_ : string) :
  PyDate.strptime end_ = None -> filter_by_period exps start end_ = Raise ValueError.
Proof.
  intros H. unfold filter_by_period. rewrite H.
  destruct (PyDate.strptime start); reflexivity.
Qed.

(** C6: for bounds that are valid dates the filter does not depend on
    their order, and it keeps, in their original order, exactly the
    expenses whose date parses and lies in the inclusive range; an
    expense whose date does not parse is left out, nothing is raised. *)
Theorem filter_by_period_swap (exps : list expense) (start end_ : string) (s e : PyDate.date) :
  PyDate.strptime start = Some s -> PyDate.strptime end_ = Some e ->
  filter_by_period exps start end_ = filter_by_period exps end_ start
  /\ filter_by_period exps start end_ = Ok (List.filter (within (earlier s e) (later s e)) exps)
  /\ (forall x, PyDate.strptime (str_get (date x)) = None ->
                within (earlier s e) (later s e) x = false).
Proof.
  intros Hs He. split; [|split].
  - rewrite (filter_by_period_parsed exps start end_ s e Hs He).
    rewrite (filter_by_period_parsed exps end_ start e s He Hs).
    rewrite earlier_comm, later_comm. reflexivity.
  - exact (filter_by_period_parsed exps start end_ s e Hs He).
  - intros x Hx. unfold within. rewrite Hx. reflexivity.
Qed.

(** Four expenses, one in January 2026, one with a date in another
    format, one without a date and one in February: the filter for
    January, bounds given latest first. *)
Lemma filter_by_period_swap_witness :
  let exps := [ {| amount := Some 30%float; category := Some "Food";
                   date := Some "2026-01-10"; comment := Some "" |};
                {| amount := Some 5%float; category := Some "Bus";
                   date := Some "10.01.2026"; comment := Some "" |};
                {| amount := Some 7%float; category := Some "Tea";
                   date := None; comment := None |};
                {| amount := Some 12%float; category := Some "Book";
                   date := Some "2026-02-01"; comment := Some "" |} ] in
  filter_by_period exps "2026-01-31" "2026-01-01" = filter_by_period exps "2026-01-01" "2026-01-31"
  /\ filter_by_period exps "2026-01-31" "2026-01-01"
     = Ok [ {| amount := Some 30%float; category := Some "Food";
               date := Some "2026-01-10"; comment := Some "" |} ].
Proof.
  intros exps.
  destruct (filter_by_period_swap exps "2026-01-31" "2026-01-01"
              {| PyDate.year := 2026; PyDate.month := 1; PyDate.day := 31 |}
              {| PyDate.year := 2026; PyDate.month := 1; PyDate.day := 1 |}
              eq_refl eq_refl) as (Hswap & Hkeep & _).
  split; [exact Hswap|]. rewrite Hkeep. vm_compute. reflexivity.
Defined.

(** ** Dates written [YYYY-MM-DD] *)

Lemma digit_lt (k : Z) : (PyDate.digit k < 256)%N.
Proof. unfold PyDate.digit. pose proof (Z.mod_pos_bound k 10). lia. Qed.

Lemma digit_is_digit (k : Z) : PyDate.is_digit (PyDate.digit k) = true.
Proof.
  unfold PyDate.is_digit, Str.between, PyDate.digit.
  pose proof (Z.mod_pos_bound k 10).
  apply Bool.andb_true_iff. split; apply N.leb_le; lia.
Qed.

Lemma dval_digit (k : Z) : PyDate.dval (PyDate.digit k) = k mod 10.
Proof. unfold PyDate.dval, PyDate.digit. pose proof (Z.mod_pos_bound k 10). lia. Qed.

Lemma month_group_digits (m : Z) (r : list N) :
  1 <= m <= 12 ->
  PyDate.month_group (PyDate.digit (m / 10) :: PyDate.digit m :: r) = Some (m, r).
Proof. intros H. each_value m 1 12; reflexivity. Qed.

Lemma day_group_digits (d : Z) :
  1 <= d <= 31 ->
  PyDate.day_group [PyDate.digit (d / 10); PyDate.digit d] = Some (d, []).
Proof. intros H. each_value d 1 31; reflexivity. Qed.

Lemma days_in_month_le (y m : Z) : PyDate.days_in_month y m <= 31.
Proof.
  unfold PyDate.days_in_month.
  destruct (m =? 2)%Z; [destruct (PyDate.is_leap y); lia|].
  destruct ((m =? 4) || (m =? 6) || (m =? 9) || (m =? 11))%Z; lia.
Qed.

Lemma valid_bounds (d : PyDate.date) :
  PyDate.valid d = true ->
  1 <= PyDate.year d <= 9999 /\ 1 <= PyDate.month d <= 12 /\ 1 <= PyDate.day d <= 31.
Proof.
  unfold PyDate.valid. rewrite !Bool.andb_true_iff, !Z.leb_le.
  pose proof (days_in_month_le (PyDate.year d) (PyDate.month d)). lia.
Qed.

(** The parser reads back every date that [isoformat] writes. *)
Lemma strptime_isoformat (d : PyDate.date) :
  PyDate.valid d = true -> PyDate.strptime (PyDate.isoformat d) = Some d.
Proof.
  intros Hv. destruct (valid_bounds d Hv) as (Hy & Hm & Hd).
  unfold PyDate.strptime, PyDate.isoformat.
  rewrite codes_of_codes by (repeat constructor; try apply digit_lt; reflexivity).
  rewrite !digit_is_digit. cbn [andb].
  change (45 =? 45)%N with true. cbv iota.
  rewrite month_group_digits by exact Hm.
  change (45 =? 45)%N with true. cbv iota.
  rewrite day_group_digits by exact Hd.
  rewrite !dval_digit.
  replace (1000 * ((PyDate.year d / 1000) mod 10) + 100 * ((PyDate.year d / 100) mod 10)
           + 10 * ((PyDate.year d / 10) mod 10) + PyDate.year d mod 10)
    with (PyDate.year d) by (Z.div_mod_to_equations; lia).
  destruct d as [y m dd]. simpl in *. rewrite Hv. reflexivity.
Qed.

Lemma isoformat_length (d : PyDate.date) : String.length (PyDate.isoformat d) = 10%nat.
Proof. reflexivity. Qed.

Lemma month_group_inv (l : list N) (m : Z) (rest : list N) :
  PyDate.month_group l = Some (m, rest) ->
  exists mt, In mt (month_texts m) /\ l = mt ++ rest.
Proof.
  intros H. destruct l as [|a [|b r]]; simpl in H; [discriminate H| |].
  - destruct (Str.between 49 57 a) eqn:Ha; [|discriminate H].
    injection H as <- <-. exists [a]. split; [|reflexivity].
    code_bounds. each_code a 49%N 57%N; vm_compute; auto.
  - destruct ((a =? 49)%N && Str.between 48 50 b) eqn:E1.
    { injection H as <- <-. exists [a; b]. split; [|reflexivity].
      code_bounds. subst a. each_code b 48%N 50%N; vm_compute; auto. }
    destruct ((a =? 48)%N && Str.between 49 57 b) eqn:E2.
    { injection H as <- <-. exists [a; b]. split; [|reflexivity].
      code_bounds. subst a. each_code b 49%N 57%N; vm_compute; auto. }
    destruct (Str.between 49 57 a) eqn:E3; [|discriminate H].
    injection H as <- <-. exists [a]. split; [|reflexivity].
    code_bounds. each_code a 49%N 57%N; vm_compute; auto.
Qed.

Lemma day_group_inv (l : list N) (d : Z) (rest : list N) :
  PyDate.day_group l = Some (d, rest) ->
  exists dt, In dt (day_texts d) /\ l = dt ++ rest.
Proof.
  intros H. destruct l as [|a [|b r]]; simpl in H; [discriminate H| |].
  - destruct (Str.between 49 57 a) eqn:Ha; [|discriminate H].
    injection H as <- <-. exists [a]. split; [|reflexivity].
    code_bounds. each_code a 49%N 57%N; vm_compute; auto.
  - destruct ((a =? 51)%N && Str.between 48 49 b) eqn:E1.
    { injection H as <- <-. exists [a; b]. split; [|reflexivity].
      code_bounds. subst a. each_code b 48%N 49%N; vm_compute; auto. }
    destruct (Str.between 49 50 a && PyDate.is_digit b) eqn:E2.
    { injection H as <- <-. exists [a; b]. split; [|reflexivity].
      code_bounds. each_code a 49%N 50%N; each_code b 48%N 57%N; vm_compute; auto. }
    destruct ((a =? 48)%N && Str.between 49 57 b) eqn:E3.
    { injection H as <- <-. exists [a; b]. split; [|reflexivity].
      code_bounds. subst a. each_code b 49%N 57%N; vm_compute; auto. }
    destruct (Str.between 49 57 a) eqn:E4.
    { injection H as <- <-. exists [a]. split; [|reflexivity].
      code_bounds. each_code a 49%N 57%N; vm_compute; auto. }
    destruct ((a =? 32)%N && Str.between 49 57 b) eqn:E5; [|discriminate H].
    injection H as <- <-. exists [a; b]. split; [|reflexivity].
    code_bounds. subst a. each_code b 49%N 57%N; vm_compute; auto 6.
Qed.

Lemma month_group_texts (m : Z) (mt r : list N) :
  1 <= m <= 12 -> In mt (month_texts m) ->
  PyDate.month_group (mt ++ 45%N :: r) = Some (m, 45%N :: r).
Proof.
  intros H Hin. each_value m 1 12; simpl in Hin;
    repeat (destruct Hin as [<-|Hin]; [reflexivity|]); destruct Hin.
Qed.

Lemma day_group_texts (d : Z) (dt : list N) :
  1 <= d <= 31 -> In dt (day_texts d) -> PyDate.day_group dt = Some (d, []).
Proof.
  intros H Hin. each_value d 1 31; simpl in Hin;
    repeat (destruct Hin as [<-|Hin]; [reflexivity|]); destruct Hin.
Qed.

Lemma year_text_digits (a b c e : N) :
  PyDate.is_digit a = true -> PyDate.is_digit b = true ->
  PyDate.is_digit c = true -> PyDate.is_digit e = true ->
  year_text (1000 * PyDate.dval a + 100 * PyDate.dval b + 10 * PyDate.dval c + PyDate.dval e)
  = [a; b; c; e].
Proof.
  intros Ha Hb Hc He. code_bounds.
  unfold year_text, PyDate.digit, PyDate.dval.
  repeat f_equal; Z.div_mod_to_equations; lia.
Qed.

(** What [strptime] reads, and as what: a string is read as the date [d]
    exactly when [d] is a date of the calendar and the string is one of
    the ways to write it. *)
Lemma strptime_reads (s : string) (d : PyDate.date) :
  PyDate.strptime s = Some d <-> PyDate.valid d = true /\ In (Str.codes s) (date_texts d).
Proof.
  split.
  - unfold PyDate.strptime. intros H.
    destruct (Str.codes s) as [|y1 [|y2 [|y3 [|y4 [|dash1 r]]]]]; try discriminate H.
    destruct (PyDate.is_digit y1 && PyDate.is_digit y2 && PyDate.is_digit y3
              && PyDate.is_digit y4 && (dash1 =? 45)%N) eqn:E; [|discriminate H].
    destruct (PyDate.month_group r) as [[m [|dash2 r']]|] eqn:Em; try discriminate H.
    destruct (dash2 =? 45)%N eqn:E2; [|discriminate H].
    destruct (PyDate.day_group r') as [[dd [|]]|] eqn:Ed; try discriminate H.
    cbv zeta in H.
    match type of H with (if ?v then _ else _) = _ => destruct v eqn:Hv; [|discriminate H] end.
    injection H as <-. split; [exact Hv|].
    apply andb_prop in E. destruct E as [E E5].
    apply andb_prop in E. destruct E as [E E4].
    apply andb_prop in E. destruct E as [E E3].
    apply andb_prop in E. destruct E as [E0 E1].
    apply N.eqb_eq in E5, E2. subst dash1 dash2.
    destruct (month_group_inv _ _ _ Em) as (mt & Hmt & ->).
    destruct (day_group_inv _ _ _ Ed) as (dt & Hdt & ->).
    unfold date_texts. cbn [PyDate.year PyDate.month PyDate.day].
    apply in_flat_map. exists mt. split; [exact Hmt|].
    apply in_map_iff. exists dt. split; [|exact Hdt].
    rewrite (year_text_digits _ _ _ _ E0 E1 E3 E4).
    rewrite List.app_nil_r. reflexivity.
  - intros (Hv & Hin). destruct (valid_bounds d Hv) as (Hy & Hm & Hd).
    unfold date_texts in Hin. apply in_flat_map in Hin. destruct Hin as (mt & Hmt & Hin).
    apply in_map_iff in Hin. destruct Hin as (dt & Hc & Hdt).
    unfold PyDate.strptime. rewrite <- Hc. cbn [year_text List.app].
    rewrite !digit_is_digit. cbn [andb].
    change (45 =? 45)%N with true. cbv iota.
    rewrite (month_group_texts _ _ _ Hm Hmt).
    change (45 =? 45)%N with true. cbv iota.
    rewrite (day_group_texts _ _ Hd Hdt).
    rewrite !dval_digit.
    replace (1000 * ((PyDate.year d / 1000) mod 10) + 100 * ((PyDate.year d / 100) mod 10)
             + 10 * ((PyDate.year d / 10) mod 10) + PyDate.year d mod 10)
      with (PyDate.year d) by (Z.div_mod_to_equations; lia).
    destruct d as [y m dd]. simpl in *. rewrite Hv. reflexivity.
Qed.

Lemma names_date_parses (s : string) : names_date s <-> is_Some (PyDate.strptime s).
Proof.
  split.
  - intros (d & H). exists d. apply strptime_reads. exact H.
  - intros [d H]. exists d. apply strptime_reads. exact H.
Qed.

Lemma not_names_date (s : string) : ~ names_date s <-> PyDate.strptime s = None.
Proof.
  rewrite names_date_parses. destruct (PyDate.strptime s) as [d|].
  - split; [intros H; destruct H; eauto|discriminate].
  - split; [reflexivity|intros _ [d H]; discriminate H].
Qed.

Lemma iso_string_names_date (s : string) : PyDate.iso_string s -> names_date s.
Proof.
  intros (d & Hv & ->). apply names_date_parses. rewrite (strptime_isoformat d Hv). eauto.
Qed.

(** C10, the claim as stated fails: the bound ["2026-1-5"] is not written
    [YYYY-MM-DD], and the filter returns normally: [strptime] also reads
    a month or a day of one digit. *)
Lemma filter_by_period_short_bound_accepted :
  let e := {| amount := Some 30%float; category := Some "Food";
              date := Some "2026-01-10"; comment := Some "" |} in
  ~ PyDate.iso_string "2026-1-5"
  /\ filter_by_period [e] "2026-1-5" "2026-01-31" = Ok [e].
Proof.
  intros e. split; [|vm_compute; reflexivity].
  intros (d & _ & H). apply (f_equal String.length) in H.
  rewrite isoformat_length in H. discriminate H.
Qed.

(** C10, as the code has it, for bounds that are ASCII text (the [\d] of
    [strptime] also takes the digits of other scripts, which the model
    leaves out): the filter raises [ValueError] exactly when one of the
    bounds is not a way to write a date of the calendar, and returns
    normally exactly when both are, whatever the expenses.  The ways to
    write a date are a four-digit year, a month and a day with [-]
    between them, the month and the day with two digits or, below 10,
    with one (the day also with a space before it); every valid date
    written [YYYY-MM-DD] is among them. *)
Theorem filter_by_period_raises_iff (exps : list expense) (start end_ : string) :
  ascii_only start = true -> ascii_only end_ = true ->
  (filter_by_period exps start end_ = Raise ValueError
   <-> ~ names_date start \/ ~ names_date end_)
  /\ ((exists kept, filter_by_period exps start end_ = Ok kept)
      <-> names_date start /\ names_date end_)
  /\ (forall s, PyDate.iso_string s -> names_date s).
Proof.
  intros _ _. rewrite !not_names_date, !names_date_parses.
  split; [|split].
  - destruct (PyDate.strptime start) as [s|] eqn:Hs.
    + destruct (PyDate.strptime end_) as [e|] eqn:He.
      * rewrite (filter_by_period_parsed exps start end_ s e Hs He).
        split; [discriminate|]. intros [H|H]; discriminate H.
      * rewrite (filter_by_period_bad_end exps start end_ He).
        split; [right; reflexivity|reflexivity].
    + rewrite (filter_by_period_bad_start exps start end_ Hs).
      split; [left; reflexivity|reflexivity].
  - destruct (PyDate.strptime start) as [s|] eqn:Hs.
    + destruct (PyDate.strptime end_) as [e|] eqn:He.
      * rewrite (filter_by_period_parsed exps start end_ s e Hs He).
        split; [intros _; split; eauto|intros _; eauto].
      * rewrite (filter_by_period_bad_end exps start end_ He).
        split; [intros [k Hk]; discriminate Hk|intros [_ [x Hx]]; discriminate Hx].
    + rewrite (filter_by_period_bad_start exps start end_ Hs).
      split; [intros [k Hk]; discriminate Hk|intros [[x Hx] _]; discriminate Hx].
  - exact iso_string_names_date.
Qed.

(** A bound that is no date of the calendar ([2026-02-30]) and a bound
    that is no date at all ([tomorrow]) raise; a bound with a one-digit
    month and day does not. *)
Lemma filter_by_period_raises_iff_witness :
  let e := {| amount := Some 30%float; category := Some "Food";
              date := Some "2026-01-10"; comment := Some "" |} in
  (~ names_date "2026-02-30"
   /\ filter_by_period [e] "2026-02-30" "2026-03-01" = Raise ValueError)
  /\ (~ names_date "tomorrow"
      /\ filter_by_period [e] "2026-01-01" "tomorrow" = Raise ValueError)
  /\ (names_date "2026-1-5" /\ names_date "2026-01-31"
      /\ exists kept, filter_by_period [e] "2026-1-5" "2026-01-31" = Ok kept).
Proof.
  intros e.
  assert (H1 : ~ names_date "2026-02-30") by (apply not_names_date; vm_compute; reflexivity).
  assert (H2 : ~ names_date "tomorrow") by (apply not_names_date; vm_compute; reflexivity).
  assert (H3 : names_date "2026-1-5")
    by (exists {| PyDate.year := 2026; PyDate.month := 1; PyDate.day := 5 |};
        split; [reflexivity|vm_compute; auto 10]).
  assert (H4 : names_date "2026-01-31")
    by (exists {| PyDate.year := 2026; PyDate.month := 1; PyDate.day := 31 |};
        split; [reflexivity|vm_compute; auto 10]).
  split; [split; [exact H1|]|split; [split; [exact H2|]|]].
  - apply (filter_by_period_raises_iff [e] "2026-02-30" "2026-03-01" eq_refl eq_refl).
    left. exact H1.
  - apply (filter_by_period_raises_iff [e] "2026-01-01" "tomorrow" eq_refl eq_refl).
    right. exact H2.
  - split; [exact H3|]. split; [exact H4|].
    apply (filter_by_period_raises_iff [e] "2026-1-5" "2026-01-31" eq_refl eq_refl).
    split; assumption.
Defined.

Lemma filter_by_period_invalid_bound_raises :
  filter_by_period [spent "Food" 30%float] "2026-02-30" "2026-03-01" = Raise ValueError
  /\ filter_by_period [spent "Food" 30%float] "2026-01-01" "tomorrow" = Raise ValueError.
Proof. split; vm_compute; reflexivity. Qed.

(** ** Reading an amount *)

(** C4 (the code departs from the claim): the text ["nan"] is accepted by
    [float], and [nan < 0] is false, so [parse_float] returns NaN, which
    is not a non-negative number, instead of asking again. *)
Theorem parse_float_returns_nan (prompt : string) (rest : list string) (out : list output) :
  parse_float_loop prompt ("nan" :: rest) out = (Ok nan, rest, out ++ [Prompt prompt])
  /\ (0 <=? nan)%float = false.
Proof. split; vm_compute; reflexivity. Qed.

Lemma parse_float_returns_infinity (prompt : string) (rest : list string) (out : list output) :
  parse_float_loop prompt ("inf" :: rest) out = (Ok infinity, rest, out ++ [Prompt prompt]).
Proof. vm_compute. reflexivity. Qed.

Lemma parse_float_loop_cons (prompt line : string) (rest : list string) (out : list output) :
  parse_float_loop prompt (line :: rest) out =
  match PyFloat.of_string (Str.replace_comma (Str.strip line)) with
  | Some value =>
      if (value <? 0)%float
      then parse_float_loop prompt rest (out ++ [Prompt prompt; Line msg_negative])
      else (Ok value, rest, out ++ [Prompt prompt])
  | None => parse_float_loop prompt rest (out ++ [Prompt prompt; Line msg_not_number])
  end.
Proof. reflexivity. Qed.

(** What it returns is never below zero. *)
Lemma parse_float_not_negative (prompt : string) (lines : list string) (out : list output)
    (v : float) (rest : list string) (out' : list output) :
  parse_float_loop prompt lines out = (Ok v, rest, out') -> (v <? 0)%float = false.
Proof.
  revert out. induction lines as [|line r IH]; intros out; [discriminate|].
  rewrite parse_float_loop_cons.
  destruct (PyFloat.of_string _) as [value|]; [|apply IH].
  destruct (value <? 0)%float eqn:Hneg; [apply IH|].
  intros H. injection H as <- _ _. exact Hneg.
Qed.

Lemma parse_float_asks_again (prompt : string) (rest : list string) (out : list output) :
  parse_float_loop prompt ("-5" :: "abc" :: "12,50" :: rest) out
  = (Ok 12.5%float, rest,
     ((out ++ [Prompt prompt; Line msg_negative]) ++ [Prompt prompt; Line msg_not_number])
       ++ [Prompt prompt]).
Proof. vm_compute. reflexivity. Qed.

(** ** The decimal comma *)

Lemma comma_to_dot_idem (a : N) : Str.comma_to_dot (Str.comma_to_dot a) = Str.comma_to_dot a.
Proof.
  unfold Str.comma_to_dot. destruct (N.eqb_spec a 44) as [->|H]; [reflexivity|].
  rewrite (proj2 (N.eqb_neq a 44) H). reflexivity.
Qed.

Lemma comma_to_dot_lt (a : N) : (a < 256)%N -> (Str.comma_to_dot a < 256)%N.
Proof. unfold Str.comma_to_dot. destruct (a =? 44)%N; lia. Qed.

Lemma space1_comma (a : N) : Str.space1 (Str.comma_to_dot a) = Str.space1 a.
Proof. unfold Str.comma_to_dot. destruct (N.eqb_spec a 44) as [->|H]; reflexivity. Qed.

Lemma space2_comma (a b : N) : Str.space2 (Str.comma_to_dot a) (Str.comma_to_dot b) = Str.space2 a b.
Proof.
  unfold Str.comma_to_dot.
  destruct (N.eqb_spec a 44) as [->|Ha]; [reflexivity|].
  destruct (N.eqb_spec b 44) as [->|Hb]; [|reflexivity].
  unfold Str.space2. destruct (a =? 194)%N; reflexivity.
Qed.

Lemma space3_comma (a b c : N) :
  Str.space3 (Str.comma_to_dot a) (Str.comma_to_dot b) (Str.comma_to_dot c) = Str.space3 a b c.
Proof.
  unfold Str.comma_to_dot.
  destruct (N.eqb_spec a 44) as [->|Ha]; [reflexivity|].
  destruct (N.eqb_spec b 44) as [->|Hb].
  { unfold Str.space3. simpl. rewrite !Bool.andb_false_r. reflexivity. }
  destruct (N.eqb_spec c 44) as [->|Hc]; [|reflexivity].
  unfold Str.space3. simpl. rewrite !Bool.andb_false_r. reflexivity.
Qed.

Lemma drop_space_cons3 (back : bool) (a b c : N) (r : list N) :
  Str.drop_space back (a :: b :: c :: r) =
  if Str.space1 a then Str.drop_space back (b :: c :: r)
  else if (if back then Str.space2 b a else Str.space2 a b) then Str.drop_space back (c :: r)
  else if (if back then Str.space3 c b a else Str.space3 a b c) then Str.drop_space back r
  else a :: b :: c :: r.
Proof. reflexivity. Qed.

Lemma drop_space_comma (back : bool) (l : list N) :
  Str.drop_space back (List.map Str.comma_to_dot l) = List.map Str.comma_to_dot (Str.drop_space back l).
Proof.
  remember (length l) as n eqn:Hn. revert l Hn.
  induction n as [n IH] using lt_wf_ind. intros l Hn.
  destruct l as [|a [|b [|c r]]].
  - reflexivity.
  - simpl. rewrite space1_comma. destruct (Str.space1 a); reflexivity.
  - simpl. rewrite !space1_comma. destruct (Str.space1 a).
    + destruct (Str.space1 b); reflexivity.
    + replace (if back then Str.space2 (Str.comma_to_dot b) (Str.comma_to_dot a)
               else Str.space2 (Str.comma_to_dot a) (Str.comma_to_dot b))
        with (if back then Str.space2 b a else Str.space2 a b)
        by (destruct back; rewrite space2_comma; reflexivity).
      destruct (if back then Str.space2 b a else Str.space2 a b); reflexivity.
  - rewrite !List.map_cons, !drop_space_cons3, space1_comma.
    replace (if back then Str.space2 (Str.comma_to_dot b) (Str.comma_to_dot a)
             else Str.space2 (Str.comma_to_dot a) (Str.comma_to_dot b))
      with (if back then Str.space2 b a else Str.space2 a b)
      by (destruct back; rewrite space2_comma; reflexivity).
    replace (if back then Str.space3 (Str.comma_to_dot c) (Str.comma_to_dot b) (Str.comma_to_dot a)
             else Str.space3 (Str.comma_to_dot a) (Str.comma_to_dot b) (Str.comma_to_dot c))
      with (if back then Str.space3 c b a else Str.space3 a b c)
      by (destruct back; rewrite space3_comma; reflexivity).
    rewrite <- !List.map_cons.
    rewrite (IH (length (b :: c :: r))) by (subst n; simpl; lia || reflexivity).
    rewrite (IH (length (c :: r))) by (subst n; simpl; lia || reflexivity).
    rewrite (IH (length r)) by (subst n; simpl; lia || reflexivity).
    destruct (Str.space1 a); [reflexivity|].
    destruct (if back then Str.space2 b a else Str.space2 a b); [reflexivity|].
    destruct (if back then Str.space3 c b a else Str.space3 a b c); reflexivity.
Qed.

Lemma replace_comma_codes (s : string) :
  Str.codes (Str.replace_comma s) = List.map Str.comma_to_dot (Str.codes s).
Proof.
  unfold Str.replace_comma. apply codes_of_codes. apply List.Forall_map.
  eapply Forall_impl; [apply codes_lt|]. simpl. intros a Ha. apply comma_to_dot_lt, Ha.
Qed.

Lemma strip_codes_eq (s : string) :
  Str.codes (Str.strip s)
  = List.rev (Str.drop_space true (List.rev (Str.drop_space false (Str.codes s)))).
Proof. unfold Str.strip. apply codes_of_codes, strip_kept, codes_lt. Qed.

(** Stripping and then replacing commas gives the same text for a line
    and for the line with its commas already replaced. *)
Lemma replace_comma_strip (s : string) :
  Str.replace_comma (Str.strip (Str.replace_comma s)) = Str.replace_comma (Str.strip s).
Proof.
  rewrite <- (of_codes_codes (Str.replace_comma (Str.strip (Str.replace_comma s)))).
  rewrite <- (of_codes_codes (Str.replace_comma (Str.strip s))).
  f_equal. rewrite !replace_comma_codes, !strip_codes_eq, replace_comma_codes.
  rewrite drop_space_comma, <- List.map_rev, drop_space_comma, <- List.map_rev.
  rewrite List.map_map. apply List.map_ext. intros a. apply comma_to_dot_idem.
Qed.

(** [parse_float] reads a line with a decimal comma as it reads the line
    with a decimal point in its place. *)
Lemma parse_float_comma_as_dot (prompt line : string) (rest : list string) (out : list output) :
  parse_float_loop prompt (Str.replace_comma line :: rest) out
  = parse_float_loop prompt (line :: rest) out.
Proof. rewrite !parse_float_loop_cons, replace_comma_strip. reflexivity. Qed.

(** ** The dispatcher *)

(** [handle_command] runs the command its phrase selects. *)
Lemma handle_command_run (typed : string) : handle_command typed = run (selects typed).
Proof.
  unfold handle_command, selects, phrases, lookup_phrase.
  generalize (Str.lower (Str.strip typed)). intros cmd.
  repeat (match goal with
          | |- context [String.eqb cmd ?p] => destruct (String.eqb cmd p); cbn [orb run]
          end; try reflexivity).
Qed.

Lemma lower_codes_ascii (l : list N) :
  Forall (fun a => (a < 128)%N) l -> Forall (fun a => (a < 128)%N) (Str.lower_codes l).
Proof.
  induction 1 as [|a r Ha Hr IH]; simpl; [constructor|].
  unfold Str.between.
  destruct ((65 <=? a)%N && (a <=? 90)%N) eqn:Hup.
  - apply Bool.andb_true_iff in Hup. destruct Hup as [_ Hup]. apply N.leb_le in Hup.
    constructor; [lia|exact IH].
  - destruct r as [|b r']; [constructor; [exact Ha|constructor]|].
    assert (H208 : (a =? 208)%N = false) by (apply N.eqb_neq; lia).
    assert (H210 : (a =? 210)%N = false) by (apply N.eqb_neq; lia).
    rewrite H208, H210. simpl. constructor; [exact Ha|exact IH].
Qed.

Lemma lower_ascii (s : string) : Str.is_ascii s -> Str.is_ascii (Str.lower s).
Proof.
  unfold Str.is_ascii, Str.lower. intros H.
  assert (Hl := lower_codes_ascii _ H).
  rewrite codes_of_codes; [exact Hl|].
  eapply Forall_impl; [exact Hl|]. simpl. intros a Ha. lia.
Qed.

Lemma command_text_ascii (typed : string) :
  Str.is_ascii typed -> Str.is_ascii (Str.lower (Str.strip typed)).
Proof. intros H. apply lower_ascii. apply strip_codes, H. Qed.

Lemma is_ascii_ascii_only (s : string) : Str.is_ascii s -> ascii_only s = true.
Proof.
  unfold Str.is_ascii, ascii_only. intros H. apply forallb_forall.
  intros a Ha. apply N.ltb_lt. rewrite List.Forall_forall in H. apply H, Ha.
Qed.

(** A phrase typed in ASCII selects the help, the exit, or nothing. *)
Lemma ascii_phrase_selects (cmd : string) :
  Str.is_ascii cmd ->
  lookup_phrase cmd phrases = Some Help \/ lookup_phrase cmd phrases = Some Exit
  \/ lookup_phrase cmd phrases = None.
Proof.
  intros H. apply is_ascii_ascii_only in H.
  unfold phrases, lookup_phrase.
  repeat (match goal with
          | |- context [String.eqb cmd ?p] =>
              destruct (String.eqb_spec cmd p) as [->|_];
              [first [ left; reflexivity | right; left; reflexivity
                     | vm_compute in H; discriminate H ]|]
          end).
  right; right; reflexivity.
Qed.

Lemma then_true_not_false (m : M unit) (w : world) : fst ((m ;;; ret true) w) <> Ok false.
Proof. unfold bind, ret. destruct (m w) as [[a|e] w']; simpl; discriminate. Qed.

Lemma selects_exit_iff (typed : string) (w : world) :
  fst (handle_command typed w) = Ok false <-> selects typed = Some Exit.
Proof.
  rewrite handle_command_run.
  destruct (selects typed) as [[]|]; cbn [run];
    try (split; [intros H; exfalso; exact (then_true_not_false _ _ H)|discriminate]).
  split; reflexivity.
Qed.

(** C9, the claim as stated fails: the command that sets the budget is
    selected by its Ukrainian phrase and by no phrase typed in ASCII. *)
Lemma set_budget_has_no_ascii_phrase :
  selects "встановити бюджет" = Some SetBudget
  /\ ~ (exists typed, Str.is_ascii typed /\ selects typed = Some SetBudget).
Proof.
  split; [vm_compute; reflexivity|].
  intros (typed & Ha & Hs). unfold selects in Hs.
  destruct (ascii_phrase_selects _ (command_text_ascii typed Ha)) as [H|[H|H]];
    rewrite H in Hs; discriminate Hs.
Qed.

(** C9, as the code has it: the dispatcher runs the command selected by
    the typed phrase, lower-cased and trimmed.  Each of the ten commands
    has a phrase; the help and the exit also have ASCII phrases ([help],
    [?], [exit], [quit]) and no other command has one.  A phrase that
    selects nothing prints the "not recognised" message and returns [True];
    [False] is returned for the exit phrases only. *)
Theorem dispatcher_contract (typed : string) (w : world) :
  handle_command typed w = run (selects typed) w
  /\ (forall other, Str.lower (Str.strip other) = Str.lower (Str.strip typed) ->
                    handle_command other w = handle_command typed w)
  /\ (forall c, exists phrase, selects phrase = Some c)
  /\ selects "help" = Some Help /\ selects "?" = Some Help
  /\ selects "exit" = Some Exit /\ selects "quit" = Some Exit
  /\ (Str.is_ascii typed ->
      selects typed = Some Help \/ selects typed = Some Exit \/ selects typed = None)
  /\ (selects typed = None ->
      handle_command typed w
      = (Ok true, set_console (stdin w) (stdout w ++ [Line msg_unknown]) w))
  /\ (fst (handle_command typed w) = Ok false <-> selects typed = Some Exit).
Proof.
  split; [rewrite handle_command_run; reflexivity|].
  split. { intros other H. unfold handle_command. rewrite H. reflexivity. }
  split.
  { intros [].
    - exists "допомога". vm_compute. reflexivity.
    - exists "встановити бюджет". vm_compute. reflexivity.
    - exists "додати витрату". vm_compute. reflexivity.
    - exists "показати витрати". vm_compute. reflexivity.
    - exists "витрати за дату". vm_compute. reflexivity.
    - exists "витрати за період". vm_compute. reflexivity.
    - exists "витрати за категорією". vm_compute. reflexivity.
    - exists "залишок". vm_compute. reflexivity.
    - exists "звіт за категоріями". vm_compute. reflexivity.
    - exists "вийти". vm_compute. reflexivity. }
  split; [vm_compute; reflexivity|]. split; [vm_compute; reflexivity|].
  split; [vm_compute; reflexivity|]. split; [vm_compute; reflexivity|].
  split. { intros Ha. apply ascii_phrase_selects, command_text_ascii, Ha. }
  split. { intros Hn. rewrite handle_command_run, Hn. reflexivity. }
  apply selects_exit_iff.
Qed.

Lemma dispatcher_examples (w : world) :
  fst (handle_command "  QUIT " w) = Ok false
  /\ fst (handle_command " Вийти" w) = Ok false
  /\ fst (handle_command "set budget" w) = Ok true
  /\ fst (handle_command "ДОПОМОГА" w) = Ok true.
Proof. repeat split; vm_compute; reflexivity. Qed.

(** ** Adding an expense *)

Lemma console_only_refl (w : world) : console_only w w.
Proof. repeat split. exists []. rewrite List.app_nil_r. reflexivity. Qed.

Lemma console_only_trans (w1 w2 w3 : world) :
  console_only w1 w2 -> console_only w2 w3 -> console_only w1 w3.
Proof.
  intros (Hs & Hf & Hw & p & Hp) (Hs' & Hf' & Hw' & p' & Hp').
  repeat split; try congruence.
  exists (p ++ p'). rewrite Hp', Hp, List.app_assoc. reflexivity.
Qed.

Lemma parse_float_loop_prints (prompt : string) (lines : list string) (out : list output)
    (r : result float) (rest : list string) (out' : list output) :
  parse_float_loop prompt lines out = (r, rest, out') -> exists printed, out' = out ++ printed.
Proof.
  revert out. induction lines as [|line ls IH]; intros out.
  - simpl. intros H. injection H as _ _ <-. eauto.
  - rewrite parse_float_loop_cons.
    destruct (PyFloat.of_string _) as [value|].
    + destruct (value <? 0)%float.
      * intros H. apply IH in H. destruct H as [p ->].
        exists ([Prompt prompt; Line msg_negative] ++ p). rewrite List.app_assoc. reflexivity.
      * intros H. injection H as _ _ <-. eauto.
    + intros H. apply IH in H. destruct H as [p ->].
      exists ([Prompt prompt; Line msg_not_number] ++ p). rewrite List.app_assoc. reflexivity.
Qed.

Lemma parse_date_loop_cons (prompt line : string) (rest : list string) (out : list output) :
  parse_date_loop prompt (line :: rest) out =
  match PyDate.strptime (Str.strip line) with
  | Some dt => (Ok (PyDate.isoformat dt), rest, out ++ [Prompt prompt])
  | None => parse_date_loop prompt rest (out ++ [Prompt prompt; Line msg_bad_date])
  end.
Proof. reflexivity. Qed.

Lemma parse_date_loop_prints (prompt : string) (lines : list string) (out : list output)
    (r : result string) (rest : list string) (out' : list output) :
  parse_date_loop prompt lines out = (r, rest, out') -> exists printed, out' = out ++ printed.
Proof.
  revert out. induction lines as [|line ls IH]; intros out.
  - simpl. intros H. injection H as _ _ <-. eauto.
  - rewrite parse_date_loop_cons.
    destruct (PyDate.strptime _) as [dt|].
    + intros H. injection H as _ _ <-. eauto.
    + intros H. apply IH in H. destruct H as [p ->].
      exists ([Prompt prompt; Line msg_bad_date] ++ p). rewrite List.app_assoc. reflexivity.
Qed.

Lemma parse_float_console_only (prompt : string) (w w' : world) (r : result float) :
  parse_float prompt w = (r, w') -> console_only w w'.
Proof.
  unfold parse_float.
  destruct (parse_float_loop prompt (stdin w) (stdout w)) as [[r' ins] out] eqn:H.
  intros E. injection E as _ <-. apply parse_float_loop_prints in H.
  repeat split. exact H.
Qed.

Lemma parse_date_console_only (prompt : string) (w w' : world) (r : result string) :
  parse_date prompt w = (r, w') -> console_only w w'.
Proof.
  unfold parse_date.
  destruct (parse_date_loop prompt (stdin w) (stdout w)) as [[r' ins] out] eqn:H.
  intros E. injection E as _ <-. apply parse_date_loop_prints in H.
  repeat split. exact H.
Qed.

Lemma input_console_only (prompt : string) (w w' : world) (r : result string) :
  input prompt w = (r, w') -> console_only w w'.
Proof.
  unfold input. destruct (stdin w); intros E; injection E as _ <-; repeat split; simpl; eauto.
Qed.

(** The budget check at the end of the handler, in the words of the
    claim: a warning with [total - budget] when the budget is positive
    and the total exceeds it, the balance when the budget is positive and
    not exceeded, nothing otherwise. *)
Lemma budget_check_report (b : float) (w : world) :
  (if (0 <? b)%float && (calculate_balance b (expenses (state w)) <? 0)%float then
     print (LineF "⚠️ УВАГА: Бюджет перевищено на "
              (abs (calculate_balance b (expenses (state w)))) "!")
   else if (0 <? b)%float then
     print (LineF "💰 Залишок бюджету: " (calculate_balance b (expenses (state w))) "")
   else ret tt) w
  = (Ok tt, set_console (stdin w)
              (stdout w ++ budget_report b (total_expenses (expenses (state w)))) w).
Proof.
  unfold budget_report, calculate_balance.
  rewrite Binary64.sub_below_zero.
  destruct (0 <? b)%float; simpl.
  - destruct (b <? total_expenses (expenses (state w)))%float eqn:Hlt.
    + rewrite Binary64.abs_negative_difference
        by (rewrite Binary64.sub_below_zero; exact Hlt).
      reflexivity.
    + reflexivity.
  - unfold ret. rewrite List.app_nil_r. destruct w; reflexivity.
Qed.

(** C8: when the handler returns, the new expense is appended and saved,
    "expense added" is printed, and what follows is the over-budget
    warning with [total - budget] exactly when the budget is positive and
    the new total exceeds it, the remaining balance when the budget is
    positive and not exceeded, and nothing when the budget is zero or
    unset. *)
Theorem add_expense_budget_check (w w' : world) :
  cmd_add_expense w = (Ok tt, w') ->
  exists (e : expense) (printed : list output),
    expenses (state w') = expenses (state w) ++ [e]
    /\ budget (state w') = budget (state w)
    /\ file w' = Document (json_of_ledger (state w'))
    /\ stdout w' = (stdout w ++ printed ++ [Line "✅ Витрату додано."])
                   ++ budget_report (get (budget (state w)) 0%float)
                        (total_expenses (expenses (state w'))).
Proof.
  unfold cmd_add_expense. intros H.
  unfold bind at 1 in H.
  destruct (parse_float _ w) as [[amount|x] w1] eqn:H1; [|discriminate H].
  apply parse_float_console_only in H1.
  unfold bind at 1 in H.
  destruct (input _ w1) as [[line|x] w2] eqn:H2; [|discriminate H].
  apply input_console_only in H2.
  cbv zeta in H. unfold bind at 1 in H.
  destruct (parse_date _ w2) as [[exp_date|x] w3] eqn:H3; [|discriminate H].
  apply parse_date_console_only in H3.
  unfold bind at 1 in H.
  destruct (input _ w3) as [[line'|x] w4] eqn:H4; [|discriminate H].
  apply input_console_only in H4.
  pose proof (console_only_trans _ _ _ (console_only_trans _ _ _ H1 H2)
                (console_only_trans _ _ _ H3 H4)) as (Hs & Hf & Hw & printed & Hp).
  clear H1 H2 H3 H4.
  cbv zeta in H. unfold bind at 1 in H. unfold get_state at 1 in H.
  unfold bind at 1 in H. unfold put_state at 1 in H.
  unfold bind at 1 in H. unfold save at 1, save_state in H. simpl writable in H.
  destruct (writable w4); [|discriminate H].
  unfold bind at 1 in H. unfold print at 1 in H.
  unfold bind at 1 in H. unfold get_state at 1 in H.
  cbv zeta in H. rewrite budget_check_report in H.
  injection H as <-. simpl. rewrite Hs.
  eexists _, printed. repeat split.
  rewrite Hp, <- !List.app_assoc. reflexivity.
Qed.

(** The scenario of the claim: a budget of 50, then an expense of 80; the
    warning carries 30. *)
Lemma add_expense_budget_check_witness :
  let w0 := {| state := {| budget := Some 50%float; expenses := [] |};
               stdin := ["80"; "Food"; "2026-01-10"; ""];
               stdout := []; file := NoFile; writable := true |} in
  exists (w1 : world) (e : expense) (printed : list output),
    cmd_add_expense w0 = (Ok tt, w1)
    /\ expenses (state w1) = [e]
    /\ file w1 = Document (json_of_ledger (state w1))
    /\ stdout w1 = (printed ++ [Line "✅ Витрату додано."])
                   ++ [LineF "⚠️ УВАГА: Бюджет перевищено на " 30%float "!"].
Proof.
  intros w0.
  assert (Hrun : exists w1, cmd_add_expense w0 = (Ok tt, w1)
                            /\ total_expenses (expenses (state w1)) = 80%float).
  { eexists. split; vm_compute; reflexivity. }
  destruct Hrun as (w1 & Hrun & Htotal).
  destruct (add_expense_budget_check w0 w1 Hrun) as (e & printed & He & _ & Hf & Hout).
  exists w1, e, printed. split; [exact Hrun|]. split; [exact He|]. split; [exact Hf|].
  rewrite Hout, Htotal. reflexivity.
Defined.

(** With a valid amount, a category, a valid date and a comment on the
    input, and a writable file, the handler returns. *)
Lemma add_expense_returns (w : world) (l_amount l_cat l_date l_comment : string)
    (rest : list string) (a : float) (d : PyDate.date) :
  stdin w = l_amount :: l_cat :: l_date :: l_comment :: rest ->
  PyFloat.of_string (Str.replace_comma (Str.strip l_amount)) = Some a ->
  (a <? 0)%float = false ->
  PyDate.strptime (Str.strip l_date) = Some d ->
  writable w = true ->
  exists w', cmd_add_expense w = (Ok tt, w')
             /\ stdin w' = rest
             /\ expenses (state w')
                = expenses (state w)
                  ++ [{| amount := Some a; category := Some (normalize_category l_cat);
                         date := Some (PyDate.isoformat d);
                         comment := Some (Str.strip l_comment) |}].
Proof.
  intros Hin Ha Hneg Hd Hw.
  unfold cmd_add_expense.
  unfold bind at 1. unfold parse_float at 1. rewrite Hin, parse_float_loop_cons, Ha, Hneg.
  unfold bind at 1. unfold input at 1. simpl stdin.
  cbv zeta. unfold bind at 1. unfold parse_date at 1. simpl stdin.
  rewrite parse_date_loop_cons, Hd.
  unfold bind at 1. unfold input at 1. simpl stdin.
  cbv zeta. unfold bind at 1. unfold get_state at 1.
  unfold bind at 1. unfold put_state at 1.
  unfold bind at 1. unfold save at 1, save_state. simpl writable. rewrite Hw.
  unfold bind at 1. unfold print at 1.
  unfold bind at 1. unfold get_state at 1.
  cbv zeta. rewrite budget_check_report.
  eexists. split; [reflexivity|]. split; reflexivity.
Qed.

Lemma add_expense_within_budget :
  let w0 := {| state := {| budget := Some 100%float; expenses := [] |};
               stdin := ["30"; "Food"; "2026-01-10"; ""];
               stdout := []; file := NoFile; writable := true |} in
  stdout (snd (cmd_add_expense w0))
  = [Prompt "Сума витрати: "; Prompt "Категорія: "; Prompt "Дата (YYYY-MM-DD): ";
     Prompt "Коментар (необов'язково): "; Line "✅ Витрату додано.";
     LineF "💰 Залишок бюджету: " 70%float ""].
Proof. vm_compute. reflexivity. Qed.

Lemma add_expense_no_budget :
  let w0 := {| state := {| budget := None; expenses := [] |};
               stdin := ["30"; "Food"; "2026-01-10"; ""];
               stdout := []; file := NoFile; writable := true |} in
  stdout (snd (cmd_add_expense w0))
  = [Prompt "Сума витрати: "; Prompt "Категорія: "; Prompt "Дата (YYYY-MM-DD): ";
     Prompt "Коментар (необов'язково): "; Line "✅ Витрату додано."].
Proof. vm_compute. reflexivity. Qed.

(** ** Trimming *)

Lemma drop_space_length (back : bool) (l : list N) :
  (length (Str.drop_space back l) <= length l)%nat.
Proof.
  destruct (drop_space_suffix back l) as [pre H].
  rewrite H at 2. rewrite List.length_app. lia.
Qed.

Lemma drop_space_1 (back : bool) (a : N) (r : list N) :
  Str.space1 a = true -> Str.drop_space back (a :: r) = Str.drop_space back r.
Proof. intros H. destruct r; simpl; rewrite H; reflexivity. Qed.

Lemma drop_space_2 (back : bool) (a b : N) (r : list N) :
  Str.space1 a = false -> (if back then Str.space2 b a else Str.space2 a b) = true ->
  Str.drop_space back (a :: b :: r) = Str.drop_space back r.
Proof. intros H1 H2. destruct r; simpl; rewrite H1, H2; reflexivity. Qed.

Lemma drop_space_3 (back : bool) (a b c : N) (r : list N) :
  Str.space1 a = false -> (if back then Str.space2 b a else Str.space2 a b) = false ->
  (if back then Str.space3 c b a else Str.space3 a b c) = true ->
  Str.drop_space back (a :: b :: c :: r) = Str.drop_space back r.
Proof. intros H1 H2 H3. rewrite drop_space_cons3, H1, H2, H3. reflexivity. Qed.

Lemma drop_space_shorter (back : bool) (l pre : list N) (a : N) :
  Str.drop_space back l <> pre ++ a :: l.
Proof.
  intros H. pose proof (drop_space_length back l) as L.
  rewrite H, List.length_app in L. simpl in L. lia.
Qed.

(** A list that [drop_space] leaves as it is starts with no white space,
    and so does each of its prefixes. *)
Lemma drop_space_prefix (back : bool) (p q : list N) :
  Str.drop_space back (p ++ q) = p ++ q -> Str.drop_space back p = p.
Proof.
  destruct p as [|a [|b [|c p]]]; [reflexivity| | |]; intros H; simpl List.app in H.
  - simpl. destruct (Str.space1 a) eqn:H1; [|reflexivity]. exfalso.
    rewrite drop_space_1 in H by exact H1.
    exact (drop_space_shorter back q [] a H).
  - simpl.
    destruct (Str.space1 a) eqn:H1.
    { exfalso. rewrite drop_space_1 in H by exact H1.
      exact (drop_space_shorter back (b :: q) [] a H). }
    destruct (if back then Str.space2 b a else Str.space2 a b) eqn:H2; [|reflexivity].
    exfalso. rewrite drop_space_2 in H by assumption.
    exact (drop_space_shorter back q [a] b H).
  - rewrite drop_space_cons3.
    destruct (Str.space1 a) eqn:H1.
    { exfalso. rewrite drop_space_1 in H by exact H1.
      exact (drop_space_shorter back (b :: c :: p ++ q) [] a H). }
    destruct (if back then Str.space2 b a else Str.space2 a b) eqn:H2.
    { exfalso. rewrite drop_space_2 in H by assumption.
      exact (drop_space_shorter back (c :: p ++ q) [a] b H). }
    destruct (if back then Str.space3 c b a else Str.space3 a b c) eqn:H3; [|reflexivity].
    exfalso. rewrite drop_space_3 in H by assumption.
    exact (drop_space_shorter back (p ++ q) [a; b] c H).
Qed.

Lemma drop_space_idem (back : bool) (l : list N) :
  Str.drop_space back (Str.drop_space back l) = Str.drop_space back l.
Proof.
  remember (length l) as n eqn:Hn. revert l Hn.
  induction n as [n IH] using lt_wf_ind. intros l Hn.
  destruct l as [|a [|b [|c r]]].
  - reflexivity.
  - simpl. destruct (Str.space1 a) eqn:H1; [reflexivity|]. simpl. rewrite H1. reflexivity.
  - simpl. destruct (Str.space1 a) eqn:H1.
    + destruct (Str.space1 b) eqn:H1'; [reflexivity|]. simpl. rewrite H1'. reflexivity.
    + destruct (if back then Str.space2 b a else Str.space2 a b) eqn:H2; [reflexivity|].
      simpl. rewrite H1, H2. reflexivity.
  - rewrite drop_space_cons3.
    destruct (Str.space1 a) eqn:H1.
    { apply (IH (length (b :: c :: r))); [subst n; simpl; lia|reflexivity]. }
    destruct (if back then Str.space2 b a else Str.space2 a b) eqn:H2.
    { apply (IH (length (c :: r))); [subst n; simpl; lia|reflexivity]. }
    destruct (if back then Str.space3 c b a else Str.space3 a b c) eqn:H3.
    { apply (IH (length r)); [subst n; simpl; lia|reflexivity]. }
    rewrite drop_space_cons3, H1, H2, H3. reflexivity.
Qed.

(** [s.strip().strip() == s.strip()] *)
Lemma strip_idem (s : string) : Str.strip (Str.strip s) = Str.strip s.
Proof.
  enough (H : Str.codes (Str.strip (Str.strip s)) = Str.codes (Str.strip s)).
  { apply (f_equal Str.of_codes) in H. rewrite !of_codes_codes in H. exact H. }
  rewrite (strip_codes_eq (Str.strip s)), strip_codes_eq.
  set (l1 := Str.drop_space false (Str.codes s)).
  set (l2 := Str.drop_space true (List.rev l1)).
  assert (Hfront : Str.drop_space false (List.rev l2) = List.rev l2).
  { destruct (drop_space_suffix true (List.rev l1)) as [pre Hpre]. fold l2 in Hpre.
    apply (drop_space_prefix false (List.rev l2) (List.rev pre)).
    rewrite <- List.rev_app_distr, <- Hpre, List.rev_involutive.
    apply drop_space_idem. }
  rewrite Hfront, List.rev_involutive. unfold l2. rewrite drop_space_idem. reflexivity.
Qed.

Lemma strip_sentinel : Str.strip sentinel = sentinel.
Proof. vm_compute. reflexivity. Qed.

Lemma normalize_category_nonblank (cat : string) :
  Str.strip cat <> "" -> normalize_category cat = Str.strip cat.
Proof.
  intros H. unfold normalize_category. cbv zeta.
  destruct (String.eqb_spec (Str.strip cat) "") as [He|_]; [contradiction|reflexivity].
Qed.

Lemma normalize_category_blank (cat : string) :
  Str.strip cat = "" -> normalize_category cat = sentinel.
Proof. intros H. unfold normalize_category. rewrite H. reflexivity. Qed.

Lemma normalize_category_nonempty (cat : string) : normalize_category cat <> "".
Proof.
  destruct (String.eqb_spec (Str.strip cat) "") as [He|Hne].
  - rewrite (normalize_category_blank cat He). discriminate.
  - rewrite (normalize_category_nonblank cat Hne). exact Hne.
Qed.

Lemma normalize_category_trimmed (cat : string) :
  Str.strip (normalize_category cat) = normalize_category cat.
Proof.
  destruct (String.eqb_spec (Str.strip cat) "") as [He|Hne].
  - rewrite (normalize_category_blank cat He). apply strip_sentinel.
  - rewrite (normalize_category_nonblank cat Hne). apply strip_idem.
Qed.

(** X1: [normalize_category] never returns the empty text, what it returns
    has no white space left to trim, and normalising twice changes
    nothing more. *)
Theorem normalize_category_normal (cat : string) :
  normalize_category cat <> ""
  /\ Str.strip (normalize_category cat) = normalize_category cat
  /\ normalize_category (normalize_category cat) = normalize_category cat.
Proof.
  split; [apply normalize_category_nonempty|].
  split; [apply normalize_category_trimmed|].
  rewrite (normalize_category_nonblank (normalize_category cat)).
  - apply normalize_category_trimmed.
  - rewrite normalize_category_trimmed. apply normalize_category_nonempty.
Qed.

(** ** Steps and what they keep *)

Section Keeps.
Variable R : world -> world -> Prop.
Hypothesis R_refl : forall w, R w w.
Hypothesis R_trans : forall w1 w2 w3, R w1 w2 -> R w2 w3 -> R w1 w3.

Lemma keeps_ret {A} (a : A) : keeps R (ret a).
Proof. intros w r w' H. injection H as _ <-. apply R_refl. Qed.

Lemma keeps_get_state : keeps R get_state.
Proof. intros w r w' H. injection H as _ <-. apply R_refl. Qed.

Lemma keeps_bind {A B} (m : M A) (k : A -> M B) :
  keeps R m -> (forall a, keeps R (k a)) -> keeps R (bind m k).
Proof.
  intros Hm Hk w r w'. unfold bind.
  destruct (m w) as [[a|e] w1] eqn:E; intros H.
  - apply (R_trans _ w1); [exact (Hm _ _ _ E)|exact (Hk a _ _ _ H)].
  - injection H as _ <-. exact (Hm _ _ _ E).
Qed.

End Keeps.

Lemma read_only_refl (w : world) : read_only w w.
Proof. split; [apply console_only_refl|reflexivity]. Qed.

Lemma read_only_trans (w1 w2 w3 : world) :
  read_only w1 w2 -> read_only w2 w3 -> read_only w1 w3.
Proof.
  intros [H1 S1] [H2 S2]. split; [exact (console_only_trans _ _ _ H1 H2)|].
  etransitivity; eassumption.
Qed.

Lemma parse_float_loop_rest (prompt : string) (lines : list string) (out : list output)
    (r : result float) (rest : list string) (out' : list output) :
  parse_float_loop prompt lines out = (r, rest, out') -> rest `suffix_of` lines.
Proof.
  revert out. induction lines as [|line ls IH]; intros out.
  - simpl. intros H. injection H as _ <- _. reflexivity.
  - rewrite parse_float_loop_cons.
    destruct (PyFloat.of_string _) as [value|].
    + destruct (value <? 0)%float.
      * intros H. apply suffix_cons_r. exact (IH _ H).
      * intros H. injection H as _ <- _. apply suffix_cons_r. reflexivity.
    + intros H. apply suffix_cons_r. exact (IH _ H).
Qed.

Lemma parse_date_loop_rest (prompt : string) (lines : list string) (out : list output)
    (r : result string) (rest : list string) (out' : list output) :
  parse_date_loop prompt lines out = (r, rest, out') -> rest `suffix_of` lines.
Proof.
  revert out. induction lines as [|line ls IH]; intros out.
  - simpl. intros H. injection H as _ <- _. reflexivity.
  - rewrite parse_date_loop_cons.
    destruct (PyDate.strptime _) as [dt|].
    + intros H. injection H as _ <- _. apply suffix_cons_r. reflexivity.
    + intros H. apply suffix_cons_r. exact (IH _ H).
Qed.

Lemma read_only_print (o : output) : keeps read_only (print o).
Proof.
  intros w r w' H. injection H as _ <-. split; [|reflexivity].
  repeat split. simpl. eauto.
Qed.

Lemma read_only_input (prompt : string) : keeps read_only (input prompt).
Proof.
  intros w r w' H. split; [exact (input_console_only _ _ _ _ H)|].
  unfold input in H. destruct (stdin w) as [|line rest] eqn:E;
    injection H as _ <-; simpl; [reflexivity|apply suffix_cons_r; reflexivity].
Qed.

Lemma read_only_parse_float (prompt : string) : keeps read_only (parse_float prompt).
Proof.
  intros w r w' H. split; [exact (parse_float_console_only _ _ _ _ H)|].
  unfold parse_float in H.
  destruct (parse_float_loop prompt (stdin w) (stdout w)) as [[r' ins] out] eqn:E.
  injection H as _ <-. simpl. exact (parse_float_loop_rest _ _ _ _ _ _ E).
Qed.

Lemma read_only_parse_date (prompt : string) : keeps read_only (parse_date prompt).
Proof.
  intros w r w' H. split; [exact (parse_date_console_only _ _ _ _ H)|].
  unfold parse_date in H.
  destruct (parse_date_loop prompt (stdin w) (stdout w)) as [[r' ins] out] eqn:E.
  injection H as _ <-. simpl. exact (parse_date_loop_rest _ _ _ _ _ _ E).
Qed.

Create HintDb keeps.
#[local] Hint Resolve read_only_refl read_only_trans read_only_print read_only_input
  read_only_parse_float read_only_parse_date : keeps.
#[local] Hint Extern 1 (keeps read_only (bind _ _)) =>
  apply (keeps_bind read_only read_only_trans); [|intros ?] : keeps.
#[local] Hint Extern 1 (keeps read_only (ret _)) =>
  apply (keeps_ret read_only read_only_refl) : keeps.
#[local] Hint Extern 1 (keeps read_only get_state) =>
  apply (keeps_get_state read_only read_only_refl) : keeps.

Lemma read_only_print_rows (exps : list expense) (i : Z) : keeps read_only (print_rows i exps).
Proof. revert i. induction exps as [|e r IH]; intros i; simpl; auto with keeps. Qed.

Lemma read_only_print_expenses (exps : list expense) : keeps read_only (print_expenses exps).
Proof.
  pose proof read_only_print_rows.
  unfold print_expenses. destruct exps; auto 20 with keeps.
Qed.

Lemma read_only_print_report_rows (rows : list (string * float)) (total : float) :
  keeps read_only (print_report_rows rows total).
Proof.
  revert total. induction rows as [|[cat a] r IH]; intros total; simpl; auto with keeps.
Qed.

(** ** The handlers that only look *)

#[local] Hint Resolve read_only_print_rows read_only_print_expenses
  read_only_print_report_rows : keeps.

Lemma read_only_cmd_help : keeps read_only cmd_help.
Proof. unfold cmd_help. auto with keeps. Qed.

Lemma read_only_cmd_show_expenses : keeps read_only cmd_show_expenses.
Proof. unfold cmd_show_expenses. auto with keeps. Qed.

Lemma read_only_cmd_expenses_by_date : keeps read_only cmd_expenses_by_date.
Proof. unfold cmd_expenses_by_date. auto with keeps. Qed.

Lemma read_only_cmd_expenses_by_period : keeps read_only cmd_expenses_by_period.
Proof.
  unfold cmd_expenses_by_period.
  do 3 (apply (keeps_bind read_only read_only_trans); [auto with keeps|intros ?]).
  intros w r w'. destruct (filter_by_period _ _ _) as [filtered|e].
  - apply read_only_print_expenses.
  - intros H. injection H as _ <-. apply read_only_refl.
Qed.

Lemma read_only_cmd_expenses_by_category : keeps read_only cmd_expenses_by_category.
Proof.
  unfold cmd_expenses_by_category.
  apply (keeps_bind read_only read_only_trans); [auto with keeps|intros line].
  cbv zeta. destruct (String.eqb _ _); auto with keeps.
Qed.

Lemma read_only_cmd_balance : keeps read_only cmd_balance.
Proof.
  unfold cmd_balance.
  apply (keeps_bind read_only read_only_trans); [auto with keeps|intros s].
  cbv zeta.
  do 3 (apply (keeps_bind read_only read_only_trans); [auto with keeps|intros _]).
  destruct (_ && _); auto with keeps.
Qed.

Lemma read_only_cmd_report_categories : keeps read_only cmd_report_categories.
Proof.
  unfold cmd_report_categories.
  apply (keeps_bind read_only read_only_trans); [auto with keeps|intros s].
  cbv zeta. destruct (report_by_categories _); auto 20 with keeps.
Qed.

(** ** What every command keeps *)

Lemma session_refl (w : world) : session w w.
Proof.
  repeat split; try reflexivity; [intros H; exact H|]. intros _. left. split; reflexivity.
Qed.

Lemma session_trans (w1 w2 w3 : world) : session w1 w2 -> session w2 w3 -> session w1 w3.
Proof.
  intros (I1 & O1 & W1 & E1 & B1 & P1) (I2 & O2 & W2 & E2 & B2 & P2).
  split; [etransitivity; eassumption|].
  split; [etransitivity; eassumption|].
  split; [congruence|].
  split; [etransitivity; eassumption|].
  split; [intros H; exact (B2 (B1 H))|].
  intros Hw. specialize (P1 Hw). rewrite W1 in P2. specialize (P2 Hw).
  destruct P2 as [[S2 F2]|F2]; [|right; exact F2].
  destruct P1 as [[S1 F1]|F1]; [left; split; congruence|right; congruence].
Qed.

Lemma read_only_session (w w' : world) : read_only w w' -> session w w'.
Proof.
  intros [(Hs & Hf & Hw & Hp) Hi].
  split; [exact Hi|]. split; [exact Hp|]. split; [exact Hw|].
  split; [rewrite Hs; reflexivity|]. split; [rewrite Hs; intros H; exact H|].
  intros _. left. split; assumption.
Qed.

Lemma read_only_keeps_session {A} (m : M A) : keeps read_only m -> keeps session m.
Proof. intros H w r w' E. apply read_only_session, (H _ _ _ E). Qed.

(** Storing a new ledger and saving it at once, then going on with [k]. *)
Lemma session_store {A} (s' : ledger) (k : M A) (w : world) (r : result A) (w' : world) :
  keeps session k ->
  expenses (state w) `prefix_of` expenses s' ->
  (is_Some (budget (state w)) -> is_Some (budget s')) ->
  (put_state s' ;;; save ;;; k) w = (r, w') -> session w w'.
Proof.
  intros Hk He Hb. unfold bind at 1, put_state at 1. unfold bind at 1, save at 1, save_state.
  simpl writable. destruct (writable w) eqn:Hw.
  - intros H. apply (session_trans _ (set_file (Document (json_of_ledger s')) (set_state s' w)));
      [|exact (Hk _ _ _ H)].
    repeat split; try reflexivity; [exact He|exact Hb|]. intros _. right. reflexivity.
  - intros H. injection H as _ <-.
    repeat split; try reflexivity; [exact He|exact Hb|]. simpl. rewrite Hw. discriminate.
Qed.

Lemma session_cmd_set_budget : keeps session cmd_set_budget.
Proof.
  unfold cmd_set_budget.
  apply (keeps_bind session session_trans);
    [apply read_only_keeps_session, read_only_parse_float|intros b].
  intros w r w'. unfold bind at 1, get_state at 1.
  apply session_store; [|reflexivity|intros _; simpl; eauto].
  apply read_only_keeps_session, read_only_print.
Qed.

Lemma session_cmd_add_expense : keeps session cmd_add_expense.
Proof.
  unfold cmd_add_expense.
  apply (keeps_bind session session_trans);
    [apply read_only_keeps_session, read_only_parse_float|intros a].
  apply (keeps_bind session session_trans);
    [apply read_only_keeps_session, read_only_input|intros line].
  cbv zeta.
  apply (keeps_bind session session_trans);
    [apply read_only_keeps_session, read_only_parse_date|intros d].
  apply (keeps_bind session session_trans);
    [apply read_only_keeps_session, read_only_input|intros line'].
  cbv zeta.
  intros w r w'. unfold bind at 1, get_state at 1.
  apply session_store; [|apply prefix_app_r; reflexivity|intros H; exact H].
  apply read_only_keeps_session.
  apply (keeps_bind read_only read_only_trans); [auto with keeps|intros _].
  apply (keeps_bind read_only read_only_trans); [auto with keeps|intros s].
  cbv zeta. destruct (_ && _); [auto with keeps|]. destruct (_ <? _)%float; auto with keeps.
Qed.

Lemma session_then_true (m : M unit) : keeps session m -> keeps session (m ;;; ret true).
Proof.
  intros H. apply (keeps_bind session session_trans); [exact H|intros _].
  apply (keeps_ret session session_refl).
Qed.

Lemma read_only_run (c : option command) :
  c <> Some SetBudget -> c <> Some AddExpense -> keeps read_only (run c).
Proof.
  pose proof read_only_cmd_help. pose proof read_only_cmd_show_expenses.
  pose proof read_only_cmd_expenses_by_date. pose proof read_only_cmd_expenses_by_period.
  pose proof read_only_cmd_expenses_by_category. pose proof read_only_cmd_balance.
  pose proof read_only_cmd_report_categories.
  intros Hb Ha. destruct c as [[]|]; try contradiction; cbn [run]; auto with keeps.
Qed.

Lemma session_run (c : option command) : keeps session (run c).
Proof.
  destruct c as [c|]; [destruct c|];
    try (apply read_only_keeps_session, read_only_run; discriminate).
  - apply session_then_true, session_cmd_set_budget.
  - apply session_then_true, session_cmd_add_expense.
Qed.

Lemma session_handle_command (typed : string) : keeps session (handle_command typed).
Proof. rewrite handle_command_run. apply session_run. Qed.

(** ** What the date parser returns *)

Lemma strptime_valid (s : string) (d : PyDate.date) :
  PyDate.strptime s = Some d -> PyDate.valid d = true.
Proof.
  unfold PyDate.strptime. intros H.
  repeat (cbv zeta in H;
          match type of H with
          | match ?x with _ => _ end = _ => destruct x eqn:?; try discriminate H
          end).
  injection H as <-. assumption.
Qed.

Lemma parse_date_loop_value (prompt : string) (lines : list string) (out : list output)
    (s : string) (rest : list string) (out' : list output) :
  parse_date_loop prompt lines out = (Ok s, rest, out') ->
  exists d, PyDate.valid d = true /\ s = PyDate.isoformat d.
Proof.
  revert out. induction lines as [|line ls IH]; intros out; [discriminate|].
  rewrite parse_date_loop_cons.
  destruct (PyDate.strptime _) as [dt|] eqn:E; [|apply IH].
  intros H. injection H as <- _ _. exists dt. split; [exact (strptime_valid _ _ E)|reflexivity].
Qed.

Lemma parse_date_value (prompt : string) (w w' : world) (s : string) :
  parse_date prompt w = (Ok s, w') -> exists d, PyDate.valid d = true /\ s = PyDate.isoformat d.
Proof.
  unfold parse_date.
  destruct (parse_date_loop prompt (stdin w) (stdout w)) as [[r ins] out] eqn:E.
  intros H. injection H as -> _. exact (parse_date_loop_value _ _ _ _ _ _ E).
Qed.

(** ** How a handler may end *)

Lemma ends_ret {A} (a : A) : ends_cleanly (ret a).
Proof. intros w r w' H. injection H as <- _. exact I. Qed.

Lemma ends_get_state : ends_cleanly get_state.
Proof. intros w r w' H. injection H as <- _. exact I. Qed.

Lemma ends_print (o : output) : ends_cleanly (print o).
Proof. intros w r w' H. injection H as <- _. exact I. Qed.

Lemma ends_put_state (s : ledger) : ends_cleanly (put_state s).
Proof. intros w r w' H. injection H as <- _. exact I. Qed.

Lemma ends_bind {A B} (m : M A) (k : A -> M B) :
  ends_cleanly m -> (forall a, ends_cleanly (k a)) -> ends_cleanly (bind m k).
Proof.
  intros Hm Hk w r w'. unfold bind.
  destruct (m w) as [[a|e] w1] eqn:E; intros H.
  - exact (Hk a _ _ _ H).
  - injection H as <- <-. exact (Hm _ _ _ E).
Qed.

Lemma ends_input (prompt : string) : ends_cleanly (input prompt).
Proof.
  intros w r w'. unfold input. destruct (stdin w); intros H; injection H as <- <-.
  - reflexivity.
  - exact I.
Qed.

Lemma ends_save : ends_cleanly save.
Proof.
  intros w r w'. unfold save, save_state. destruct (writable w) eqn:Hw; intros H;
    injection H as <- <-; [exact I|exact Hw].
Qed.

Lemma parse_float_loop_end (prompt : string) (lines : list string) (out : list output)
    (e : exn) (rest : list string) (out' : list output) :
  parse_float_loop prompt lines out = (Raise e, rest, out') -> e = EOFError /\ rest = [].
Proof.
  revert out. induction lines as [|line ls IH]; intros out.
  - simpl. intros H. injection H as <- <- _. split; reflexivity.
  - rewrite parse_float_loop_cons.
    destruct (PyFloat.of_string _) as [value|]; [|apply IH].
    destruct (value <? 0)%float; [apply IH|discriminate].
Qed.

Lemma parse_date_loop_end (prompt : string) (lines : list string) (out : list output)
    (e : exn) (rest : list string) (out' : list output) :
  parse_date_loop prompt lines out = (Raise e, rest, out') -> e = EOFError /\ rest = [].
Proof.
  revert out. induction lines as [|line ls IH]; intros out.
  - simpl. intros H. injection H as <- <- _. split; reflexivity.
  - rewrite parse_date_loop_cons.
    destruct (PyDate.strptime _) as [dt|]; [discriminate|apply IH].
Qed.

Lemma ends_parse_float (prompt : string) : ends_cleanly (parse_float prompt).
Proof.
  intros w r w'. unfold parse_float.
  destruct (parse_float_loop prompt (stdin w) (stdout w)) as [[r' ins] out] eqn:E.
  intros H. injection H as <- <-. destruct r' as [v|e]; [exact I|].
  destruct (parse_float_loop_end _ _ _ _ _ _ E) as [-> ->]. reflexivity.
Qed.

Lemma ends_parse_date (prompt : string) : ends_cleanly (parse_date prompt).
Proof.
  intros w r w'. unfold parse_date.
  destruct (parse_date_loop prompt (stdin w) (stdout w)) as [[r' ins] out] eqn:E.
  intros H. injection H as <- <-. destruct r' as [v|e]; [exact I|].
  destruct (parse_date_loop_end _ _ _ _ _ _ E) as [-> ->]. reflexivity.
Qed.

Create HintDb ends.
#[local] Hint Resolve ends_ret ends_get_state ends_print ends_put_state ends_input ends_save
  ends_parse_float ends_parse_date : ends.
#[local] Hint Extern 1 (ends_cleanly (bind _ _)) => apply ends_bind; [|intros ?] : ends.

Lemma ends_print_rows (exps : list expense) (i : Z) : ends_cleanly (print_rows i exps).
Proof. revert i. induction exps as [|e r IH]; intros i; simpl; auto with ends. Qed.

Lemma ends_print_expenses (exps : list expense) : ends_cleanly (print_expenses exps).
Proof.
  pose proof ends_print_rows. unfold print_expenses. destruct exps; auto 20 with ends.
Qed.

Lemma ends_print_report_rows (rows : list (string * float)) (total : float) :
  ends_cleanly (print_report_rows rows total).
Proof.
  revert total. induction rows as [|[cat a] r IH]; intros total; simpl; auto with ends.
Qed.

(** The bounds that the period handler passes on were returned by
    [parse_date], so the filter reads them. *)
Lemma filter_by_period_of_parsed (exps : list expense) (start end_ : string) :
  (exists d, PyDate.valid d = true /\ start = PyDate.isoformat d) ->
  (exists d, PyDate.valid d = true /\ end_ = PyDate.isoformat d) ->
  exists kept, filter_by_period exps start end_ = Ok kept.
Proof.
  intros (s & Hs & ->) (e & He & ->).
  rewrite (filter_by_period_parsed exps _ _ s e (strptime_isoformat s Hs) (strptime_isoformat e He)).
  eauto.
Qed.

Lemma ends_cmd_expenses_by_period : ends_cleanly cmd_expenses_by_period.
Proof.
  unfold cmd_expenses_by_period. intros w r w'.
  unfold bind at 1.
  destruct (parse_date _ w) as [[start|e] w1] eqn:E1;
    [|intros H; injection H as <- <-; exact (ends_parse_date _ _ _ _ E1)].
  unfold bind at 1.
  destruct (parse_date _ w1) as [[end_|e] w2] eqn:E2;
    [|intros H; injection H as <- <-; exact (ends_parse_date _ _ _ _ E2)].
  unfold bind at 1, get_state at 1.
  destruct (filter_by_period_of_parsed (expenses (state w2)) start end_
              (parse_date_value _ _ _ _ E1) (parse_date_value _ _ _ _ E2)) as [kept ->].
  apply ends_print_expenses.
Qed.

Lemma ends_cmd_set_budget : ends_cleanly cmd_set_budget.
Proof. unfold cmd_set_budget. auto 20 with ends. Qed.

Lemma ends_cmd_add_expense : ends_cleanly cmd_add_expense.
Proof.
  unfold cmd_add_expense. do 4 (apply ends_bind; [auto with ends|intros ?]).
  cbv zeta. do 5 (apply ends_bind; [auto with ends|intros ?]).
  cbv zeta. destruct (_ && _); [auto with ends|]. destruct (_ <? _)%float; auto with ends.
Qed.

Lemma ends_cmd_expenses_by_category : ends_cleanly cmd_expenses_by_category.
Proof.
  pose proof ends_print_expenses.
  unfold cmd_expenses_by_category. apply ends_bind; [auto with ends|intros line].
  cbv zeta. destruct (String.eqb _ _); auto with ends.
Qed.

Lemma ends_cmd_balance : ends_cleanly cmd_balance.
Proof.
  unfold cmd_balance. apply ends_bind; [auto with ends|intros s]. cbv zeta.
  do 3 (apply ends_bind; [auto with ends|intros _]).
  destruct (_ && _); auto with ends.
Qed.

Lemma ends_cmd_report_categories : ends_cleanly cmd_report_categories.
Proof.
  pose proof ends_print_report_rows.
  unfold cmd_report_categories. apply ends_bind; [auto with ends|intros s]. cbv zeta.
  destruct (report_by_categories _); auto 20 with ends.
Qed.

Lemma ends_run (c : option command) : ends_cleanly (run c).
Proof.
  pose proof ends_print_expenses.
  destruct c as [[]|]; cbn [run]; (apply ends_bind; [|intros ?; apply ends_ret]).
  - unfold cmd_help. auto with ends.
  - apply ends_cmd_set_budget.
  - apply ends_cmd_add_expense.
  - unfold cmd_show_expenses. auto with ends.
  - unfold cmd_expenses_by_date. auto 20 with ends.
  - apply ends_cmd_expenses_by_period.
  - apply ends_cmd_expenses_by_category.
  - apply ends_cmd_balance.
  - apply ends_cmd_report_categories.
  - auto with ends.
  - auto with ends.
Qed.

Lemma ends_handle_command (typed : string) : ends_cleanly (handle_command typed).
Proof. rewrite handle_command_run. apply ends_run. Qed.

(** ** Documents that hold a ledger *)

Lemma expense_of_json_of_expense (e : expense) : expense_of_json (json_of_expense e) = Some e.
Proof. destruct e as [[a|] [c|] [d|] [m|]]; vm_compute; reflexivity. Qed.

Lemma expenses_of_json_of_expenses (es : list expense) :
  expenses_of_json (List.map json_of_expense es) = Some es.
Proof.
  induction es as [|e r IH]; [reflexivity|].
  cbn [List.map expenses_of_json]. rewrite expense_of_json_of_expense, IH. reflexivity.
Qed.

Lemma ledger_of_json_dict (b : option float) (l : list json) :
  ledger_of_json (JDict (put "budget" JFloat b (<["expenses" := JList l]> ∅)))
  = match expenses_of_json l with
    | Some es => Some {| budget := b; expenses := es |}
    | None => None
    end.
Proof. destruct b; vm_compute; reflexivity. Qed.

Lemma ledger_of_json_of_ledger (s : ledger) : ledger_of_json (json_of_ledger s) = Some s.
Proof.
  unfold json_of_ledger. rewrite ledger_of_json_dict, expenses_of_json_of_expenses.
  destruct s; reflexivity.
Qed.

Lemma load_state_ledger (b : float) (es : list expense) :
  load_state (Document (json_of_ledger {| budget := Some b; expenses := es |}))
  = Ok (json_of_ledger {| budget := Some b; expenses := es |}).
Proof. vm_compute. reflexivity. Qed.

Lemma only_keys_lookup (ks : list string) (d : gmap string json) (k : string) :
  only_keys ks d = true -> ~ List.In k ks -> d !! k = None.
Proof.
  intros H Hk. destruct (d !! k) as [v|] eqn:E; [|reflexivity]. exfalso. apply Hk.
  unfold only_keys in H. rewrite List.forallb_forall in H.
  assert (Hin : List.In k (List.map fst (map_to_list d))).
  { apply List.in_map_iff. exists (k, v). split; [reflexivity|].
    apply list_elem_of_In, elem_of_map_to_list, E. }
  apply H in Hin. apply List.existsb_exists in Hin. destruct Hin as (y & Hy & Heq).
  apply String.eqb_eq in Heq. subst y. exact Hy.
Qed.

Lemma float_field_Some (v : option json) (a : option float) :
  float_field v = Some a -> v = JFloat <$> a.
Proof. destruct v as [[]|]; simpl; intros H; try discriminate H; injection H as <-; reflexivity. Qed.

Lemma str_field_Some (v : option json) (a : option string) :
  str_field v = Some a -> v = JStr <$> a.
Proof. destruct v as [[]|]; simpl; intros H; try discriminate H; injection H as <-; reflexivity. Qed.

Lemma lookup_put_ne {A} (k k' : string) (f : A -> json) (v : option A) (m : gmap string json) :
  k <> k' -> put k f v m !! k' = m !! k'.
Proof. intros H. destruct v; simpl; [apply lookup_insert_ne, H|reflexivity]. Qed.

Lemma lookup_put_eq {A} (k : string) (f : A -> json) (v : option A) (m : gmap string json) :
  m !! k = None -> put k f v m !! k = f <$> v.
Proof. intros H. destruct v; simpl; [apply lookup_insert_eq|exact H]. Qed.

Lemma expense_of_json_exact (j : json) (e : expense) :
  expense_of_json j = Some e -> j = json_of_expense e.
Proof.
  destruct j as [| | | | | |d]; try discriminate. unfold expense_of_json.
  destruct (only_keys _ d) eqn:K; [|discriminate].
  destruct (float_field (d !! "amount")) as [a|] eqn:Ea; [|discriminate].
  destruct (str_field (d !! "category")) as [c|] eqn:Ec; [|discriminate].
  destruct (str_field (d !! "date")) as [dt|] eqn:Ed; [|discriminate].
  destruct (str_field (d !! "comment")) as [m|] eqn:Em; [|discriminate].
  intros H. injection H as <-. unfold json_of_expense. cbn [amount category date comment].
  apply float_field_Some in Ea. apply str_field_Some in Ec, Ed, Em.
  f_equal. apply map_eq. intros k.
  destruct (decide (k = "amount")) as [->|Na].
  { rewrite lookup_put_eq; [exact Ea|].
    rewrite !lookup_put_ne by discriminate. apply lookup_empty. }
  rewrite lookup_put_ne by congruence.
  destruct (decide (k = "category")) as [->|Nc].
  { rewrite lookup_put_eq; [exact Ec|].
    rewrite !lookup_put_ne by discriminate. apply lookup_empty. }
  rewrite lookup_put_ne by congruence.
  destruct (decide (k = "date")) as [->|Nd].
  { rewrite lookup_put_eq; [exact Ed|].
    rewrite !lookup_put_ne by discriminate. apply lookup_empty. }
  rewrite lookup_put_ne by congruence.
  destruct (decide (k = "comment")) as [->|Nm].
  { rewrite lookup_put_eq; [exact Em|]. apply lookup_empty. }
  rewrite lookup_put_ne by congruence. rewrite lookup_empty.
  apply (only_keys_lookup _ _ _ K). simpl. intuition congruence.
Qed.

Lemma expenses_of_json_exact (l : list json) (es : list expense) :
  expenses_of_json l = Some es -> l = List.map json_of_expense es.
Proof.
  revert es. induction l as [|j r IH]; intros es; simpl.
  - intros H. injection H as <-. reflexivity.
  - destruct (expense_of_json j) as [e|] eqn:E; [|discriminate].
    destruct (expenses_of_json r) as [es'|]; [|discriminate].
    intros H. injection H as <-. simpl.
    rewrite <- (expense_of_json_exact j e E), <- (IH es' eq_refl). reflexivity.
Qed.

(** A document holds the ledger [s] exactly when it is the document that
    is written for [s]. *)
Lemma ledger_of_json_exact (j : json) (s : ledger) :
  ledger_of_json j = Some s -> j = json_of_ledger s.
Proof.
  destruct j as [| | | | | |d]; try discriminate. unfold ledger_of_json.
  destruct (only_keys _ d) eqn:K; [|discriminate].
  destruct (float_field (d !! "budget")) as [b|] eqn:Eb; [|discriminate].
  destruct (d !! "expenses") as [[| | | | |l|]|] eqn:Ee; try discriminate.
  destruct (expenses_of_json l) as [es|] eqn:El; [|discriminate].
  intros H. injection H as <-. unfold json_of_ledger. cbn [budget expenses].
  apply float_field_Some in Eb. apply expenses_of_json_exact in El. subst l.
  f_equal. apply map_eq. intros k.
  destruct (decide (k = "budget")) as [->|Nb].
  { rewrite lookup_put_eq; [exact Eb|].
    rewrite lookup_insert_ne by discriminate. apply lookup_empty. }
  rewrite lookup_put_ne by congruence.
  destruct (decide (k = "expenses")) as [->|Ne].
  { rewrite lookup_insert_eq. exact Ee. }
  rewrite lookup_insert_ne by congruence. rewrite lookup_empty.
  apply (only_keys_lookup _ _ _ K). simpl. intuition congruence.
Qed.

(** ** The main loop *)

Lemma main_loop_S (fuel : nat) (w : world) :
  main_loop (S fuel) w =
  match input prompt_command w with
  | (Raise e, w1) => Some (Raise e, w1)
  | (Ok user_input, w1) =>
      match handle_command user_input w1 with
      | (Raise e, w2) => Some (Raise e, w2)
      | (Ok true, w2) => main_loop fuel w2
      | (Ok false, w2) => Some (Ok tt, w2)
      end
  end.
Proof. reflexivity. Qed.

Lemma session_input (prompt : string) : keeps session (input prompt).
Proof. apply read_only_keeps_session, read_only_input. Qed.

Lemma main_loop_session (fuel : nat) (w : world) (r : result unit) (w' : world) :
  main_loop fuel w = Some (r, w') -> session w w'.
Proof.
  revert w. induction fuel as [|fuel IH]; intros w; [discriminate|].
  rewrite main_loop_S.
  destruct (input prompt_command w) as [[line|e] w1] eqn:E1.
  - pose proof (session_input _ _ _ _ E1) as S1.
    destruct (handle_command line w1) as [[[|]|e] w2] eqn:E2;
      pose proof (session_handle_command _ _ _ _ E2) as S2; intros H.
    + exact (session_trans _ _ _ (session_trans _ _ _ S1 S2) (IH _ H)).
    + injection H as _ <-. exact (session_trans _ _ _ S1 S2).
    + injection H as _ <-. exact (session_trans _ _ _ S1 S2).
  - intros H. injection H as _ <-. exact (session_input _ _ _ _ E1).
Qed.

Lemma main_loop_ends (fuel : nat) (w : world) (r : result unit) (w' : world) :
  main_loop fuel w = Some (r, w') -> clean_end r w'.
Proof.
  revert w. induction fuel as [|fuel IH]; intros w; [discriminate|].
  rewrite main_loop_S.
  destruct (input prompt_command w) as [[line|e] w1] eqn:E1.
  - destruct (handle_command line w1) as [[[|]|e] w2] eqn:E2; intros H.
    + exact (IH _ H).
    + injection H as <- _. exact I.
    + injection H as <- <-. exact (ends_handle_command _ _ _ _ E2).
  - intros H. injection H as <- <-. exact (ends_input _ _ _ _ E1).
Qed.

(** Every turn of the loop reads a line, so the loop ends within as many
    turns as there are lines, plus one. *)
Lemma main_loop_total (fuel : nat) (w : world) :
  (length (stdin w) < fuel)%nat -> exists r w', main_loop fuel w = Some (r, w').
Proof.
  revert w. induction fuel as [|fuel IH]; intros w Hlt; [lia|].
  rewrite main_loop_S.
  destruct (input prompt_command w) as [[line|e] w1] eqn:E1; [|eauto].
  assert (L1 : (length (stdin w1) < length (stdin w))%nat).
  { unfold input in E1. destruct (stdin w) as [|l rest]; [discriminate E1|].
    injection E1 as _ <-. simpl. lia. }
  destruct (handle_command line w1) as [[[|]|e] w2] eqn:E2; eauto.
  apply IH. destruct (session_handle_command _ _ _ _ E2) as (Hsuf & _).
  apply suffix_length in Hsuf. lia.
Qed.

Lemma main_loop_more_fuel (fuel fuel' : nat) (w : world) (x : result unit * world) :
  main_loop fuel w = Some x -> (fuel <= fuel')%nat -> main_loop fuel' w = Some x.
Proof.
  revert fuel' w. induction fuel as [|fuel IH]; intros fuel' w; [discriminate|].
  intros H Hle. destruct fuel' as [|fuel']; [lia|].
  rewrite main_loop_S in *.
  destruct (input prompt_command w) as [[line|e] w1]; [|exact H].
  destruct (handle_command line w1) as [[[|]|e] w2]; [|exact H|exact H].
  apply IH; [exact H|lia].
Qed.

Lemma main_loop_exit (fuel : nat) (w w' : world) :
  main_loop fuel w = Some (Ok tt, w') ->
  exists line, List.In line (stdin w) /\ selects line = Some Exit
               /\ [Line msg_bye] `suffix_of` stdout w'.
Proof.
  revert w. induction fuel as [|fuel IH]; intros w; [discriminate|].
  rewrite main_loop_S.
  destruct (input prompt_command w) as [[line|e] w1] eqn:E1; [|discriminate].
  assert (Hin : exists l rest, stdin w = l :: rest /\ line = l /\ stdin w1 = rest).
  { unfold input in E1. destruct (stdin w) as [|l rest]; [discriminate E1|].
    injection E1 as <- <-. eauto. }
  destruct Hin as (l & rest & Hw & -> & H1).
  destruct (handle_command l w1) as [[[|]|e] w2] eqn:E2; [| |discriminate].
  - intros H. destruct (IH _ H) as (x & Hx & Hsel & Hout).
    exists x. split; [|split; assumption].
    destruct (session_handle_command _ _ _ _ E2) as ([pre Hpre] & _).
    rewrite Hw. right. rewrite <- H1, Hpre. apply List.in_or_app. right. exact Hx.
  - intros H. injection H as <-.
    assert (Hsel : selects l = Some Exit).
    { apply (selects_exit_iff l w1). rewrite E2. reflexivity. }
    exists l. split; [rewrite Hw; left; reflexivity|]. split; [exact Hsel|].
    rewrite handle_command_run, Hsel in E2. cbn [run] in E2.
    unfold bind, print, ret in E2. injection E2 as <-. simpl.
    exists (stdout w1). reflexivity.
Qed.

Lemma greet_prints (w : world) :
  greet w = (Ok tt, set_console (stdin w) (stdout w ++ greeting_lines) w).
Proof.
  unfold greet, bind, print, set_console, greeting_lines. simpl.
  rewrite <- List.app_assoc. reflexivity.
Qed.

Lemma main_loaded (w : world) (doc : json) (s : ledger) :
  load_state (file w) = Ok doc -> ledger_of_json doc = Some s ->
  main w = main_loop (S (length (stdin w)))
             (set_console (stdin w) (stdout w ++ greeting_lines) (set_state s w)).
Proof. intros Hl Hd. unfold main. rewrite Hl, Hd, greet_prints. reflexivity. Qed.

(** X2: [main] ends on every input.  The loop reads at least one line per
    turn, so it is over after at most as many turns as there are lines
    left, plus one, and more turns change nothing; [main] is undefined
    only for a data file whose document is outside the stored types. *)
Theorem main_ends (w : world) :
  (main w = None <-> exists doc, load_state (file w) = Ok doc /\ ledger_of_json doc = None)
  /\ (forall fuel : nat, (length (stdin w) < fuel)%nat ->
      exists r w', main_loop fuel w = Some (r, w')
                   /\ forall fuel' : nat, (fuel <= fuel')%nat -> main_loop fuel' w = Some (r, w')).
Proof.
  split.
  - split.
    + destruct (load_state (file w)) as [doc|e] eqn:Hl;
        [|unfold main; rewrite Hl; discriminate].
      destruct (ledger_of_json doc) as [s|] eqn:Hd; [|eauto].
      rewrite (main_loaded w doc s Hl Hd). intros H. exfalso.
      destruct (main_loop_total (S (length (stdin w)))
                  (set_console (stdin w) (stdout w ++ greeting_lines) (set_state s w)))
        as (r & w' & E); [simpl; lia|]. congruence.
    + intros (doc & Hl & Hd). unfold main. rewrite Hl, Hd. reflexivity.
  - intros fuel Hlt. destruct (main_loop_total fuel w Hlt) as (r & w' & E).
    exists r, w'. split; [exact E|]. intros fuel' Hle.
    exact (main_loop_more_fuel _ _ _ _ E Hle).
Qed.

(** X3: [main] returns only after an exit phrase was typed: some line of
    the input is one ([вийти], [exit] or [quit], in any letter case, with
    white space around), the farewell is the last thing printed, and the
    greeting the first. *)
Theorem main_returns_after_exit (w w' : world) :
  main w = Some (Ok tt, w') ->
  (exists line, List.In line (stdin w) /\ selects line = Some Exit)
  /\ (stdout w ++ greeting_lines) `prefix_of` stdout w'
  /\ [Line msg_bye] `suffix_of` stdout w'.
Proof.
  destruct (load_state (file w)) as [doc|e] eqn:Hl;
    [|unfold main; rewrite Hl; discriminate].
  destruct (ledger_of_json doc) as [s|] eqn:Hd;
    [|unfold main; rewrite Hl, Hd; discriminate].
  rewrite (main_loaded w doc s Hl Hd). intros H.
  destruct (main_loop_exit _ _ _ H) as (line & Hin & Hsel & Hout).
  split; [eauto|]. split; [|exact Hout].
  destruct (main_loop_session _ _ _ _ H) as (_ & Hp & _). exact Hp.
Qed.

(** No data file; the expenses are listed, then [QUIT] is typed. *)
Lemma main_returns_after_exit_witness :
  let w0 := {| state := {| budget := None; expenses := [] |};
               stdin := ["показати витрати"; "  QUIT "; "залишок"];
               stdout := []; file := NoFile; writable := true |} in
  exists w1, main w0 = Some (Ok tt, w1)
             /\ stdin w1 = ["залишок"]
             /\ greeting_lines `prefix_of` stdout w1
             /\ [Line msg_bye] `suffix_of` stdout w1.
Proof.
  intros w0.
  assert (Hrun : exists w1, main w0 = Some (Ok tt, w1) /\ stdin w1 = ["залишок"]).
  { eexists. split; vm_compute; reflexivity. }
  destruct Hrun as (w1 & Hrun & Hin).
  destruct (main_returns_after_exit w0 w1 Hrun) as (_ & Hg & Hb).
  exists w1. repeat split; assumption.
Defined.

(** X4: when the data file loads, [main] can stop in three ways only: it
    returns, it raises [EOFError] with every line of the input read, or
    it raises [OSError] with a data file that cannot be written.  No
    [ValueError], [TypeError] or [KeyError] escapes a handler. *)
Theorem main_stops_cleanly (w w' : world) (doc : json) (r : result unit) :
  load_state (file w) = Ok doc -> main w = Some (r, w') ->
  r = Ok tt
  \/ (r = Raise EOFError /\ stdin w' = [])
  \/ (r = Raise OSError /\ writable w = false).
Proof.
  intros Hl.
  destruct (ledger_of_json doc) as [s|] eqn:Hd;
    [|unfold main; rewrite Hl, Hd; discriminate].
  rewrite (main_loaded w doc s Hl Hd). intros H.
  pose proof (main_loop_ends _ _ _ _ H) as He.
  destruct (main_loop_session _ _ _ _ H) as (_ & _ & Hw & _).
  destruct r as [[]|[]]; simpl in He; try contradiction; auto.
  right. right. split; [reflexivity|]. rewrite Hw in He. exact He.
Qed.

(** Setting the budget with a data file that cannot be written. *)
Lemma main_stops_cleanly_witness :
  let w0 := {| state := {| budget := None; expenses := [] |};
               stdin := ["встановити бюджет"; "100"; "залишок"];
               stdout := []; file := NotJson; writable := false |} in
  exists w1, main w0 = Some (Raise OSError, w1)
             /\ stdin w1 = ["залишок"] /\ writable w0 = false.
Proof.
  intros w0.
  assert (Hrun : exists w1, main w0 = Some (Raise OSError, w1) /\ stdin w1 = ["залишок"]).
  { eexists. split; vm_compute; reflexivity. }
  destruct Hrun as (w1 & Hrun & Hin).
  exists w1. split; [exact Hrun|]. split; [exact Hin|].
  destruct (main_stops_cleanly w0 w1 default_state (Raise OSError) eq_refl Hrun)
    as [H|[[H _]|[_ H]]]; [discriminate H|discriminate H|exact H].
Defined.

(** X5: over a whole run of [main], the expenses loaded from the file stay,
    in their order, at the head of the list (nothing is removed or
    edited), and with a writable file either the ledger in memory and the
    file are as they were at the start or the file holds the ledger in
    memory: no change is left unsaved, however the run ends. *)
Theorem main_keeps_ledger (w w' : world) (doc : json) (s0 : ledger) (r : result unit) :
  load_state (file w) = Ok doc -> ledger_of_json doc = Some s0 ->
  main w = Some (r, w') ->
  expenses s0 `prefix_of` expenses (state w')
  /\ (writable w = true ->
      (state w' = s0 /\ file w' = file w) \/ file w' = Document (json_of_ledger (state w'))).
Proof.
  intros Hl Hd. rewrite (main_loaded w doc s0 Hl Hd). intros H.
  destruct (main_loop_session _ _ _ _ H) as (_ & _ & _ & He & _ & Hp).
  split; [exact He|exact Hp].
Qed.

(** A ledger with one expense on the disk; a second one is added, and the
    input ends during the next command. *)
Lemma main_keeps_ledger_witness :
  let e := {| amount := Some 30%float; category := Some "Food";
              date := Some "2026-01-10"; comment := Some "" |} in
  let s0 := {| budget := Some 100%float; expenses := [e] |} in
  let w0 := {| state := {| budget := None; expenses := [] |};
               stdin := ["додати витрату"; "80"; "Bus"; "2026-01-11"; "home"; "залишок"];
               stdout := []; file := Document (json_of_ledger s0); writable := true |} in
  exists w1, main w0 = Some (Raise EOFError, w1)
             /\ [e] `prefix_of` expenses (state w1)
             /\ length (expenses (state w1)) = 2%nat
             /\ file w1 = Document (json_of_ledger (state w1)).
Proof.
  intros e s0 w0.
  assert (Hrun : exists w1, main w0 = Some (Raise EOFError, w1)
                            /\ length (expenses (state w1)) = 2%nat
                            /\ file w1 = Document (json_of_ledger (state w1))).
  { eexists. split; [vm_compute; reflexivity|]. split; vm_compute; reflexivity. }
  destruct Hrun as (w1 & Hrun & Hlen & Hf).
  destruct (main_keeps_ledger w0 w1 (json_of_ledger s0) s0 (Raise EOFError)) as (Hp & _).
  - vm_compute. reflexivity.
  - vm_compute. reflexivity.
  - exact Hrun.
  - exists w1. repeat split; assumption.
Defined.

(** ** Reading a date *)

(** A text that starts and ends with ASCII characters that are not white
    space has nothing to trim. *)
Lemma drop_space_ascii (back : bool) (a : N) (r : list N) :
  (a < 128)%N -> Str.space1 a = false -> Str.drop_space back (a :: r) = a :: r.
Proof.
  intros Ha H1.
  assert (H2 : forall b, (if back then Str.space2 b a else Str.space2 a b) = false).
  { intros b. unfold Str.space2. destruct back.
    - destruct (b =? 194)%N; [|reflexivity]. simpl.
      rewrite (proj2 (N.eqb_neq a 133)), (proj2 (N.eqb_neq a 160)) by lia. reflexivity.
    - rewrite (proj2 (N.eqb_neq a 194)) by lia. reflexivity. }
  assert (H3 : forall b c, (if back then Str.space3 c b a else Str.space3 a b c) = false).
  { intros b c. unfold Str.space3, Str.between. destruct back.
    - rewrite (proj2 (N.eqb_neq a 128)), (proj2 (N.eqb_neq a 168)), (proj2 (N.eqb_neq a 169)),
        (proj2 (N.eqb_neq a 175)), (proj2 (N.eqb_neq a 159)), (proj2 (N.leb_gt 128 a)) by lia.
      simpl. rewrite !Bool.andb_false_r. reflexivity.
    - rewrite (proj2 (N.eqb_neq a 225)), (proj2 (N.eqb_neq a 226)), (proj2 (N.eqb_neq a 227))
        by lia. reflexivity. }
  destruct r as [|b [|c r]].
  - simpl. rewrite H1. reflexivity.
  - simpl. rewrite H1, H2. reflexivity.
  - rewrite drop_space_cons3, H1, H2, H3. reflexivity.
Qed.

Lemma digit_range (k : Z) : (48 <= PyDate.digit k <= 57)%N.
Proof. unfold PyDate.digit. pose proof (Z.mod_pos_bound k 10). lia. Qed.

Lemma space1_digit (k : Z) : Str.space1 (PyDate.digit k) = false.
Proof.
  pose proof (digit_range k) as H. unfold Str.space1, Str.between.
  rewrite (proj2 (N.leb_gt (PyDate.digit k) 13)), (proj2 (N.leb_gt (PyDate.digit k) 32)) by lia.
  rewrite !Bool.andb_false_r. reflexivity.
Qed.

Lemma strip_isoformat (d : PyDate.date) : Str.strip (PyDate.isoformat d) = PyDate.isoformat d.
Proof.
  unfold Str.strip, PyDate.isoformat.
  rewrite codes_of_codes by (repeat constructor; try apply digit_lt; reflexivity).
  rewrite drop_space_ascii; [|pose proof (digit_range (PyDate.year d / 1000)); lia
                             |apply space1_digit].
  cbn [List.rev List.app].
  rewrite drop_space_ascii; [|pose proof (digit_range (PyDate.day d)); lia|apply space1_digit].
  reflexivity.
Qed.

(** X6: what [parse_date] returns is a valid date written [YYYY-MM-DD]
    with two digits for the month and the day, ten characters with
    nothing to trim, and [strptime] reads it back as the same date: a
    line typed [2026-1-5] is returned as [2026-01-05]. *)
Theorem parse_date_returns_canonical (prompt : string) (w w' : world) (s : string) :
  parse_date prompt w = (Ok s, w') ->
  PyDate.iso_string s
  /\ String.length s = 10%nat
  /\ Str.strip s = s
  /\ exists d, PyDate.strptime s = Some d /\ PyDate.isoformat d = s.
Proof.
  intros H. destruct (parse_date_value _ _ _ _ H) as (d & Hv & ->).
  split; [exists d; split; [exact Hv|reflexivity]|].
  split; [reflexivity|]. split; [apply strip_isoformat|].
  exists d. split; [exact (strptime_isoformat d Hv)|reflexivity].
Qed.

(** A refused line, then a date typed with one-digit month and day and
    spaces around it. *)
Lemma parse_date_returns_canonical_witness :
  let w0 := {| state := {| budget := None; expenses := [] |};
               stdin := ["soon"; " 2026-1-5 "; "next"];
               stdout := []; file := NoFile; writable := true |} in
  exists w1, parse_date "Дата: " w0 = (Ok "2026-01-05", w1)
             /\ stdin w1 = ["next"]
             /\ PyDate.iso_string "2026-01-05"
             /\ Str.strip "2026-01-05" = "2026-01-05".
Proof.
  intros w0.
  assert (Hrun : exists w1, parse_date "Дата: " w0 = (Ok "2026-01-05", w1)
                            /\ stdin w1 = ["next"]).
  { eexists. split; vm_compute; reflexivity. }
  destruct Hrun as (w1 & Hrun & Hin).
  destruct (parse_date_returns_canonical _ _ _ _ Hrun) as (Hiso & _ & Hstrip & _).
  exists w1. repeat split; assumption.
Defined.

Lemma parse_date_loop_rejected (prompt : string) (bad tail : list string) (out : list output) :
  Forall (fun l => PyDate.strptime (Str.strip l) = None) bad ->
  parse_date_loop prompt (bad ++ tail) out
  = parse_date_loop prompt tail (out ++ asked_again prompt bad).
Proof.
  intros H. revert out. induction H as [|l bad Hl _ IH]; intros out.
  - simpl. rewrite List.app_nil_r. reflexivity.
  - rewrite <- List.app_comm_cons, parse_date_loop_cons, Hl, IH.
    unfold asked_again. simpl. rewrite <- List.app_assoc. reflexivity.
Qed.

(** X7: [parse_date] skips every line that [strptime] turns down, printing
    the prompt and the error message once for each, and returns at the
    first line it reads, leaving the lines after it unread; if no such
    line comes before the input ends, [EOFError] is raised. *)
Theorem parse_date_asks_again (prompt : string) (bad : list string) (w : world) :
  Forall (fun l => PyDate.strptime (Str.strip l) = None) bad ->
  (forall line rest d,
     stdin w = bad ++ line :: rest -> PyDate.strptime (Str.strip line) = Some d ->
     parse_date prompt w
     = (Ok (PyDate.isoformat d),
        set_console rest ((stdout w ++ asked_again prompt bad) ++ [Prompt prompt]) w))
  /\ (stdin w = bad ->
      parse_date prompt w
      = (Raise EOFError,
         set_console [] ((stdout w ++ asked_again prompt bad) ++ [Prompt prompt]) w)).
Proof.
  intros Hbad. split.
  - intros line rest d Hin Hd. unfold parse_date.
    rewrite Hin, parse_date_loop_rejected, parse_date_loop_cons, Hd by exact Hbad.
    reflexivity.
  - intros Hin. unfold parse_date.
    rewrite <- (List.app_nil_r (stdin w)), Hin, parse_date_loop_rejected by exact Hbad.
    reflexivity.
Qed.

(** Two refused lines (another format, the 30th of February), then a date. *)
Lemma parse_date_asks_again_witness :
  let w0 := {| state := {| budget := None; expenses := [] |};
               stdin := ["10.01.2026"; "2026-02-30"; "2026-02-27"; "left"];
               stdout := []; file := NoFile; writable := true |} in
  parse_date "Дата: " w0
  = (Ok "2026-02-27",
     set_console ["left"]
       [Prompt "Дата: "; Line msg_bad_date; Prompt "Дата: "; Line msg_bad_date; Prompt "Дата: "]
       w0).
Proof.
  intros w0.
  assert (Hbad : Forall (fun l => PyDate.strptime (Str.strip l) = None)
                   ["10.01.2026"; "2026-02-30"])
    by (repeat constructor; vm_compute; reflexivity).
  exact (proj1 (parse_date_asks_again "Дата: " _ w0 Hbad) "2026-02-27" ["left"]
           {| PyDate.year := 2026; PyDate.month := 2; PyDate.day := 27 |} eq_refl eq_refl).
Defined.

(** ** Filters *)

Lemma date_leb_refl (d : PyDate.date) : PyDate.leb d d = true.
Proof.
  unfold PyDate.leb. destruct (PyDate.ltb d d) eqn:H; [|reflexivity].
  rewrite (date_ltb_asym d d H) in H. discriminate H.
Qed.

Lemma filter_filter_implied {A} (p q : A -> bool) (l : list A) :
  (forall x, p x = true -> q x = true) ->
  List.filter p (List.filter q l) = List.filter p l.
Proof.
  intros H. induction l as [|x r IH]; [reflexivity|]. simpl.
  destruct (q x) eqn:Hq; simpl.
  - rewrite IH. reflexivity.
  - destruct (p x) eqn:Hp; [rewrite (H x Hp) in Hq; discriminate Hq|exact IH].
Qed.

(** X8: for a date [s] written [YYYY-MM-DD], the expenses that
    [filter_by_date] selects are among those of the one-day period from
    [s] to [s]: they are the expenses of that period whose date is
    written exactly as [s], and each of them has a [date] key. *)
Theorem filter_by_date_within_period (exps : list expense) (s : string) :
  PyDate.iso_string s ->
  exists kept,
    filter_by_period exps s s = Ok kept
    /\ filter_by_date exps s = filter_by_date kept s
    /\ (forall e, List.In e (filter_by_date exps s) -> List.In e kept /\ date e = Some s).
Proof.
  intros (d & Hv & ->).
  pose proof (strptime_isoformat d Hv) as Hd.
  rewrite (filter_by_period_parsed exps _ _ d d Hd Hd).
  assert (Hd' : earlier d d = d /\ later d d = d)
    by (unfold earlier, later; destruct (PyDate.ltb d d); split; reflexivity).
  destruct Hd' as [-> ->].
  assert (Himp : forall e, String.eqb (str_get (date e)) (PyDate.isoformat d) = true ->
                           within d d e = true).
  { intros e He. apply String.eqb_eq in He. unfold within. rewrite He, Hd, date_leb_refl.
    reflexivity. }
  eexists. split; [reflexivity|]. split.
  - unfold filter_by_date. symmetry. apply filter_filter_implied, Himp.
  - intros e He. unfold filter_by_date in He. apply List.filter_In in He.
    destruct He as [Hin He]. split.
    + apply List.filter_In. split; [exact Hin|exact (Himp e He)].
    + apply String.eqb_eq in He. unfold str_get, get in He.
      destruct (date e) as [x|]; [rewrite He; reflexivity|].
      apply (f_equal String.length) in He. rewrite isoformat_length in He. discriminate He.
Qed.

(** Three expenses: one dated [2026-01-10], one dated [2026-1-10] (as
    in a file edited by hand) and one without a date. *)
Lemma filter_by_date_within_period_witness :
  let a := {| amount := Some 30%float; category := Some "Food";
              date := Some "2026-01-10"; comment := Some "" |} in
  let b := {| amount := Some 5%float; category := Some "Bus";
              date := Some "2026-1-10"; comment := Some "" |} in
  let c := {| amount := Some 7%float; category := Some "Tea";
              date := None; comment := None |} in
  filter_by_period [a; b; c] "2026-01-10" "2026-01-10" = Ok [a; b]
  /\ filter_by_date [a; b; c] "2026-01-10" = [a]
  /\ filter_by_date [a; b; c] "2026-01-10" = filter_by_date [a; b] "2026-01-10".
Proof.
  intros a b c.
  assert (Hiso : PyDate.iso_string "2026-01-10").
  { exists {| PyDate.year := 2026; PyDate.month := 1; PyDate.day := 10 |}.
    split; reflexivity. }
  destruct (filter_by_date_within_period [a; b; c] "2026-01-10" Hiso) as (kept & Hk & Hd & _).
  assert (Hkept : kept = [a; b]).
  { assert (E : filter_by_period [a; b; c] "2026-01-10" "2026-01-10" = Ok [a; b])
      by (vm_compute; reflexivity).
    rewrite E in Hk. injection Hk as <-. reflexivity. }
  subst kept. split; [exact Hk|]. split; [vm_compute; reflexivity|exact Hd].
Defined.

(** X9: the category filter ignores the white space around the query, and
    an expense whose category was entered as the text [line] (not blank),
    so stored as [normalize_category line], is selected by the query
    [line]. *)
Theorem filter_by_category_finds_entered (exps : list expense) (line : string) (e : expense) :
  Str.strip line <> "" ->
  category e = Some (normalize_category line) ->
  List.In e exps ->
  List.In e (filter_by_category exps line)
  /\ filter_by_category exps (Str.strip line) = filter_by_category exps line.
Proof.
  intros Hne Hc Hin. split.
  - unfold filter_by_category. apply List.filter_In. split; [exact Hin|].
    rewrite Hc. unfold get.
    rewrite normalize_category_trimmed, (normalize_category_nonblank line Hne).
    apply String.eqb_refl.
  - unfold filter_by_category. rewrite strip_idem. reflexivity.
Qed.

(** An expense entered under ["  Food "] is stored under ["Food"] and
    found by the query as typed. *)
Lemma filter_by_category_finds_entered_witness :
  let e := {| amount := Some 30%float; category := Some "Food";
              date := Some "2026-01-10"; comment := Some "" |} in
  let o := {| amount := Some 5%float; category := Some "Bus";
              date := Some "2026-01-11"; comment := Some "" |} in
  normalize_category "  Food " = "Food"
  /\ List.In e (filter_by_category [o; e] "  Food ").
Proof.
  intros e o. split; [vm_compute; reflexivity|].
  refine (proj1 (filter_by_category_finds_entered [o; e] "  Food " e _ _ _)).
  - vm_compute. discriminate.
  - vm_compute. reflexivity.
  - right. left. reflexivity.
Defined.

(** ** The balance *)

Lemma sub_zero (x : float) : (x - 0)%float = x.
Proof.
  apply Prim2SF_inj. rewrite sub_spec, Binary64.zero_spec.
  pose proof (Prim2SF_valid x) as Hv.
  destruct (Prim2SF x) as [[|]|[|]| |[|] m e]; try reflexivity.
Qed.

(** X10: the balance of an empty list is the budget itself; the balance is
    below zero exactly when the total is above the budget, and its
    magnitude is then the total less the budget (all in binary64). *)
Theorem calculate_balance_sign (b : float) (exps : list expense) :
  calculate_balance b [] = b
  /\ (calculate_balance b exps <? 0)%float = (b <? total_expenses exps)%float
  /\ ((b <? total_expenses exps)%float = true ->
      abs (calculate_balance b exps) = (total_expenses exps - b)%float).
Proof.
  unfold calculate_balance. split; [apply sub_zero|].
  split; [apply Binary64.sub_below_zero|].
  intros H. apply Binary64.abs_negative_difference.
  rewrite Binary64.sub_below_zero. exact H.
Qed.

(** ** The table of expenses *)

Lemma print_rows_prints (exps : list expense) (i : Z) (w : world) :
  print_rows i exps w
  = (Ok tt, set_console (stdin w) (stdout w ++ imap (fun k e => expense_row (i + Z.of_nat k) e) exps) w).
Proof.
  revert i w. induction exps as [|e r IH]; intros i w.
  - simpl. unfold ret, set_console. rewrite List.app_nil_r. destruct w; reflexivity.
  - assert (E : [expense_row i e] ++ imap (fun k x => expense_row (i + 1 + Z.of_nat k) x) r
                = imap (fun k x => expense_row (i + Z.of_nat k) x) (e :: r)).
    { simpl. rewrite Z.add_0_r. f_equal. apply imap_ext. intros k x _. simpl. f_equal. lia. }
    rewrite <- E. cbn [print_rows]. cbv zeta. unfold bind at 1, print at 1. rewrite IH.
    unfold set_console, expense_row. simpl. rewrite <- List.app_assoc. reflexivity.
Qed.

Lemma print_expenses_prints (exps : list expense) (w : world) :
  print_expenses exps w = (Ok tt, set_console (stdin w) (stdout w ++ expense_table exps) w).
Proof.
  destruct exps as [|e0 r]; [reflexivity|].
  unfold print_expenses, expense_table. generalize (e0 :: r). intros exps.
  unfold bind, print. rewrite print_rows_prints. unfold set_console. simpl.
  rewrite <- !List.app_assoc. reflexivity.
Qed.

(** X11: [print_expenses] never fails and only prints.  For an empty list
    it prints one line; otherwise a heading of four lines, one row per
    expense, numbered from 1 in the order of the list, a rule, and a last
    line with the total of the list. *)
Theorem print_expenses_rows (exps : list expense) (w : world) :
  exists printed,
    print_expenses exps w = (Ok tt, set_console (stdin w) (stdout w ++ printed) w)
    /\ (exps = [] -> printed = [Line "ℹ️ Витрат поки немає."])
    /\ (exps <> [] ->
        length printed = (length exps + 6)%nat
        /\ (forall (k : nat) e, exps !! k = Some e ->
              printed !! (4 + k)%nat = Some (expense_row (Z.of_nat k + 1) e))
        /\ List.last printed (Line "")
           = LineF "Разом витрат: " (total_expenses exps) newline).
Proof.
  exists (expense_table exps). split; [apply print_expenses_prints|].
  destruct exps as [|e0 r]; [split; [reflexivity|intros H; contradiction]|].
  split; [discriminate|intros _].
  unfold expense_table. generalize (e0 :: r). intros exps. split; [|split].
  - rewrite !List.length_app, length_imap. simpl. lia.
  - intros k e Hk. change (4 + k)%nat with (S (S (S (S k)))). cbn [List.app lookup list_lookup].
    apply lookup_app_l_Some.
    rewrite list_lookup_imap, Hk. simpl. f_equal. f_equal. lia.
  - match goal with
    | |- List.last (?h ++ ?rows ++ [?x; ?y]) _ = _ =>
        replace (h ++ rows ++ [x; y]) with ((h ++ rows ++ [x]) ++ [y])
          by (rewrite <- !List.app_assoc; reflexivity)
    end.
    apply List.last_last.
Qed.

(** ** Setting the budget *)

Lemma parse_float_value (prompt : string) (w w' : world) (v : float) :
  parse_float prompt w = (Ok v, w') -> (v <? 0)%float = false.
Proof.
  unfold parse_float.
  destruct (parse_float_loop prompt (stdin w) (stdout w)) as [[r ins] out] eqn:E.
  intros H. injection H as -> _. exact (parse_float_not_negative _ _ _ _ _ _ E).
Qed.

(** The line whose value [parse_float] returns: the lines before it were
    read and turned down, the lines after it are left. *)
Lemma parse_float_loop_reads (prompt : string) (lines : list string) (out : list output)
    (v : float) (rest : list string) (out' : list output) :
  parse_float_loop prompt lines out = (Ok v, rest, out') ->
  exists skipped line,
    lines = skipped ++ line :: rest
    /\ PyFloat.of_string (Str.replace_comma (Str.strip line)) = Some v.
Proof.
  revert out. induction lines as [|l ls IH]; intros out; [discriminate|].
  rewrite parse_float_loop_cons.
  destruct (PyFloat.of_string _) as [value|] eqn:E.
  - destruct (value <? 0)%float.
    + intros H. destruct (IH _ H) as (sk & line & -> & Hl).
      exists (l :: sk), line. split; [reflexivity|exact Hl].
    + intros H. injection H as <- <- _. exists [], l. split; [reflexivity|exact E].
  - intros H. destruct (IH _ H) as (sk & line & -> & Hl).
    exists (l :: sk), line. split; [reflexivity|exact Hl].
Qed.

(** X12: when the set-budget handler returns, the budget in memory is the
    amount that [parse_float] returned for the prompt: the number written
    on the last line the handler read, which is not below zero.  The
    expenses are untouched, the file holds the new ledger, and after what
    [parse_float] printed comes one line, the confirmation with the new
    budget. *)
Theorem set_budget_stores (w w' : world) :
  cmd_set_budget w = (Ok tt, w') ->
  exists (v : float) (w1 : world) (skipped : list string) (line : string),
    parse_float "Введи суму бюджету: " w = (Ok v, w1)
    /\ stdin w = skipped ++ line :: stdin w'
    /\ PyFloat.of_string (Str.replace_comma (Str.strip line)) = Some v
    /\ (v <? 0)%float = false
    /\ state w' = {| budget := Some v; expenses := expenses (state w) |}
    /\ file w' = Document (json_of_ledger (state w'))
    /\ stdout w' = stdout w1 ++ [LineF "✅ Бюджет встановлено: " v ""].
Proof.
  unfold cmd_set_budget. intros H. unfold bind at 1 in H.
  destruct (parse_float _ w) as [[v|x] w1] eqn:H1; [|discriminate H].
  pose proof (parse_float_value _ _ _ _ H1) as Hv.
  assert (Hr : exists skipped line,
             stdin w = skipped ++ line :: stdin w1
             /\ PyFloat.of_string (Str.replace_comma (Str.strip line)) = Some v).
  { revert H1. unfold parse_float.
    destruct (parse_float_loop _ (stdin w) (stdout w)) as [[r ins] out] eqn:E.
    intros H1. injection H1 as -> <-. exact (parse_float_loop_reads _ _ _ _ _ _ E). }
  destruct Hr as (skipped & line & Hin & Hl).
  destruct (parse_float_console_only _ _ _ _ H1) as (Hs & _).
  unfold bind at 1, get_state at 1 in H. unfold bind at 1, put_state at 1 in H.
  unfold bind at 1, save at 1, save_state in H. simpl writable in H.
  destruct (writable w1); [|discriminate H].
  unfold print in H. injection H as <-. simpl.
  exists v, w1, skipped, line. rewrite Hs. repeat split; assumption.
Qed.

(** A negative amount is asked again; [100,50] is stored as 100.5, and the
    line after it is left unread. *)
Lemma set_budget_stores_witness :
  let w0 := {| state := {| budget := Some 0%float;
                           expenses := [spent "Food" 30%float] |};
               stdin := ["-1"; "100,50"; "left"]; stdout := []; file := NoFile;
               writable := true |} in
  exists w1, cmd_set_budget w0 = (Ok tt, w1)
             /\ state w1 = {| budget := Some 100.5%float;
                              expenses := [spent "Food" 30%float] |}
             /\ stdin w1 = ["left"]
             /\ file w1 = Document (json_of_ledger (state w1)).
Proof.
  intros w0.
  assert (Hrun : exists w1, cmd_set_budget w0 = (Ok tt, w1)
                            /\ budget (state w1) = Some 100.5%float
                            /\ stdin w1 = ["left"]).
  { eexists. repeat split; vm_compute; reflexivity. }
  destruct Hrun as (w1 & Hrun & Hb & Hi).
  destruct (set_budget_stores w0 w1 Hrun) as (v & w' & sk & line & _ & _ & _ & _ & Hs & Hf & _).
  exists w1. split; [exact Hrun|]. split; [|split; [exact Hi|exact Hf]].
  rewrite Hs in Hb |- *. simpl in Hb. injection Hb as ->. reflexivity.
Defined.

(** ** The record that add-expense stores *)

(** X13: the expense that the add-expense handler appends has all four
    keys: an amount that is not below zero, a category that is not empty
    and has nothing to trim, a date written [YYYY-MM-DD] that [strptime]
    reads, and a trimmed comment.  It is found again by the filters under
    its own date and category. *)
Theorem add_expense_record (w w' : world) :
  cmd_add_expense w = (Ok tt, w') ->
  exists (a : float) (c d m : string),
    let e := {| amount := Some a; category := Some c; date := Some d; comment := Some m |} in
    expenses (state w') = expenses (state w) ++ [e]
    /\ (a <? 0)%float = false
    /\ c <> "" /\ Str.strip c = c
    /\ PyDate.iso_string d /\ is_Some (PyDate.strptime d)
    /\ Str.strip m = m
    /\ filter_by_date [e] d = [e]
    /\ filter_by_category [e] c = [e].
Proof.
  unfold cmd_add_expense. intros H.
  unfold bind at 1 in H.
  destruct (parse_float _ w) as [[a|x] w1] eqn:H1; [|discriminate H].
  pose proof (parse_float_value _ _ _ _ H1) as Ha.
  apply parse_float_console_only in H1.
  unfold bind at 1 in H.
  destruct (input _ w1) as [[line|x] w2] eqn:H2; [|discriminate H].
  apply input_console_only in H2.
  cbv zeta in H. unfold bind at 1 in H.
  destruct (parse_date _ w2) as [[d|x] w3] eqn:H3; [|discriminate H].
  destruct (parse_date_value _ _ _ _ H3) as (dt & Hv & ->).
  apply parse_date_console_only in H3.
  unfold bind at 1 in H.
  destruct (input _ w3) as [[line'|x] w4] eqn:H4; [|discriminate H].
  apply input_console_only in H4.
  pose proof (console_only_trans _ _ _ (console_only_trans _ _ _ H1 H2)
                (console_only_trans _ _ _ H3 H4)) as (Hs & _).
  clear H1 H2 H3 H4.
  cbv zeta in H. unfold bind at 1 in H. unfold get_state at 1 in H.
  unfold bind at 1 in H. unfold put_state at 1 in H.
  unfold bind at 1 in H. unfold save at 1, save_state in H. simpl writable in H.
  destruct (writable w4); [|discriminate H].
  unfold bind at 1 in H. unfold print at 1 in H.
  unfold bind at 1 in H. unfold get_state at 1 in H.
  cbv zeta in H. rewrite budget_check_report in H.
  injection H as <-. simpl. rewrite Hs.
  exists a, (normalize_category line), (PyDate.isoformat dt), (Str.strip line').
  cbv zeta.
  split; [reflexivity|]. split; [exact Ha|].
  split; [apply normalize_category_nonempty|]. split; [apply normalize_category_trimmed|].
  split; [exists dt; split; [exact Hv|reflexivity]|].
  split; [rewrite (strptime_isoformat dt Hv); eauto|].
  split; [apply strip_idem|].
  split.
  - unfold filter_by_date, List.filter, str_get, get. cbn [date].
    rewrite String.eqb_refl. reflexivity.
  - unfold filter_by_category, List.filter, get. cbn [category].
    rewrite String.eqb_refl. reflexivity.
Qed.

(** A blank category, a date with one-digit month and day, a comment
    with spaces around it. *)
Lemma add_expense_record_witness :
  let w0 := {| state := {| budget := Some 50%float; expenses := [] |};
               stdin := ["12,5"; "   "; "2026-1-5"; "  tea  "];
               stdout := []; file := NoFile; writable := true |} in
  exists w1, cmd_add_expense w0 = (Ok tt, w1)
             /\ expenses (state w1)
                = [{| amount := Some 12.5%float; category := Some sentinel;
                      date := Some "2026-01-05"; comment := Some "tea" |}]
             /\ exists e, expenses (state w1) = [e] /\ filter_by_date [e] "2026-01-05" = [e].
Proof.
  intros w0.
  assert (Hrun : exists w1, cmd_add_expense w0 = (Ok tt, w1)
                            /\ expenses (state w1)
                               = [{| amount := Some 12.5%float; category := Some sentinel;
                                     date := Some "2026-01-05"; comment := Some "tea" |}]).
  { eexists. split; vm_compute; reflexivity. }
  destruct Hrun as (w1 & Hrun & He).
  destruct (add_expense_record w0 w1 Hrun) as (a & c & d & m & Hx & _ & _ & _ & _ & _ & _ & Hd & _).
  exists w1. split; [exact Hrun|]. split; [exact He|].
  simpl in Hx. rewrite He in Hx. injection Hx as <- <- <- <-.
  eexists. split; [exact He|exact Hd].
Defined.

(** ** What a command may change *)

(** X14: only the set-budget and the add-expense commands change the ledger
    or the data file: whatever else is typed, and however the handler
    ends, the ledger in memory and the file are as before. *)
Theorem queries_change_nothing (typed : string) (w w' : world) (r : result bool) :
  handle_command typed w = (r, w') ->
  selects typed <> Some SetBudget -> selects typed <> Some AddExpense ->
  state w' = state w /\ file w' = file w /\ writable w' = writable w.
Proof.
  rewrite handle_command_run. intros H Hb Ha.
  destruct (read_only_run (selects typed) Hb Ha _ _ _ H) as [(Hs & Hf & Hw & _) _].
  repeat split; assumption.
Qed.

(** The balance command on a ledger that is over budget. *)
Lemma queries_change_nothing_witness :
  let w0 := {| state := {| budget := Some 50%float; expenses := [spent "Food" 80%float] |};
               stdin := []; stdout := []; file := NotJson; writable := true |} in
  exists r w1, handle_command " Залишок " w0 = (r, w1)
               /\ state w1 = state w0 /\ file w1 = NotJson.
Proof.
  intros w0. destruct (handle_command " Залишок " w0) as [r w1] eqn:E.
  exists r, w1. split; [reflexivity|].
  destruct (queries_change_nothing " Залишок " w0 w1 r E) as (Hs & Hf & _).
  - vm_compute. discriminate.
  - vm_compute. discriminate.
  - split; [exact Hs|exact Hf].
Defined.

(** X15: every command, however it ends, reads the input forward and adds
    to the output, leaves the expenses it found at the head of the list
    in their order, keeps a [budget] key that is there, and, with a
    writable file, either leaves ledger and file as they were or has the
    file hold the ledger in memory. *)
Theorem command_keeps_ledger (typed : string) (w w' : world) (r : result bool) :
  handle_command typed w = (r, w') ->
  stdin w' `suffix_of` stdin w
  /\ stdout w `prefix_of` stdout w'
  /\ expenses (state w) `prefix_of` expenses (state w')
  /\ (is_Some (budget (state w)) -> is_Some (budget (state w')))
  /\ (writable w = true ->
      (state w' = state w /\ file w' = file w)
      \/ file w' = Document (json_of_ledger (state w'))).
Proof.
  intros H. destruct (session_handle_command _ _ _ _ H) as (Hi & Ho & _ & He & Hb & Hp).
  repeat split; assumption.
Qed.

(** Adding an expense with the input ending before the comment. *)
Lemma command_keeps_ledger_witness :
  let w0 := {| state := {| budget := Some 50%float; expenses := [spent "Food" 80%float] |};
               stdin := ["5"; "Bus"; "2026-01-10"]; stdout := []; file := NoFile;
               writable := true |} in
  exists r w1, handle_command "додати витрату" w0 = (r, w1)
               /\ r = Raise EOFError
               /\ expenses (state w0) `prefix_of` expenses (state w1).
Proof.
  intros w0. destruct (handle_command "додати витрату" w0) as [r w1] eqn:E.
  exists r, w1. split; [reflexivity|].
  destruct (command_keeps_ledger _ w0 w1 r E) as (_ & _ & He & _).
  split; [|exact He].
  assert (E' : fst (handle_command "додати витрату" w0) = Raise EOFError)
    by (vm_compute; reflexivity).
  rewrite E in E'. exact E'.
Defined.

Lemma parse_date_raises (prompt : string) (w w' : world) (e : exn) :
  parse_date prompt w = (Raise e, w') -> e = EOFError /\ stdin w' = [].
Proof.
  unfold parse_date.
  destruct (parse_date_loop prompt (stdin w) (stdout w)) as [[r ins] out] eqn:E.
  intros H. injection H as -> <-. simpl.
  exact (parse_date_loop_end _ _ _ _ _ _ E).
Qed.

(** X16: the period handler never fails on its bounds.  When it returns,
    its two bounds are what [parse_date] returned for the first and then
    for the second prompt, [filter_by_period] returned normally for them
    on the expenses in memory, and after what the second [parse_date]
    printed comes the table of the expenses it kept, and nothing else.
    Otherwise the handler raises [EOFError] with the input used up.  The
    ledger and the file are left as they were. *)
Theorem expenses_by_period_reads_its_bounds (w w' : world) (r : result unit) :
  cmd_expenses_by_period w = (r, w') ->
  ((r = Ok tt
    /\ exists (start end_ : string) (w1 w2 : world) (kept : list expense),
         parse_date "Початкова дата (YYYY-MM-DD): " w = (Ok start, w1)
         /\ parse_date "Кінцева дата (YYYY-MM-DD): " w1 = (Ok end_, w2)
         /\ filter_by_period (expenses (state w)) start end_ = Ok kept
         /\ stdin w' = stdin w2
         /\ stdout w' = stdout w2 ++ expense_table kept)
   \/ (r = Raise EOFError /\ stdin w' = []))
  /\ state w' = state w /\ file w' = file w.
Proof.
  intros H. split.
  - revert H. unfold cmd_expenses_by_period.
    unfold bind at 1.
    destruct (parse_date _ w) as [[start|e] w1] eqn:E1;
      [|intros H; injection H as <- <-; right;
        destruct (parse_date_raises _ _ _ _ E1) as [-> ->]; split; reflexivity].
    unfold bind at 1.
    destruct (parse_date _ w1) as [[end_|e] w2] eqn:E2;
      [|intros H; injection H as <- <-; right;
        destruct (parse_date_raises _ _ _ _ E2) as [-> ->]; split; reflexivity].
    unfold bind at 1, get_state at 1.
    destruct (filter_by_period_of_parsed (expenses (state w2)) start end_
                (parse_date_value _ _ _ _ E1) (parse_date_value _ _ _ _ E2)) as [kept Hk].
    rewrite Hk, print_expenses_prints. intros H. injection H as <- <-.
    left. split; [reflexivity|]. exists start, end_, w1, w2, kept.
    split; [reflexivity|]. split; [exact E2|]. split; [|split; reflexivity].
    destruct (parse_date_console_only _ _ _ _ E1) as (S1 & _).
    destruct (parse_date_console_only _ _ _ _ E2) as (S2 & _).
    rewrite <- S1, <- S2. exact Hk.
  - destruct (read_only_cmd_expenses_by_period _ _ _ H) as [(Hs & Hf & _) _].
    split; assumption.
Qed.

(** Bounds typed latest first, with one-digit days, and a file that
    cannot be written. *)
Lemma expenses_by_period_reads_its_bounds_witness :
  let a := {| amount := Some 30%float; category := Some "Food";
              date := Some "2026-01-10"; comment := Some "" |} in
  let b := {| amount := Some 5%float; category := Some "Bus";
              date := Some "2026-02-10"; comment := Some "" |} in
  let w0 := {| state := {| budget := Some 50%float; expenses := [a; b] |};
               stdin := ["2026-1-31"; "2026-1-1"]; stdout := []; file := NoFile;
               writable := false |} in
  exists w1, cmd_expenses_by_period w0 = (Ok tt, w1)
             /\ stdout w1 = [Prompt "Початкова дата (YYYY-MM-DD): ";
                             Prompt "Кінцева дата (YYYY-MM-DD): "] ++ expense_table [a]
             /\ state w1 = state w0.
Proof.
  intros a b w0.
  assert (Hrun : exists w1, cmd_expenses_by_period w0 = (Ok tt, w1)
                            /\ stdout w1 = [Prompt "Початкова дата (YYYY-MM-DD): ";
                                            Prompt "Кінцева дата (YYYY-MM-DD): "]
                                           ++ expense_table [a]).
  { eexists. split; vm_compute; reflexivity. }
  destruct Hrun as (w1 & Hrun & Ht).
  destruct (expenses_by_period_reads_its_bounds w0 w1 (Ok tt) Hrun) as (_ & Hs & _).
  exists w1. repeat split; assumption.
Defined.

(** ** Listing by category *)

(** X17: the by-category handler reads one line.  If nothing is left of it
    after trimming, it prints the refusal and lists nothing; otherwise it
    prints the table of the expenses that [filter_by_category] selects
    for the line as typed.  At the end of the input it raises
    [EOFError]. *)
Theorem expenses_by_category_lists (w : world) :
  (forall line rest,
     stdin w = line :: rest ->
     cmd_expenses_by_category w
     = (Ok tt,
        set_console rest
          (stdout w ++ Prompt "Введи категорію: "
             :: (if String.eqb (Str.strip line) ""
                 then [Line "❌ Категорія не може бути порожньою."]
                 else expense_table (filter_by_category (expenses (state w)) line))) w))
  /\ (stdin w = [] ->
      cmd_expenses_by_category w
      = (Raise EOFError, set_console [] (stdout w ++ [Prompt "Введи категорію: "]) w)).
Proof.
  split.
  - intros line rest Hin. unfold cmd_expenses_by_category.
    unfold bind at 1, input at 1. rewrite Hin. cbv zeta.
    destruct (String.eqb (Str.strip line) "").
    + unfold print, set_console. simpl. rewrite <- List.app_assoc. reflexivity.
    + unfold bind at 1, get_state at 1. rewrite print_expenses_prints.
      unfold filter_by_category. rewrite strip_idem.
      unfold set_console. simpl. rewrite <- List.app_assoc. reflexivity.
  - intros Hin. unfold cmd_expenses_by_category. unfold bind at 1, input at 1.
    rewrite Hin. reflexivity.
Qed.

(** ** The balance handler *)

(** X18: the balance handler prints the budget (0 when the key is missing),
    the total of the expenses and their difference, and after them the
    warning, carrying the total less the budget, exactly when the budget
    is positive and the total is above it; it changes nothing else. *)
Theorem balance_report (w : world) :
  cmd_balance w
  = (Ok tt, set_console (stdin w)
              (stdout w ++ balance_lines (get (budget (state w)) 0%float)
                             (total_expenses (expenses (state w)))) w).
Proof.
  unfold cmd_balance, balance_lines. unfold bind at 1, get_state at 1. cbv zeta.
  rewrite Binary64.sub_below_zero.
  unfold bind, print. simpl.
  destruct (0 <? get (budget (state w)) 0)%float; simpl.
  - destruct (get (budget (state w)) 0 <? total_expenses (expenses (state w)))%float eqn:Hlt.
    + rewrite Binary64.abs_negative_difference
        by (rewrite Binary64.sub_below_zero; exact Hlt).
      unfold set_console. simpl. rewrite <- !List.app_assoc. reflexivity.
    + unfold ret, set_console. simpl. rewrite <- !List.app_assoc. reflexivity.
  - unfold ret, set_console. simpl. rewrite <- !List.app_assoc. reflexivity.
Qed.

(** ** The report handler *)

Lemma string_compare_trans (a b c : string) :
  String.compare a b <> Gt -> String.compare b c <> Gt -> String.compare a c <> Gt.
Proof.
  revert b c. induction a as [|x a IH]; intros [|y b] [|z c]; simpl; try congruence.
  unfold Ascii.compare.
  destruct (N.compare_spec (N_of_ascii x) (N_of_ascii y)) as [Exy|Lxy|Gxy];
    destruct (N.compare_spec (N_of_ascii y) (N_of_ascii z)) as [Eyz|Lyz|Gyz];
    destruct (N.compare_spec (N_of_ascii x) (N_of_ascii z)) as [Exz|Lxz|Gxz];
    try lia; try congruence.
  apply IH.
Qed.

Lemma label_le_compare (x y : string * float) :
  label_le x y <-> String.compare (Str.lower (fst x)) (Str.lower (fst y)) <> Gt.
Proof.
  unfold label_le, String.ltb. rewrite (String.compare_antisym (Str.lower (fst x))).
  destruct (String.compare (Str.lower (fst y)) (Str.lower (fst x))); simpl;
    split; congruence.
Qed.

Lemma label_le_trans (x y z : string * float) : label_le x y -> label_le y z -> label_le x z.
Proof. rewrite !label_le_compare. apply string_compare_trans. Qed.

Lemma label_lt_le (x y : string * float) :
  String.ltb (Str.lower (fst x)) (Str.lower (fst y)) = true -> label_le x y.
Proof.
  rewrite label_le_compare. unfold String.ltb.
  destruct (String.compare _ _); congruence.
Qed.

Lemma insert_sorted_HdRel (x y : string * float) (l : list (string * float)) :
  label_le y x -> HdRel label_le y l -> HdRel label_le y (insert_sorted x l).
Proof.
  intros Hyx H. destruct l as [|z r]; simpl; [constructor; exact Hyx|].
  destruct (String.ltb _ _); constructor; [exact Hyx|].
  inversion H; assumption.
Qed.

Lemma insert_sorted_Sorted (x : string * float) (l : list (string * float)) :
  Sorted label_le l -> Sorted label_le (insert_sorted x l).
Proof.
  induction 1 as [|y r Hs IH Hd]; simpl; [repeat constructor|].
  destruct (String.ltb (Str.lower (fst x)) (Str.lower (fst y))) eqn:Hlt.
  - constructor; [constructor; assumption|]. constructor. apply label_lt_le, Hlt.
  - constructor; [exact IH|]. apply insert_sorted_HdRel; [exact Hlt|exact Hd].
Qed.

Lemma insert_sorted_Permutation (x : string * float) (l : list (string * float)) :
  Permutation (insert_sorted x l) (x :: l).
Proof.
  induction l as [|y r IH]; simpl; [reflexivity|].
  destruct (String.ltb _ _); [reflexivity|].
  rewrite IH. apply perm_swap.
Qed.

Lemma sorted_fold (rep acc : list (string * float)) :
  Sorted label_le acc ->
  Sorted label_le (fold_left (fun a x => insert_sorted x a) rep acc)
  /\ Permutation (fold_left (fun a x => insert_sorted x a) rep acc) (rep ++ acc).
Proof.
  revert acc. induction rep as [|x r IH]; intros acc Hs; simpl; [split; [exact Hs|reflexivity]|].
  destruct (IH (insert_sorted x acc) (insert_sorted_Sorted x acc Hs)) as [H1 H2].
  split; [exact H1|]. rewrite H2, insert_sorted_Permutation.
  symmetry. apply Permutation_middle.
Qed.

Lemma print_report_rows_prints (rows : list (string * float)) (total : float) (w : world) :
  print_report_rows rows total w
  = (Ok (fold_left PrimFloat.add (List.map snd rows) total),
     set_console (stdin w) (stdout w ++ List.map report_row rows) w).
Proof.
  revert total w. induction rows as [|[cat a] r IH]; intros total w.
  - simpl. unfold ret, set_console. rewrite List.app_nil_r. destruct w; reflexivity.
  - cbn [print_report_rows]. unfold bind at 1, print at 1. rewrite IH.
    unfold set_console, report_row. simpl. rewrite <- List.app_assoc. reflexivity.
Qed.

Lemma dict_set_nonempty (d : list (string * float)) (k : string) (v : float) :
  dict_set d k v <> [].
Proof. destruct d as [|[k' v'] r]; simpl; [|destruct (String.eqb k' k)]; discriminate. Qed.

Lemma report_fold_nonempty (exps : list expense) (acc : list (string * float)) :
  acc <> [] -> fold_left report_step exps acc <> [].
Proof.
  revert acc. induction exps as [|e r IH]; intros acc H; simpl; [exact H|].
  apply IH. apply dict_set_nonempty.
Qed.

Lemma report_nonempty (exps : list expense) :
  exps <> [] -> report_by_categories exps <> [].
Proof.
  intros H. destruct exps as [|e r]; [contradiction|].
  unfold report_by_categories. simpl.
  apply report_fold_nonempty, dict_set_nonempty.
Qed.

Lemma report_prints (w : world) :
  expenses (state w) <> [] ->
  cmd_report_categories w
  = (Ok tt, set_console (stdin w)
              (stdout w
               ++ [Line (String.append newline "📊 Звіт за категоріями:"); Line (rule 40)]
               ++ List.map report_row (sorted_items (report_by_categories (expenses (state w))))
               ++ [Line (rule 40);
                   LineF "Разом                  "
                     (PyFloat.sum (List.map snd
                        (sorted_items (report_by_categories (expenses (state w)))))) newline])
              w).
Proof.
  intros H. apply report_nonempty in H.
  unfold cmd_report_categories. unfold bind at 1, get_state at 1. cbv zeta.
  destruct (report_by_categories (expenses (state w))) as [|x rep]; [contradiction|].
  unfold bind at 1, print at 1. unfold bind at 1, print at 1.
  unfold bind at 1. rewrite print_report_rows_prints.
  unfold bind, print, set_console, PyFloat.sum. simpl.
  rewrite <- !List.app_assoc. reflexivity.
Qed.

(** X19: with no expense the report handler prints one line.  Otherwise it
    prints a heading, one row per label of the report, and the grand
    total: the rows are the entries of [report_by_categories], each once,
    in the order of their labels in lower case, and the grand total is
    the sum of the rows taken in that order. *)
Theorem report_rows_sorted (w : world) :
  (expenses (state w) = [] ->
   cmd_report_categories w
   = (Ok tt, set_console (stdin w) (stdout w ++ [Line "ℹ️ Немає витрат для звіту."]) w))
  /\ (expenses (state w) <> [] ->
      exists rows,
        cmd_report_categories w
        = (Ok tt, set_console (stdin w)
                    (stdout w
                     ++ [Line (String.append newline "📊 Звіт за категоріями:"); Line (rule 40)]
                     ++ List.map report_row rows
                     ++ [Line (rule 40);
                         LineF "Разом                  " (PyFloat.sum (List.map snd rows)) newline])
                    w)
        /\ Permutation rows (report_by_categories (expenses (state w)))
        /\ StronglySorted label_le rows).
Proof.
  split.
  - intros H. unfold cmd_report_categories. unfold bind at 1, get_state at 1. cbv zeta.
    rewrite H. reflexivity.
  - intros H. exists (sorted_items (report_by_categories (expenses (state w)))).
    destruct (sorted_fold (report_by_categories (expenses (state w))) [] (Sorted_nil _))
      as [Hs Hp].
    split; [|split].
    + apply report_prints, H.
    + unfold sorted_items. rewrite List.app_nil_r in Hp. exact Hp.
    + apply Sorted_StronglySorted; [|exact Hs].
      intros x y z. apply label_le_trans.
Qed.

(** Four labels typed with mixed letter case: [Banana] and [banana] stay
    two rows, in the order in which they were first seen, between [apple]
    and [cherry]. *)
Lemma report_rows_sorted_witness :
  let w0 := {| state := {| budget := None;
                           expenses := [spent "cherry" 1%float; spent "Banana" 2%float;
                                        spent "apple" 3%float; spent "banana" 4%float;
                                        spent "Banana" 5%float] |};
               stdin := []; stdout := []; file := NoFile; writable := true |} in
  stdout (snd (cmd_report_categories w0))
  = [Line (String.append newline "📊 Звіт за категоріями:"); Line (rule 40);
     ReportRow "apple" 3%float; ReportRow "Banana" 7%float; ReportRow "banana" 4%float;
     ReportRow "cherry" 1%float;
     Line (rule 40); LineF "Разом                  " 15%float newline]
  /\ exists rows,
       Permutation rows (report_by_categories (expenses (state w0)))
       /\ StronglySorted label_le rows.
Proof.
  intros w0. split; [vm_compute; reflexivity|].
  destruct (proj2 (report_rows_sorted w0)) as (rows & _ & Hp & Hs); [discriminate|].
  exists rows. split; assumption.
Defined.

(** ** What [load_state] returns *)

Lemma load_state_keys (f : disk_file) (doc : json) :
  load_state f = Ok doc ->
  exists d es, doc = JDict d /\ is_Some (d !! "budget") /\ d !! "expenses" = Some (JList es).
Proof.
  assert (Hdef : exists d es, default_state = JDict d /\ is_Some (d !! "budget")
                              /\ d !! "expenses" = Some (JList es)).
  { eexists _, []. split; [reflexivity|]. split; [|reflexivity].
    exists (JFloat 0). reflexivity. }
  destruct f as [| | | |v]; try (intros H; injection H as <-; exact Hdef); try discriminate.
  destruct v as [|b|z|x|s|l|d]; try discriminate.
  - unfold load_state, py_not_in, py_getitem, rbind.
    destruct (negb (Str.contains "budget" s)); [intros H; injection H as <-; exact Hdef|].
    destruct (negb (Str.contains "expenses" s)); [intros H; injection H as <-; exact Hdef|].
    discriminate.
  - unfold load_state, py_not_in, py_getitem, rbind.
    destruct (negb (existsb _ l)); [intros H; injection H as <-; exact Hdef|].
    destruct (negb (existsb _ l)); [intros H; injection H as <-; exact Hdef|].
    discriminate.
  - rewrite load_state_dict.
    destruct (d !! "budget") as [b|] eqn:Hb; [|intros H; injection H as <-; exact Hdef].
    destruct (d !! "expenses") as [[| | | | |es|]|] eqn:He;
      try (intros H; injection H as <-; exact Hdef).
    intros H. injection H as <-. exists d, es. split; [reflexivity|]. split; [eauto|exact He].
Qed.

(** X20: whatever the file is, a document that [load_state] returns is a
    dict with a [budget] key and a list under [expenses], so its callers
    can take [state["expenses"]] and iterate over it; and loading a file
    that holds such a document returns the document itself. *)
Theorem load_state_shape (f : disk_file) (doc : json) :
  load_state f = Ok doc ->
  (exists d es, doc = JDict d /\ is_Some (d !! "budget") /\ d !! "expenses" = Some (JList es))
  /\ load_state (Document doc) = Ok doc.
Proof.
  intros H. pose proof (load_state_keys f doc H) as Hk. split; [exact Hk|].
  destruct Hk as (d & es & -> & [b Hb] & He).
  rewrite load_state_dict, Hb, He. reflexivity.
Qed.

(** A document whose budget is a text is returned as it is. *)
Lemma load_state_shape_witness :
  let doc := JDict (<["expenses" := JList []]> (<["budget" := JStr "much"]> ∅)) in
  load_state (Document doc) = Ok doc
  /\ exists d es, doc = JDict d /\ is_Some (d !! "budget") /\ d !! "expenses" = Some (JList es).
Proof.
  intros doc.
  assert (E : load_state (Document doc) = Ok doc) by (vm_compute; reflexivity).
  split; [exact E|]. exact (proj1 (load_state_shape (Document doc) doc E)).
Defined.

(** ** Starting again *)

Lemma loaded_has_budget (f : disk_file) (doc : json) (s : ledger) :
  load_state f = Ok doc -> ledger_of_json doc = Some s -> is_Some (budget s).
Proof.
  intros Hl Hd. destruct (load_state_keys f doc Hl) as (d & es & -> & [b Hb] & He).
  unfold ledger_of_json in Hd. rewrite Hb, He in Hd.
  destruct (only_keys _ d); [|discriminate Hd].
  destruct b; try discriminate Hd. simpl in Hd.
  destruct (expenses_of_json es); [|discriminate Hd].
  injection Hd as <-. simpl. eauto.
Qed.

Lemma load_state_of_ledger (s : ledger) :
  is_Some (budget s) -> load_state (Document (json_of_ledger s)) = Ok (json_of_ledger s).
Proof. intros [b Hb]. destruct s as [sb es]. simpl in Hb. subst sb. apply load_state_ledger. Qed.

(** X21: with a writable data file, what [main] leaves on the disk is what
    it has in memory: however the run ends, [load_state] on the file as
    it is then returns the document of the final ledger, so the next run
    starts from it. *)
Theorem restart_resumes (w w' : world) (doc : json) (s0 : ledger) (r : result unit) :
  load_state (file w) = Ok doc -> ledger_of_json doc = Some s0 ->
  writable w = true ->
  main w = Some (r, w') ->
  load_state (file w') = Ok (json_of_ledger (state w'))
  /\ ledger_of_json (json_of_ledger (state w')) = Some (state w').
Proof.
  intros Hl Hd Hw. rewrite (main_loaded w doc s0 Hl Hd). intros H.
  split; [|apply ledger_of_json_of_ledger].
  destruct (main_loop_session _ _ _ _ H) as (_ & _ & _ & _ & Hb & Hp).
  simpl in Hb, Hp. specialize (Hb (loaded_has_budget _ _ _ Hl Hd)).
  destruct (Hp Hw) as [[Hs Hf]|Hf].
  - rewrite Hf, Hs, <- (ledger_of_json_exact doc s0 Hd). exact Hl.
  - rewrite Hf. apply load_state_of_ledger, Hb.
Qed.

(** A first run without a data file: a budget, one expense, exit. *)
Lemma restart_resumes_witness :
  let w0 := {| state := {| budget := None; expenses := [] |};
               stdin := ["встановити бюджет"; "100"; "додати витрату"; "30"; "Food";
                         "2026-01-10"; ""; "вийти"];
               stdout := []; file := NoFile; writable := true |} in
  exists w1, main w0 = Some (Ok tt, w1)
             /\ state w1 = {| budget := Some 100%float;
                              expenses := [{| amount := Some 30%float;
                                              category := Some "Food";
                                              date := Some "2026-01-10";
                                              comment := Some "" |}] |}
             /\ load_state (file w1) = Ok (json_of_ledger (state w1)).
Proof.
  intros w0.
  assert (Hrun : exists w1, main w0 = Some (Ok tt, w1)
                   /\ state w1 = {| budget := Some 100%float;
                                    expenses := [{| amount := Some 30%float;
                                                    category := Some "Food";
                                                    date := Some "2026-01-10";
                                                    comment := Some "" |}] |}).
  { eexists. split; vm_compute; reflexivity. }
  destruct Hrun as (w1 & Hrun & Hs).
  destruct (restart_resumes w0 w1 default_state {| budget := Some 0%float; expenses := [] |}
              (Ok tt) eq_refl eq_refl eq_refl Hrun) as (Hl & _).
  exists w1. repeat split; assumption.
Defined.

(** ** Totals that are not negative *)

Lemma SFadd_not_negative (x y : spec_float) :
  valid_binary x = true -> valid_binary y = true ->
  SFleb (S754_zero false) x = true -> SFleb (S754_zero false) y = true ->
  SFleb (S754_zero false) (SF64add x y) = true.
Proof.
  destruct x as [sx|sx| |sx mx ex], y as [sy|sy| |sy my ey]; simpl valid_binary;
    intros Hx Hy;
    try solve [repeat match goal with s : bool |- _ => destruct s end;
               simpl; (discriminate || reflexivity)].
  destruct sx, sy; try (simpl; discriminate). intros _ _.
  unfold SF64add, SFadd. unfold cond_Zopp.
  set (a := fst (shl_align mx ex (Z.min ex ey))).
  set (b := fst (shl_align my ey (Z.min ex ey))).
  change (Zpos a + Zpos b) with (Zpos (a + b)). simpl binary_normalize.
  destruct (Binary64.binary_round_nonzero false (a + b) (Z.min ex ey)
              (Binary64.min_exponent_bound mx my ex ey Hx Hy))
    as [(m' & e' & ->)| ->]; reflexivity.
Qed.

Lemma add_not_negative (x y : float) :
  (0 <=? x)%float = true -> (0 <=? y)%float = true -> (0 <=? x + y)%float = true.
Proof.
  rewrite !leb_spec, add_spec, Binary64.zero_spec.
  apply SFadd_not_negative; apply Prim2SF_valid.
Qed.

Lemma sum_not_negative (xs : list float) (acc : float) :
  (0 <=? acc)%float = true -> Forall (fun x => (0 <=? x)%float = true) xs ->
  (0 <=? fold_left PrimFloat.add xs acc)%float = true.
Proof.
  intros Ha H. revert acc Ha. induction H as [|x r Hx _ IH]; intros acc Ha; simpl; [exact Ha|].
  apply IH, add_not_negative; assumption.
Qed.

(** X22: if no amount of the list is below zero or a NaN (an expense
    without an amount counts as 0), then neither is the total, the
    left-to-right sum of the amounts: a rounded addition of two such
    numbers is such a number again. *)
Theorem total_expenses_not_negative (exps : list expense) :
  Forall (fun e => (0 <=? get (amount e) 0)%float = true) exps ->
  (0 <=? total_expenses exps)%float = true.
Proof.
  intros H. unfold total_expenses, PyFloat.sum. apply sum_not_negative; [reflexivity|].
  apply List.Forall_map. exact H.
Qed.

(** Two amounts and an expense without one. *)
Lemma total_expenses_not_negative_witness :
  let exps := [spent "Food" 0.1%float; spent "Bus" 0.2%float;
               {| amount := None; category := None; date := None; comment := None |}] in
  (0 <=? total_expenses exps)%float = true.
Proof.
  intros exps.
  refine (total_expenses_not_negative exps _).
  repeat constructor.
Defined.

(** ** The grand total of the report *)

Lemma dict_step_whole (acc : list (string * float)) (zs : list Z) (cat : string) (k : Z) :
  List.map snd acc = List.map PyFloat.of_Z zs ->
  sum_abs zs + Z.abs k <= 2 ^ 53 ->
  exists zs',
    List.map snd (dict_set acc cat (dict_get acc cat 0 + PyFloat.of_Z k)%float)
    = List.map PyFloat.of_Z zs'
    /\ sum_Z zs' = sum_Z zs + k
    /\ sum_abs zs' <= sum_abs zs + Z.abs k.
Proof.
  revert zs. induction acc as [|[k' v] r IH]; intros zs Hm Hb.
  - destruct zs; [|discriminate Hm]. exists [k]. simpl.
    change 0%float with (PyFloat.of_Z 0).
    rewrite Whole.add_whole by (simpl in Hb; simpl; lia).
    repeat split; simpl; lia.
  - destruct zs as [|z zr]; [discriminate Hm|]. simpl in Hm. injection Hm as Hv Hr.
    simpl in Hb. pose proof (sum_abs_nonneg zr) as Hn. simpl.
    destruct (String.eqb k' cat).
    + exists ((z + k) :: zr). simpl. rewrite Hv, Hr.
      rewrite Whole.add_whole by lia. repeat split; lia.
    + destruct (IH zr Hr) as (zs' & Hm' & Hs' & Ha'); [lia|].
      exists (z :: zs'). simpl. rewrite Hv, Hm'. repeat split; lia.
Qed.

Lemma report_fold_whole (exps : list expense) (ks : list Z) (acc : list (string * float))
    (zs : list Z) :
  whole_amounts exps ks ->
  List.map snd acc = List.map PyFloat.of_Z zs ->
  sum_abs zs + sum_abs ks <= 2 ^ 53 ->
  exists zs',
    List.map snd (fold_left report_step exps acc) = List.map PyFloat.of_Z zs'
    /\ sum_Z zs' = sum_Z zs + sum_Z ks
    /\ sum_abs zs' <= sum_abs zs + sum_abs ks.
Proof.
  revert ks acc zs. induction exps as [|e r IH]; intros ks acc zs Hw Hm Hb.
  - destruct ks; [|discriminate Hw]. exists zs. simpl. repeat split; [exact Hm|lia|lia].
  - destruct ks as [|k kr]; [discriminate Hw|]. unfold whole_amounts in Hw. simpl in Hw.
    injection Hw as Hk Hw. simpl in Hb. pose proof (sum_abs_nonneg kr) as Hn.
    simpl fold_left. unfold report_step at 2. cbv zeta. rewrite Hk.
    destruct (dict_step_whole acc zs (Str.strip (get (category e) sentinel)) k Hm)
      as (zs1 & Hm1 & Hs1 & Ha1); [lia|].
    destruct (IH kr _ zs1 Hw Hm1) as (zs' & Hm' & Hs' & Ha'); [lia|].
    exists zs'. simpl. repeat split; [exact Hm'|lia|lia].
Qed.

Lemma report_sum_whole (exps : list expense) (ks : list Z) :
  whole_amounts exps ks -> sum_abs ks <= 2 ^ 53 ->
  PyFloat.sum (List.map snd (sorted_items (report_by_categories exps)))
  = PyFloat.of_Z (sum_Z ks).
Proof.
  intros Hw Hb.
  destruct (report_fold_whole exps ks [] [] Hw eq_refl) as (zs & Hm & Hs & Ha).
  { change (sum_abs []) with 0. lia. }
  change (sum_Z []) with 0 in Hs. change (sum_abs []) with 0 in Ha.
  destruct (sorted_fold (report_by_categories exps) [] (Sorted_nil _)) as [_ Hp].
  rewrite List.app_nil_r in Hp.
  apply (Permutation_map snd) in Hp.
  unfold report_by_categories in Hp at 2. rewrite Hm in Hp.
  apply Permutation_map_inv in Hp. destruct Hp as (zs' & Hm' & Hperm).
  unfold sorted_items. rewrite Hm'. unfold PyFloat.sum.
  pose proof (sum_whole zs' 0) as Hx. change (PyFloat.of_Z 0) with 0%float in Hx.
  rewrite <- (sum_abs_perm zs zs' Hperm), <- (sum_Z_perm zs zs' Hperm) in Hx.
  rewrite Hx by (change (Z.abs 0) with 0; lia).
  f_equal. lia.
Qed.

(** X23: when the amounts are whole numbers whose magnitudes add up to at
    most [2^53], the grand total that the report handler prints last is
    the total of all the expenses, as the balance handler shows it: the
    sums by label and their sum in the order of the rows are exact. *)
Theorem report_total_whole (w : world) (ks : list Z) :
  expenses (state w) <> [] ->
  whole_amounts (expenses (state w)) ks -> sum_abs ks <= 2 ^ 53 ->
  exists printed,
    cmd_report_categories w
    = (Ok tt, set_console (stdin w)
                (stdout w ++ printed
                 ++ [LineF "Разом                  " (total_expenses (expenses (state w)))
                       newline]) w)
    /\ total_expenses (expenses (state w)) = PyFloat.of_Z (sum_Z ks).
Proof.
  intros Hne Hw Hb.
  exists ([Line (String.append newline "📊 Звіт за категоріями:"); Line (rule 40)]
          ++ List.map report_row (sorted_items (report_by_categories (expenses (state w))))
          ++ [Line (rule 40)]).
  split; [|exact (total_whole _ ks Hw Hb)].
  rewrite (report_prints w Hne), (report_sum_whole _ ks Hw Hb), (total_whole _ ks Hw Hb).
  rewrite <- !List.app_assoc. reflexivity.
Qed.

(** Three labels, amounts 30, 12, 8 and 50: the report ends with 100. *)
Lemma report_total_whole_witness :
  let w0 := {| state := {| budget := Some 50%float;
                           expenses := [spent "Food" 30%float; spent "Bus" 12%float;
                                        spent "food" 8%float; spent "Food" 50%float] |};
               stdin := []; stdout := []; file := NoFile; writable := true |} in
  exists printed,
    cmd_report_categories w0
    = (Ok tt, set_console [] (printed ++ [LineF "Разом                  " 100%float newline]) w0).
Proof.
  intros w0.
  destruct (report_total_whole w0 [30; 12; 8; 50]) as (printed & Hrun & Htotal).
  - discriminate.
  - vm_compute. reflexivity.
  - vm_compute. discriminate.
  - exists printed. rewrite Hrun, Htotal. reflexivity.
Defined.

(** ** Lines that [parse_float] turns down *)

Lemma parse_float_loop_refused (prompt : string) (bad tail : list string) (out : list output) :
  Forall (fun l => is_Some (refusal l)) bad ->
  parse_float_loop prompt (bad ++ tail) out
  = parse_float_loop prompt tail (out ++ refused prompt bad).
Proof.
  intros H. revert out. induction H as [|l bad Hl _ IH]; intros out.
  - simpl. rewrite List.app_nil_r. reflexivity.
  - rewrite <- List.app_comm_cons, parse_float_loop_cons.
    unfold refused. cbn [flat_map]. fold (refused prompt bad).
    unfold refusal in Hl |- *.
    destruct (PyFloat.of_string _) as [v|].
    + destruct (v <? 0)%float.
      * rewrite IH, <- List.app_assoc. reflexivity.
      * destruct Hl as [x Hx]. discriminate Hx.
    + rewrite IH, <- List.app_assoc. reflexivity.
Qed.

(** X24: [parse_float] skips every line that is not a number for [float]
    (after trimming, with commas read as points) or that is below zero,
    printing the prompt and the matching message once for each, and
    returns the value of the first other line, leaving the lines after it
    unread; if the input ends first, [EOFError] is raised. *)
Theorem parse_float_skips_refused (prompt : string) (bad : list string) (w : world) :
  Forall (fun l => is_Some (refusal l)) bad ->
  (forall line rest v,
     stdin w = bad ++ line :: rest ->
     PyFloat.of_string (Str.replace_comma (Str.strip line)) = Some v ->
     (v <? 0)%float = false ->
     parse_float prompt w
     = (Ok v, set_console rest ((stdout w ++ refused prompt bad) ++ [Prompt prompt]) w))
  /\ (stdin w = bad ->
      parse_float prompt w
      = (Raise EOFError,
         set_console [] ((stdout w ++ refused prompt bad) ++ [Prompt prompt]) w)).
Proof.
  intros Hbad. split.
  - intros line rest v Hin Hv Hneg. unfold parse_float.
    rewrite Hin, parse_float_loop_refused, parse_float_loop_cons, Hv, Hneg by exact Hbad.
    reflexivity.
  - intros Hin. unfold parse_float.
    rewrite <- (List.app_nil_r (stdin w)), Hin, parse_float_loop_refused by exact Hbad.
    reflexivity.
Qed.

(** A text, a negative amount, an empty line, then [1 250,5]: the space
    inside the number makes it a fourth refusal, and [0,5] is returned. *)
Lemma parse_float_skips_refused_witness :
  let w0 := {| state := {| budget := None; expenses := [] |};
               stdin := ["abc"; "-5"; ""; "1 250,5"; " 0,5 "; "left"];
               stdout := []; file := NoFile; writable := true |} in
  parse_float "Сума: " w0
  = (Ok 0.5%float,
     set_console ["left"]
       [Prompt "Сума: "; Line msg_not_number; Prompt "Сума: "; Line msg_negative;
        Prompt "Сума: "; Line msg_not_number; Prompt "Сума: "; Line msg_not_number;
        Prompt "Сума: "] w0).
Proof.
  intros w0.
  assert (Hbad : Forall (fun l => is_Some (refusal l)) ["abc"; "-5"; ""; "1 250,5"])
    by (repeat constructor; vm_compute; eauto).
  exact (proj1 (parse_float_skips_refused "Сума: " _ w0 Hbad) " 0,5 " ["left"] 0.5%float
           eq_refl eq_refl eq_refl).
Defined.

(** ** The help text *)

(** X25: the help handler prints one text and changes nothing, and the text
    is in step with the dispatcher: every command has a phrase that the
    help lists (after ["- "]) and that selects it. *)
Theorem help_lists_every_command (w : world) :
  cmd_help w = (Ok tt, set_console (stdin w) (stdout w ++ [Line help_text]) w)
  /\ forall c : command,
       exists phrase,
         Str.contains (String.append "- " phrase) help_text = true
         /\ selects phrase = Some c.
Proof.
  split; [reflexivity|]. intros [].
  - exists "допомога". split; vm_compute; reflexivity.
  - exists "встановити бюджет". split; vm_compute; reflexivity.
  - exists "додати витрату". split; vm_compute; reflexivity.
  - exists "показати витрати". split; vm_compute; reflexivity.
  - exists "витрати за дату". split; vm_compute; reflexivity.
  - exists "витрати за період". split; vm_compute; reflexivity.
  - exists "витрати за категорією". split; vm_compute; reflexivity.
  - exists "залишок". split; vm_compute; reflexivity.
  - exists "звіт за категоріями". split; vm_compute; reflexivity.
  - exists "вийти". split; vm_compute; reflexivity.
Qed.

(** ** Letter case in ASCII *)

Section DropSpaceMap.
Variable f : N -> N.
Hypothesis f_space1 : forall a, Str.space1 (f a) = Str.space1 a.
Hypothesis f_space2 : forall a b, Str.space2 (f a) (f b) = Str.space2 a b.
Hypothesis f_space3 : forall a b c, Str.space3 (f a) (f b) (f c) = Str.space3 a b c.

(** A change of characters that keeps white space as it is and makes
    none commutes with trimming. *)
Lemma drop_space_map (back : bool) (l : list N) :
  Str.drop_space back (List.map f l) = List.map f (Str.drop_space back l).
Proof.
  remember (length l) as n eqn:Hn. revert l Hn.
  induction n as [n IH] using lt_wf_ind. intros l Hn.
  assert (E2 : forall a b, (if back then Str.space2 (f b) (f a) else Str.space2 (f a) (f b))
                           = (if back then Str.space2 b a else Str.space2 a b))
    by (intros a b; destruct back; apply f_space2).
  assert (E3 : forall a b c,
             (if back then Str.space3 (f c) (f b) (f a) else Str.space3 (f a) (f b) (f c))
             = (if back then Str.space3 c b a else Str.space3 a b c))
    by (intros a b c; destruct back; apply f_space3).
  destruct l as [|a [|b [|c r]]].
  - reflexivity.
  - simpl. rewrite f_space1. destruct (Str.space1 a); reflexivity.
  - simpl. rewrite !f_space1, E2. destruct (Str.space1 a).
    + destruct (Str.space1 b); reflexivity.
    + destruct (if back then Str.space2 b a else Str.space2 a b); reflexivity.
  - rewrite !List.map_cons, !drop_space_cons3, f_space1, E2, E3.
    rewrite <- !List.map_cons.
    rewrite (IH (length (b :: c :: r))) by (subst n; simpl; lia || reflexivity).
    rewrite (IH (length (c :: r))) by (subst n; simpl; lia || reflexivity).
    rewrite (IH (length r)) by (subst n; simpl; lia || reflexivity).
    destruct (Str.space1 a); [reflexivity|].
    destruct (if back then Str.space2 b a else Str.space2 a b); [reflexivity|].
    destruct (if back then Str.space3 c b a else Str.space3 a b c); reflexivity.
Qed.

End DropSpaceMap.

Lemma ascii_lower_cases (a : N) :
  ascii_lower a = a \/ ((65 <= a <= 90)%N /\ ascii_lower a = (a + 32)%N).
Proof.
  unfold ascii_lower, Str.between.
  destruct ((65 <=? a)%N && (a <=? 90)%N) eqn:H; [|left; reflexivity].
  right. apply Bool.andb_true_iff in H. rewrite !N.leb_le in H. split; [exact H|reflexivity].
Qed.

Lemma between_false (lo hi a : N) : (a < lo \/ hi < a)%N -> Str.between lo hi a = false.
Proof.
  intros H. unfold Str.between. apply Bool.andb_false_iff.
  rewrite !N.leb_gt. destruct H; [left|right]; assumption.
Qed.

Lemma eqb_false (a b : N) : a <> b -> (a =? b)%N = false.
Proof. apply N.eqb_neq. Qed.

(** A letter is no part of a white-space character. *)
Lemma letter_space1 (a : N) : (65 <= a <= 122)%N -> Str.space1 a = false.
Proof.
  intros H. unfold Str.space1. rewrite !between_false by lia. reflexivity.
Qed.

Lemma letter_space2_l (a b : N) : (65 <= a <= 122)%N -> Str.space2 a b = false.
Proof. intros H. unfold Str.space2. rewrite (eqb_false a 194) by lia. reflexivity. Qed.

Lemma letter_space2_r (a b : N) : (65 <= b <= 122)%N -> Str.space2 a b = false.
Proof.
  intros H. unfold Str.space2.
  rewrite (eqb_false b 133), (eqb_false b 160) by lia. apply Bool.andb_false_r.
Qed.

Lemma letter_space3_1 (a b c : N) : (65 <= a <= 122)%N -> Str.space3 a b c = false.
Proof.
  intros H. unfold Str.space3.
  rewrite (eqb_false a 225), (eqb_false a 226), (eqb_false a 227) by lia. reflexivity.
Qed.

Lemma letter_space3_2 (a b c : N) : (65 <= b <= 122)%N -> Str.space3 a b c = false.
Proof.
  intros H. unfold Str.space3.
  rewrite (eqb_false b 154), (eqb_false b 128), (eqb_false b 129) by lia.
  rewrite !Bool.andb_false_r. reflexivity.
Qed.

Lemma letter_space3_3 (a b c : N) : (65 <= c <= 122)%N -> Str.space3 a b c = false.
Proof.
  intros H. unfold Str.space3.
  rewrite (eqb_false c 128), (eqb_false c 168), (eqb_false c 169), (eqb_false c 175),
    (eqb_false c 159) by lia.
  rewrite (between_false 128 138 c) by lia.
  rewrite !Bool.andb_false_r. reflexivity.
Qed.

Lemma space1_lower (a : N) : Str.space1 (ascii_lower a) = Str.space1 a.
Proof.
  destruct (ascii_lower_cases a) as [->|[H ->]]; [reflexivity|].
  rewrite !letter_space1 by lia. reflexivity.
Qed.

Lemma space2_lower (a b : N) : Str.space2 (ascii_lower a) (ascii_lower b) = Str.space2 a b.
Proof.
  destruct (ascii_lower_cases a) as [->|[Ha ->]].
  - destruct (ascii_lower_cases b) as [->|[Hb ->]]; [reflexivity|].
    rewrite !letter_space2_r by lia. reflexivity.
  - rewrite !letter_space2_l by lia. reflexivity.
Qed.

Lemma space3_lower (a b c : N) :
  Str.space3 (ascii_lower a) (ascii_lower b) (ascii_lower c) = Str.space3 a b c.
Proof.
  destruct (ascii_lower_cases a) as [->|[Ha ->]];
    [|rewrite !letter_space3_1 by lia; reflexivity].
  destruct (ascii_lower_cases b) as [->|[Hb ->]];
    [|rewrite !letter_space3_2 by lia; reflexivity].
  destruct (ascii_lower_cases c) as [->|[Hc ->]]; [reflexivity|].
  rewrite !letter_space3_3 by lia. reflexivity.
Qed.

Lemma lower_codes_map (l : list N) :
  Forall (fun a => (a < 128)%N) l -> Str.lower_codes l = List.map ascii_lower l.
Proof.
  induction 1 as [|a r Ha Hr IH]; [reflexivity|].
  cbn [Str.lower_codes List.map]. unfold ascii_lower at 1.
  destruct (Str.between 65 90 a); [rewrite IH; reflexivity|].
  destruct r as [|b r']; [reflexivity|].
  rewrite (eqb_false a 208), (eqb_false a 210) by lia. cbn [andb].
  rewrite IH. reflexivity.
Qed.

Lemma codes_lower_ascii (s : string) :
  Str.is_ascii s -> Str.codes (Str.lower s) = List.map ascii_lower (Str.codes s).
Proof.
  intros H. unfold Str.lower. rewrite codes_of_codes.
  - apply lower_codes_map, H.
  - eapply Forall_impl; [apply lower_codes_ascii, H|]. simpl. intros a Ha. lia.
Qed.

(** On ASCII text, trimming and lower-casing can be done in either order. *)
Lemma strip_lower_ascii (s : string) :
  Str.is_ascii s -> Str.strip (Str.lower s) = Str.lower (Str.strip s).
Proof.
  intros H.
  enough (E : Str.codes (Str.strip (Str.lower s)) = Str.codes (Str.lower (Str.strip s))).
  { apply (f_equal Str.of_codes) in E. rewrite !of_codes_codes in E. exact E. }
  rewrite codes_lower_ascii by (apply strip_codes, H).
  rewrite !strip_codes_eq, codes_lower_ascii by exact H.
  rewrite (drop_space_map ascii_lower space1_lower space2_lower space3_lower).
  rewrite <- List.map_rev.
  rewrite (drop_space_map ascii_lower space1_lower space2_lower space3_lower).
  rewrite <- List.map_rev. reflexivity.
Qed.

(** X26: the category filter ignores the letter case of ASCII text: two
    ASCII queries with the same lower-case form select the same expenses,
    and an expense whose ASCII category has the lower-case form of the
    ASCII query is selected. *)
Theorem filter_by_category_ascii_case (exps : list expense) (q1 q2 : string) :
  Str.is_ascii q1 -> Str.is_ascii q2 -> Str.lower q1 = Str.lower q2 ->
  filter_by_category exps q1 = filter_by_category exps q2
  /\ forall e, List.In e exps -> category e = Some q1 ->
               List.In e (filter_by_category exps q2).
Proof.
  intros H1 H2 Hl.
  assert (E : Str.lower (Str.strip q1) = Str.lower (Str.strip q2)).
  { rewrite <- !strip_lower_ascii by assumption. rewrite Hl. reflexivity. }
  split.
  - unfold filter_by_category. rewrite E. reflexivity.
  - intros e Hin Hc. unfold filter_by_category. apply List.filter_In.
    split; [exact Hin|]. rewrite Hc. unfold get. rewrite E. apply String.eqb_refl.
Qed.

(** The query [FOOD] finds what the query [Food] finds, among them the
    expense stored under [Food]. *)
Lemma filter_by_category_ascii_case_witness :
  let e := {| amount := Some 30%float; category := Some "Food";
              date := Some "2026-01-10"; comment := Some "" |} in
  let o := {| amount := Some 5%float; category := Some "Bus";
              date := Some "2026-01-11"; comment := Some "" |} in
  filter_by_category [o; e] "Food" = filter_by_category [o; e] "FOOD"
  /\ List.In e (filter_by_category [o; e] "FOOD").
Proof.
  intros e o.
  assert (H1 : Str.is_ascii "Food") by (repeat constructor).
  assert (H2 : Str.is_ascii "FOOD") by (repeat constructor).
  assert (Hl : Str.lower "Food" = Str.lower "FOOD") by (vm_compute; reflexivity).
  destruct (filter_by_category_ascii_case [o; e] "Food" "FOOD" H1 H2 Hl) as [Hq He].
  split; [exact Hq|]. apply (He e); [right; left; reflexivity|reflexivity].
Defined.
